(** * SAMurAI software-asset dashboard ([app.py])

    A shallow embedding of the aggregation engine, the inventory view and
    the JSON user/software endpoints of [app.py].

    Conventions of the embedding.
    - Python [int] is [Z]; [len] and generator counts [sum(1 for ...)] are
      [nat].
    - Python [float] ([cost_per_license], [usage_percentage],
      [utilization], ...) is read in two ways.  The statistics, the
      rankings and the reports take a float for the rational it stands
      for, [Q].  Module [Binary64] embeds the float computations of
      [get_dashboard_stats] in IEEE binary64, with its rounding, its
      infinities and NaN and the exceptions Python raises; the
      statements on the value of [utilization], on the sign of
      [potential_savings] and on the cost tiers are made there.
    - [date] is its proleptic ordinal in [Z]; [timedelta(days=n)] adds [n].
    - The three tables are lists of rows in primary-key order; a handler
      is a function from the store to a response and the store after it. *)

From Stdlib Require Import ZArith QArith List String Ascii Bool Lia.
From Stdlib Require Import Permutation Sorted DecimalString.
From Stdlib Require Import SpecFloat.
Import ListNotations.

Local Open Scope Z_scope.

(** ** Python builtins used by the handlers *)

Module Py.

Section SortedBuiltin.

Context {A K : Type}.
Variable key : A -> K.
Variable leb : K -> K -> bool.
Variable reverse : bool.

(** [before x y]: [x] may stand in front of [y] in the output. *)
Definition before (x y : A) : bool :=
  if reverse then leb (key y) (key x) else leb (key x) (key y).

Definition in_order (x y : A) : Prop := before x y = true.

Fixpoint insert (x : A) (l : list A) : list A :=
  match l with
  | [] => [x]
  | y :: l' => if before x y then x :: y :: l' else y :: insert x l'
  end.

(** [sorted(l, key=key, reverse=reverse)].  The builtin is a stable sort,
    also with [reverse=True]; a stable sort is determined by its
    input-output behaviour, which this insertion sort realises: an element
    is inserted in front of the elements that came after it in the input
    unless the order forces it behind them. *)
Fixpoint sorted (l : list A) : list A :=
  match l with
  | [] => []
  | x :: l' => insert x (sorted l')
  end.

End SortedBuiltin.

(** [l[start:stop]] for a list, with Python's treatment of negative and
    out-of-range bounds: a negative bound counts from the end, and both
    bounds are clamped to [0, len l]. *)
Definition slice_bound (n i : Z) : Z :=
  if i <? 0 then Z.max (i + n) 0 else Z.min i n.

Definition slice {A : Type} (l : list A) (start stop : Z) : list A :=
  let n := Z.of_nat (List.length l) in
  let lo := slice_bound n start in
  let hi := slice_bound n stop in
  firstn (Z.to_nat (hi - lo)) (skipn (Z.to_nat lo) l).

(** [str.lower()] on ASCII text. *)
Definition lower_ascii (c : ascii) : ascii :=
  let n := nat_of_ascii c in
  if ((65 <=? n) && (n <=? 90))%nat then ascii_of_nat (n + 32) else c.

Definition lower (s : string) : string :=
  string_of_list_ascii (map lower_ascii (list_ascii_of_string s)).

(** [str.strip()]: the ASCII white space characters are removed from both
    ends. *)
Definition isspace (c : ascii) : bool :=
  let n := nat_of_ascii c in
  (((9 <=? n) && (n <=? 13)) || ((28 <=? n) && (n <=? 32)))%nat.

Fixpoint lstrip (l : list ascii) : list ascii :=
  match l with
  | [] => []
  | c :: l' => if isspace c then lstrip l' else l
  end.

Definition strip (s : string) : string :=
  string_of_list_ascii
    (rev (lstrip (rev (lstrip (list_ascii_of_string s))))).

(** [str(n)] / [f'{n}'] for a non-negative [int]. *)
Definition str_of_nat (n : nat) : string :=
  NilEmpty.string_of_uint (Nat.to_uint n).

(** A [dict] used as a counter, in insertion order:
    [d[k] = d.get(k, 0) + 1]. *)
Fixpoint dict_incr (k : string) (d : list (string * nat)) : list (string * nat) :=
  match d with
  | [] => [(k, 1%nat)]
  | (k', v) :: d' =>
      if String.eqb k k' then (k', S v) :: d' else (k', v) :: dict_incr k d'
  end.

(** A JSON request body: [key in data] and [data[key]]. *)
Definition body := list (string * string).

Fixpoint get (data : body) (k : string) : option string :=
  match data with
  | [] => None
  | (k', v) :: data' => if String.eqb k k' then Some v else get data' k
  end.

Definition contains (data : body) (k : string) : bool :=
  match get data k with Some _ => true | None => false end.

(** [sum(1 for x in l if p x)]. *)
Definition count {A : Type} (p : A -> bool) (l : list A) : nat :=
  List.length (filter p l).

(** [sum(f x for x in l)]: a left fold from [0]. *)
Definition sumZ {A : Type} (f : A -> Z) (l : list A) : Z :=
  fold_left (fun acc x => acc + f x) l 0.

Definition sumQ {A : Type} (f : A -> Q) (l : list A) : Q :=
  fold_left (fun acc x => Qplus acc (f x)) l (0 # 1).

(** Strict comparison of two floats, [x < y]. *)
Definition Qltb (x y : Q) : bool := negb (Qle_bool y x).

End Py.

(** ** The schema *)

Module User.
Record t := mk {
  id : Z;
  username : string;
  email : string;
  password_hash : string;
  role : string
}.
End User.

Module Software.
Record t := mk {
  id : Z;
  name : string;
  vendor : string;
  description : string;
  license_type : string;
  total_licenses : Z;
  cost_per_license : Q;
  renewal_date : Z
}.
End Software.

Module License.
Record t := mk {
  id : Z;
  software_id : Z;
  assigned_to : option Z;
  status : string
}.
End License.

(** The database: the three tables. *)
Record Store := mkStore {
  users : list User.t;
  software : list Software.t;
  licenses : list License.t
}.

(** ** Derived properties of [Software] *)

Section Derived.

Variable db : Store.

(** [License.query.filter_by(software_id=..., status='active').count()] *)
Definition active_license_count (sid : Z) : nat :=
  Py.count
    (fun l => (License.software_id l =? sid) && String.eqb (License.status l) "active")
    (licenses db).

Definition used_licenses (s : Software.t) : Z :=
  Z.of_nat (active_license_count (Software.id s)).

Definition usage_percentage (s : Software.t) : Q :=
  if Software.total_licenses s =? 0 then 0 # 1
  else ((inject_Z (used_licenses s) / inject_Z (Software.total_licenses s)) * (100 # 1))%Q.

Definition total_cost (s : Software.t) : Q :=
  (inject_Z (Software.total_licenses s) * Software.cost_per_license s)%Q.

(** [today] is [datetime.now().date()]. *)
Definition days_until_renewal (today : Z) (s : Software.t) : Z :=
  Software.renewal_date s - today.

End Derived.

(** ** Aggregation engine *)

Module Stats.

Record categories := mkCat {
  high : nat;
  medium : nat;
  low : nat
}.

Record t := mk {
  total_software : nat;
  total_licenses : Z;
  active_licenses : Z;
  total_cost : Q;
  utilization : Q;
  expiring_soon : nat;
  expired : nat;
  avg_cost_per_license : Q;
  potential_savings : Q;
  license_types : list (string * nat);
  vendor_distribution : list (string * nat);
  usage_categories : categories;
  cost_categories : categories
}.

(** The record of the [except] branch. *)
Definition zeroed : t :=
  mk 0%nat 0 0 (0 # 1) (0 # 1) 0%nat 0%nat (0 # 1) (0 # 1) [] []
     (mkCat 0 0 0) (mkCat 0 0 0).

End Stats.

(** [get_dashboard_stats()].  [conn] is what [Software.query.all()] meets:
    [None] when the storage raises, which the [try] turns into the zeroed
    record.  [now_a] and [now_b] are the two readings of
    [datetime.now().date()], in the order the function makes them. *)
Definition get_dashboard_stats (conn : option Store) (now_a now_b : Z) : Stats.t :=
  match conn with
  | None => Stats.zeroed
  | Some db =>
      let software_list := software db in
      let total_software := List.length software_list in
      let total_licenses := Py.sumZ Software.total_licenses software_list in
      let active_licenses := Py.sumZ (used_licenses db) software_list in
      let total_cost :=
        Py.sumQ (fun s => (inject_Z (Software.total_licenses s) * Software.cost_per_license s)%Q)
                software_list in
      let utilization :=
        if total_licenses >? 0
        then ((inject_Z active_licenses / inject_Z total_licenses) * (100 # 1))%Q
        else 0 # 1 in
      let thirty_days := now_a + 30 in
      let today := now_b in
      let expiring_soon :=
        Py.count (fun s => (Software.renewal_date s <=? thirty_days)
                           && (Software.renewal_date s >? today)) software_list in
      let expired :=
        Py.count (fun s => Software.renewal_date s <=? today) software_list in
      let avg_cost_per_license :=
        if total_licenses >? 0 then (total_cost / inject_Z total_licenses)%Q else 0 # 1 in
      let potential_savings :=
        Py.sumQ
          (fun s => (inject_Z (Software.total_licenses s - used_licenses db s)
                     * Software.cost_per_license s)%Q)
          (filter (fun s => Py.Qltb (usage_percentage db s) (30 # 1)) software_list) in
      let license_types :=
        fold_left (fun d s => Py.dict_incr (Software.license_type s) d) software_list [] in
      let vendor_distribution :=
        fold_left (fun d s => Py.dict_incr (Software.vendor s) d) software_list [] in
      let high_usage :=
        Py.count (fun s => Qle_bool (80 # 1) (usage_percentage db s)) software_list in
      let medium_usage :=
        Py.count (fun s => Qle_bool (30 # 1) (usage_percentage db s)
                           && Py.Qltb (usage_percentage db s) (80 # 1)) software_list in
      let low_usage :=
        Py.count (fun s => Py.Qltb (usage_percentage db s) (30 # 1)) software_list in
      let line_cost s :=
        (Software.cost_per_license s * inject_Z (Software.total_licenses s))%Q in
      let high_cost :=
        Py.count (fun s => Qle_bool (100000 # 1) (line_cost s)) software_list in
      let medium_cost :=
        Py.count (fun s => Qle_bool (10000 # 1) (line_cost s)
                           && Py.Qltb (line_cost s) (100000 # 1)) software_list in
      let low_cost :=
        Py.count (fun s => Py.Qltb (line_cost s) (10000 # 1)) software_list in
      Stats.mk total_software total_licenses active_licenses total_cost
               utilization expiring_soon expired avg_cost_per_license
               potential_savings license_types vendor_distribution
               (Stats.mkCat high_usage medium_usage low_usage)
               (Stats.mkCat high_cost medium_cost low_cost)
  end.


(** The [top_software] value that [dashboard()] hands to its template:
    [sorted(software_list, key=lambda x: x.used_licenses, reverse=True)[:5]]. *)
Definition dashboard_top_software (db : Store) : list Software.t :=
  firstn 5 (Py.sorted (used_licenses db) Z.leb true (software db)).

(** ** The inventory view *)

Record list_view := mkListView {
  software_list : list Software.t;
  lv_filter_type : string;
  lv_page : Z;
  lv_per_page : Z;
  lv_total : nat;
  lv_has_next : bool;
  lv_has_prev : bool;
  lv_pages : Z
}.

Record all_view := mkAllView {
  active_software : list Software.t;
  expiring_software : list Software.t;
  expired_software : list Software.t;
  av_filter_type : string;
  av_page : Z;
  av_per_page : Z;
  av_total : nat;
  av_has_next : bool;
  av_has_prev : bool;
  av_pages : Z
}.

(** What [software_inventory()] passes to [render_template]: the keyword
    arguments of the call that is reached. *)
Inductive rendered :=
| ListTemplate (v : list_view)
| AllTemplate (v : all_view).

Definition per_page : Z := 12.

(** The three category lists, before any truncation or pagination. *)
Definition active_filtered (db : Store) : list Software.t :=
  Py.sorted (usage_percentage db) Qle_bool true
    (filter (fun s => Py.Qltb (70 # 1) (usage_percentage db s)) (software db)).

Definition expiring_filtered (db : Store) (today : Z) : list Software.t :=
  let thirty_days := today + 30 in
  Py.sorted Software.renewal_date Z.leb false
    (filter (fun s => (Software.renewal_date s <=? thirty_days)
                      && (Software.renewal_date s >? today)) (software db)).

Definition expired_filtered (db : Store) (today : Z) : list Software.t :=
  Py.sorted Software.renewal_date Z.leb true
    (filter (fun s => Software.renewal_date s <=? today) (software db)).

(** The manual pagination at the end of the handler. *)
Definition paginate (filter_type : string) (page : Z)
    (filtered_software : list Software.t) : rendered :=
  let total := List.length filtered_software in
  let start := (page - 1) * per_page in
  let end_ := start + per_page in
  let paginated_software :=
    if start <? Z.of_nat total then Py.slice filtered_software start end_ else [] in
  ListTemplate
    (mkListView paginated_software filter_type page per_page total
                (end_ <? Z.of_nat total) (page >? 1)
                ((Z.of_nat total + per_page - 1) / per_page)).

(** [software_inventory()] for an authenticated user, with the storage
    available; [filter_type] and [page] are the parsed query arguments and
    [today] is [datetime.now().date()]. *)
Definition software_inventory (db : Store) (filter_type : string) (page today : Z)
    : rendered :=
  let all_software := software db in
  match all_software with
  | [] => ListTemplate (mkListView [] filter_type 1 per_page 0 false false 1)
  | _ :: _ =>
      if String.eqb filter_type "active" then
        paginate filter_type page (active_filtered db)
      else if String.eqb filter_type "expiring" then
        paginate filter_type page (expiring_filtered db today)
      else if String.eqb filter_type "expired" then
        paginate filter_type page (expired_filtered db today)
      else
        AllTemplate
          (mkAllView (firstn 8 (active_filtered db))
                     (firstn 8 (expiring_filtered db today))
                     (firstn 8 (expired_filtered db today))
                     filter_type 1 per_page (List.length all_software)
                     false false 1)
  end.

(** ** The JSON endpoints *)

(** The bodies the endpoints serialise with [jsonify]. *)
Inductive json :=
| JError (error : string)
| JMessage (message : string)
| JUser (message : string) (id : Z) (username email role : string).

(** What a request ends in: a JSON body with its status code, the 404 that
    [get_or_404] aborts with, or the redirect to the login page that
    [login_required] answers an unauthenticated request with. *)
Inductive response :=
| Json (body : json) (status : Z)
| NotFound
| LoginRedirect.

Definition status_code (r : response) : Z :=
  match r with
  | Json _ status => status
  | NotFound => 404
  | LoginRedirect => 302
  end.

(** A handler either returns early with a response or goes on with a
    value. *)
Definition step (A : Type) : Type := (response + A)%type.

Notation "x <- c ;; k" :=
  (match c with inl r => inl r | inr x => k end)
  (at level 61, c at next level, right associativity).

(** *** Queries and writes on the [users] table *)

(** [db.session.get(User, id)] *)
Definition get_user (db : Store) (uid : Z) : option User.t :=
  find (fun u => User.id u =? uid) (users db).

(** [load_user] applied to the id kept in the session cookie, if any. *)
Definition current_user (db : Store) (session_uid : option Z) : option User.t :=
  match session_uid with
  | None => None
  | Some uid => get_user db uid
  end.

(** [User.query.filter_by(username=...).first()] and the same on [email]. *)
Definition first_by_username (db : Store) (v : string) : option User.t :=
  find (fun u => String.eqb (User.username u) v) (users db).

Definition first_by_email (db : Store) (v : string) : option User.t :=
  find (fun u => String.eqb (User.email u) v) (users db).

(** [User.query.filter_by(role='admin').count()] *)
Definition admin_count (db : Store) : nat :=
  Py.count (fun u => String.eqb (User.role u) "admin") (users db).

Definition with_users (db : Store) (us : list User.t) : Store :=
  mkStore us (software db) (licenses db).

(** The row of [u] replaces the row with the same primary key. *)
Definition replace_user (db : Store) (u : User.t) : Store :=
  with_users db
    (map (fun v => if User.id v =? User.id u then u else v) (users db)).

(** The [unique=True] columns: no other row has the username or the email
    of [u]. *)
Definition unique_ok (db : Store) (u : User.t) : bool :=
  forallb
    (fun v => (User.id v =? User.id u)
              || (negb (String.eqb (User.username v) (User.username u))
                  && negb (String.eqb (User.email v) (User.email u))))
    (users db).

(** The next primary key of the table. *)
Definition next_user_id (db : Store) : Z :=
  fold_right (fun u m => Z.max (User.id u) m) 0 (users db) + 1.

(** [db.session.add(u); db.session.commit()] for a new row: [None] is the
    [IntegrityError] of a violated unique constraint. *)
Definition insert_user (db : Store) (u : User.t) : option (User.t * Store) :=
  let row := User.mk (next_user_id db) (User.username u) (User.email u)
                     (User.password_hash u) (User.role u) in
  if unique_ok db row then Some (row, with_users db (users db ++ [row]))
  else None.

(** [db.session.commit()] after the attributes of the row [u] were set. *)
Definition commit_user (db : Store) (u : User.t) : option Store :=
  if unique_ok db u then Some (replace_user db u) else None.

(** [db.session.delete(u); db.session.commit()]: no relationship hangs on
    [User], the row is removed. *)
Definition remove_user (db : Store) (uid : Z) : Store :=
  with_users db (filter (fun v => negb (User.id v =? uid)) (users db)).

Definition set_username (u : User.t) (v : string) : User.t :=
  User.mk (User.id u) v (User.email u) (User.password_hash u) (User.role u).

Definition set_email (u : User.t) (v : string) : User.t :=
  User.mk (User.id u) (User.username u) v (User.password_hash u) (User.role u).

Definition set_password_hash (u : User.t) (v : string) : User.t :=
  User.mk (User.id u) (User.username u) (User.email u) v (User.role u).

Definition set_role (u : User.t) (v : string) : User.t :=
  User.mk (User.id u) (User.username u) (User.email u) (User.password_hash u) v.

Definition is_admin (u : User.t) : bool := String.eqb (User.role u) "admin".

Definition user_json (message : string) (u : User.t) : json :=
  JUser message (User.id u) (User.username u) (User.email u) (User.role u).

Section Endpoints.

(** [werkzeug.security.generate_password_hash], with its salt fixed. *)
Variable generate_password_hash : string -> string.

(** [User.__init__]: the row before it has a primary key; [role] is the
    column default until it is assigned. *)
Definition User_init (username email password : string) : User.t :=
  User.mk 0 (Py.strip username) (Py.lower (Py.strip email))
          (generate_password_hash password) "user".

(** [POST /api/users] *)
Definition add_user (db : Store) (session_uid : option Z) (data : Py.body)
    : response * Store :=
  match current_user db session_uid with
  | None => (LoginRedirect, db)
  | Some cu =>
      if negb (is_admin cu) then (Json (JError "Unauthorized") 403, db)
      else
        match Py.get data "username", Py.get data "email",
              Py.get data "password", Py.get data "role" with
        | Some username, Some email, Some password, Some role =>
            match first_by_username db username with
            | Some _ => (Json (JError "Username already exists") 400, db)
            | None =>
                match first_by_email db email with
                | Some _ => (Json (JError "Email already exists") 400, db)
                | None =>
                    let user := set_role (User_init username email password) role in
                    match insert_user db user with
                    | Some (row, db') =>
                        (Json (user_json "User created successfully" row) 201, db')
                    | None => (Json (JError "Internal server error") 500, db)
                    end
                end
            end
        | _, _, _, _ => (Json (JError "Missing required fields") 400, db)
        end
  end.

(** The body of the [try] of [update_user], up to the commit, one [if]
    block after the other: the row as the request wants it, or the
    response of an early [return].  The session flushes the pending row
    before each query, so the queries see [replace_user db user]. *)
Definition apply_username (db : Store) (user : User.t) (user_id : Z)
    (data : Py.body) : step User.t :=
  match Py.get data "username" with
  | Some v =>
      match first_by_username (replace_user db user) v with
      | Some existing =>
          if negb (User.id existing =? user_id)
          then inl (Json (JError "Username already exists") 400)
          else inr (set_username user v)
      | None => inr (set_username user v)
      end
  | None => inr user
  end.

Definition apply_email (db : Store) (user : User.t) (user_id : Z)
    (data : Py.body) : step User.t :=
  match Py.get data "email" with
  | Some v =>
      match first_by_email (replace_user db user) v with
      | Some existing =>
          if negb (User.id existing =? user_id)
          then inl (Json (JError "Email already exists") 400)
          else inr (set_email user v)
      | None => inr (set_email user v)
      end
  | None => inr user
  end.

Definition apply_password (user : User.t) (data : Py.body) : step User.t :=
  match Py.get data "password" with
  | Some v => inr (set_password_hash user (generate_password_hash v))
  | None => inr user
  end.

Definition apply_role (db : Store) (cu user : User.t) (user_id : Z)
    (data : Py.body) : step User.t :=
  match Py.get data "role" with
  | Some v =>
      if user_id =? User.id cu
      then inl (Json (JError "Cannot change own role") 400)
      else if is_admin user && negb (String.eqb v "admin")
      then if (admin_count (replace_user db user) <=? 1)%nat
           then inl (Json (JError "Cannot remove last admin") 400)
           else inr (set_role user v)
      else inr (set_role user v)
  | None => inr user
  end.

Definition update_user_fields (db : Store) (cu user : User.t) (user_id : Z)
    (data : Py.body) : step User.t :=
  user <- apply_username db user user_id data ;;
  user <- apply_email db user user_id data ;;
  user <- apply_password user data ;;
  apply_role db cu user user_id data.

(** [PUT /api/users/<user_id>].  An early [return] leaves the pending row
    uncommitted: the store is the one before the request. *)
Definition update_user (db : Store) (session_uid : option Z) (user_id : Z)
    (data : Py.body) : response * Store :=
  match current_user db session_uid with
  | None => (LoginRedirect, db)
  | Some cu =>
      if negb (is_admin cu) then (Json (JError "Unauthorized") 403, db)
      else
        match get_user db user_id with
        | None => (NotFound, db)
        | Some user =>
            match update_user_fields db cu user user_id data with
            | inl r => (r, db)
            | inr user' =>
                match commit_user db user' with
                | Some db' => (Json (user_json "User updated successfully" user') 200, db')
                | None => (Json (JError "Internal server error") 500, db)
                end
            end
        end
  end.

(** [DELETE /api/users/<user_id>] *)
Definition delete_user (db : Store) (session_uid : option Z) (user_id : Z)
    : response * Store :=
  match current_user db session_uid with
  | None => (LoginRedirect, db)
  | Some cu =>
      if negb (is_admin cu) then (Json (JError "Unauthorized") 403, db)
      else if user_id =? User.id cu
      then (Json (JError "Cannot delete own account") 400, db)
      else
        match get_user db user_id with
        | None => (NotFound, db)
        | Some user =>
            if is_admin user && (admin_count db <=? 1)%nat
            then (Json (JError "Cannot delete last admin") 400, db)
            else (Json (JMessage "User deleted successfully") 200,
                  remove_user db user_id)
        end
  end.

End Endpoints.

(** *** Software *)

(** [Software.query.get_or_404(software_id)] *)
Definition get_software (db : Store) (sid : Z) : option Software.t :=
  find (fun s => Software.id s =? sid) (software db).

(** [db.session.delete(software); db.session.commit()].  The [licenses]
    relationship has no delete cascade, so the session first detaches the
    remaining license rows by setting their [software_id] to NULL; the
    column is [nullable=False], and the commit raises when there is such a
    row ([None]). *)
Definition remove_software (db : Store) (sid : Z) : option Store :=
  if existsb (fun l => License.software_id l =? sid) (licenses db) then None
  else Some (mkStore (users db)
                     (filter (fun s => negb (Software.id s =? sid)) (software db))
                     (licenses db)).

(** [DELETE /api/software/<software_id>] *)
Definition delete_software (db : Store) (session_uid : option Z) (software_id : Z)
    : response * Store :=
  match current_user db session_uid with
  | None => (LoginRedirect, db)
  | Some cu =>
      if negb (is_admin cu) then (Json (JError "Unauthorized") 403, db)
      else
        match get_software db software_id with
        | None => (NotFound, db)
        | Some _ =>
            let active_licenses := active_license_count db software_id in
            if (0 <? active_licenses)%nat
            then (Json (JError ("Cannot delete software with "
                                ++ Py.str_of_nat active_licenses
                                ++ " active licenses")) 400, db)
            else
              match remove_software db software_id with
              | Some db' => (Json (JMessage "Software deleted successfully") 200, db')
              | None => (Json (JError "Internal server error") 500, db)
              end
        end
  end.

(** The list that a single-category mode sorts and then paginates
    ([filtered_software] in the handler). *)
Definition filtered_software (db : Store) (filter_type : string) (today : Z)
    : list Software.t :=
  if String.eqb filter_type "active" then active_filtered db
  else if String.eqb filter_type "expiring" then expiring_filtered db today
  else expired_filtered db today.

(** The orders the views are sorted by, as relations between an item and
    an item behind it. *)
Definition by_usage_desc (db : Store) (x y : Software.t) : Prop :=
  (usage_percentage db y <= usage_percentage db x)%Q.

Definition by_used_desc (db : Store) (x y : Software.t) : Prop :=
  used_licenses db y <= used_licenses db x.

Definition by_renewal_asc (x y : Software.t) : Prop :=
  Software.renewal_date x <= Software.renewal_date y.

Definition by_renewal_desc (x y : Software.t) : Prop :=
  Software.renewal_date y <= Software.renewal_date x.

(** How a request that may not go through is turned away, by who sends
    it: the login redirect without a session, 403 for a user who is not an
    admin, 400 for an admin. *)
Definition rejection_status (db : Store) (session_uid : option Z) : Z :=
  match current_user db session_uid with
  | None => 302
  | Some cu => if is_admin cu then 400 else 403
  end.

(** [user_id] names the one admin of the table. *)
Definition sole_admin (db : Store) (user_id : Z) : Prop :=
  exists target,
    get_user db user_id = Some target
    /\ is_admin target = true
    /\ admin_count db = 1%nat.

(** ** Sample stores *)

Module Sample.

Definition sw (id total : Z) (cost : Q) (renewal : Z) : Software.t :=
  Software.mk id "Suite" "Vendor" "" "Per User" total cost renewal.

Definition lic (id sid : Z) (status : string) : License.t :=
  License.mk id sid None status.

Definition user (id : Z) (username email role : string) : User.t :=
  User.mk id username email "" role.

Definition empty : Store := mkStore [] [] [].

(** One product with no seats and one active license. *)
Definition seatless : Store :=
  mkStore [] [sw 1 0 (10 # 1) 100] [lic 1 1 "active"].

(** Three products: 5 of 10 seats used, 6 of 100 seats used, and an
    expired one with an inactive license. *)
Definition fleet : Store :=
  mkStore []
    [sw 1 10 (10 # 1) 100; sw 2 100 (1 # 1) 5; sw 3 10 (1 # 1) (-3)]
    [lic 1 1 "active"; lic 2 1 "active"; lic 3 1 "active"; lic 4 1 "active";
     lic 5 1 "active"; lic 6 2 "active"; lic 7 2 "active"; lic 8 2 "active";
     lic 9 2 "active"; lic 10 2 "active"; lic 11 2 "active";
     lic 12 3 "inactive"].

(** One admin, one plain user, one product with one active license. *)
Definition staff : Store :=
  mkStore
    [user 1 "admin" "admin@samurai.com" "admin"; user 2 "bob" "bob@x.com" "user"]
    [sw 1 10 (1 # 1) 1]
    [lic 1 1 "active"].

(** A request body for [POST /api/users] whose email differs from bob's
    in letter case only. *)
Definition carl : Py.body :=
  [("username", "carl"); ("email", "Bob@X.com");
   ("password", "secret"); ("role", "user")]%string.

End Sample.

(** ** Further handlers *)

(** [d.get(k, 0)] on a counter. *)
Fixpoint dict_get (d : list (string * nat)) (k : string) : nat :=
  match d with
  | [] => 0%nat
  | (k', v) :: d' => if String.eqb k k' then v else dict_get d' k
  end.

(** The items of a rendered inventory page. *)
Definition page_items (r : rendered) : list Software.t :=
  match r with
  | ListTemplate v => software_list v
  | AllTemplate _ => []
  end.

(** *** The reports page *)

Module Report.
Record t := mk {
  report_type : string;
  software_list : list Software.t;
  total_software : nat;
  total_cost : Q;
  total_licenses : Z;
  used_licenses : Z;
  avg_usage : Q;
  expiring_soon : list Software.t;
  underutilized : list Software.t
}.
End Report.

(** [reports()] for an authenticated user: the keyword arguments of its
    [render_template]; [today] is [datetime.now().date()]. *)
Definition reports (db : Store) (report_type : string) (today : Z) : Report.t :=
  let software_list := software db in
  let total_software := List.length software_list in
  let total_cost := Py.sumQ total_cost software_list in
  let total_licenses := Py.sumZ Software.total_licenses software_list in
  let used := Py.sumZ (used_licenses db) software_list in
  let avg_usage :=
    match software_list with
    | [] => 0 # 1
    | _ :: _ =>
        (Py.sumQ (usage_percentage db) software_list
         / inject_Z (Z.of_nat (List.length software_list)))%Q
    end in
  let thirty_days := today + 30 in
  let expiring_soon :=
    filter (fun s => Software.renewal_date s <=? thirty_days) (software db) in
  let underutilized :=
    filter (fun s => Py.Qltb (usage_percentage db s) (30 # 1)) software_list in
  Report.mk report_type software_list total_software total_cost total_licenses
            used avg_usage expiring_soon underutilized.

(** *** The inventory summary of the chat endpoint *)

Module ChatContext.

Record detail := mkDetail {
  d_name : string;
  d_vendor : string;
  d_total_licenses : Z;
  d_used_licenses : Z;
  d_usage_percentage : Q;
  d_days_until_renewal : Z;
  d_cost_per_license : Q;
  d_total_cost : Q
}.

Record t := mk {
  total_software : nat;
  total_licenses : Z;
  used_licenses : Z;
  expiring_soon : nat;
  expired : nat;
  high_usage : nat;
  low_usage : nat;
  software_details : list detail
}.

End ChatContext.

(** The [context] dictionary that [ai_chat()] builds before it calls the
    model.  Every [days_until_renewal] reads the clock; the readings of
    one request are taken to fall on the one date [today]. *)
Definition ai_chat_context (db : Store) (today : Z) : ChatContext.t :=
  let software_list := software db in
  ChatContext.mk
    (List.length software_list)
    (Py.sumZ Software.total_licenses software_list)
    (Py.sumZ (used_licenses db) software_list)
    (Py.count (fun s => (days_until_renewal today s <=? 30)
                        && (days_until_renewal today s >? 0)) software_list)
    (Py.count (fun s => days_until_renewal today s <=? 0) software_list)
    (Py.count (fun s => Qle_bool (80 # 1) (usage_percentage db s)) software_list)
    (Py.count (fun s => Py.Qltb (usage_percentage db s) (30 # 1)) software_list)
    (map (fun s => ChatContext.mkDetail
                     (Software.name s) (Software.vendor s)
                     (Software.total_licenses s) (used_licenses db s)
                     (usage_percentage db s) (days_until_renewal today s)
                     (Software.cost_per_license s) (total_cost s))
         software_list).

(** *** Registration *)

(** What a page route answers with. *)
Inductive page :=
| RenderTemplate (name : string)
| RedirectTo (endpoint : string)
| FlashRedirect (message category endpoint : string).

(** [request.form.get(k, '')] *)
Definition form_get (form : Py.body) (k : string) : string :=
  match Py.get form k with
  | Some v => v
  | None => ""
  end.

Section Registration.

Variable generate_password_hash : string -> string.

(** [register()].  [form] is [Some] of the posted form for a [POST] and
    [None] for a [GET]; [len(password)] is the length of ASCII text. *)
Definition register (db : Store) (session_uid : option Z) (form : option Py.body)
    : page * Store :=
  match current_user db session_uid with
  | Some _ => (RedirectTo "dashboard", db)
  | None =>
      match form with
      | None => (RenderTemplate "register.html", db)
      | Some form =>
          let username := Py.strip (form_get form "username") in
          let email := Py.strip (form_get form "email") in
          let password := Py.strip (form_get form "password") in
          if String.eqb username ""
          then (FlashRedirect "Username is required" "error" "register", db)
          else if String.eqb email ""
          then (FlashRedirect "Email is required" "error" "register", db)
          else if String.eqb password ""
          then (FlashRedirect "Password is required" "error" "register", db)
          else if (String.length password <? 6)%nat
          then (FlashRedirect "Password must be at least 6 characters long"
                              "error" "register", db)
          else
            match first_by_username db username with
            | Some _ => (FlashRedirect "Username already exists" "error" "register", db)
            | None =>
                match first_by_email db (Py.lower email) with
                | Some _ =>
                    (FlashRedirect "Email already registered" "error" "register", db)
                | None =>
                    let user := User_init generate_password_hash username email password in
                    match insert_user db user with
                    | Some (_, db') =>
                        (FlashRedirect "Registration successful! Please login."
                                       "success" "login", db')
                    | None =>
                        (FlashRedirect
                           "An error occurred during registration. Please try again."
                           "error" "register", db)
                    end
                end
            end
      end
  end.

End Registration.

(** *** Creating, changing and searching software *)

(** The JSON body of [POST] and [PUT /api/software]: a key that is absent
    is [None]; the values have the types of the columns. *)
Module SoftwareBody.
Record t := mk {
  name : option string;
  vendor : option string;
  description : option string;
  license_type : option string;
  total_licenses : option Z;
  cost_per_license : option Q;
  renewal_date : option string
}.
End SoftwareBody.

(** The answer of a software endpoint: one of the common shape, or the
    message with the [software] object, which carries the columns of the
    row. *)
Inductive software_reply :=
| Plain (r : response)
| SoftwareJson (message : string) (row : Software.t) (status : Z).

Definition reply_status (r : software_reply) : Z :=
  match r with
  | Plain r => status_code r
  | SoftwareJson _ _ status => status
  end.

(** [Software.query.filter_by(name=..., vendor=...).first()] *)
Definition first_by_name_vendor (db : Store) (n v : string) : option Software.t :=
  find (fun s => String.eqb (Software.name s) n && String.eqb (Software.vendor s) v)
       (software db).

Definition next_software_id (db : Store) : Z :=
  fold_right (fun s m => Z.max (Software.id s) m) 0 (software db) + 1.

Definition with_software (db : Store) (l : list Software.t) : Store :=
  mkStore (users db) l (licenses db).

(** The pending row replaces the row with the same primary key. *)
Definition replace_software (db : Store) (s : Software.t) : Store :=
  with_software db
    (map (fun r => if Software.id r =? Software.id s then s else r) (software db)).

Definition set_name (s : Software.t) (v : string) : Software.t :=
  Software.mk (Software.id s) v (Software.vendor s) (Software.description s)
              (Software.license_type s) (Software.total_licenses s)
              (Software.cost_per_license s) (Software.renewal_date s).

Definition set_vendor (s : Software.t) (v : string) : Software.t :=
  Software.mk (Software.id s) (Software.name s) v (Software.description s)
              (Software.license_type s) (Software.total_licenses s)
              (Software.cost_per_license s) (Software.renewal_date s).

Definition set_description (s : Software.t) (v : string) : Software.t :=
  Software.mk (Software.id s) (Software.name s) (Software.vendor s) v
              (Software.license_type s) (Software.total_licenses s)
              (Software.cost_per_license s) (Software.renewal_date s).

Definition set_license_type (s : Software.t) (v : string) : Software.t :=
  Software.mk (Software.id s) (Software.name s) (Software.vendor s)
              (Software.description s) v (Software.total_licenses s)
              (Software.cost_per_license s) (Software.renewal_date s).

Definition set_total_licenses (s : Software.t) (v : Z) : Software.t :=
  Software.mk (Software.id s) (Software.name s) (Software.vendor s)
              (Software.description s) (Software.license_type s) v
              (Software.cost_per_license s) (Software.renewal_date s).

Definition set_cost_per_license (s : Software.t) (v : Q) : Software.t :=
  Software.mk (Software.id s) (Software.name s) (Software.vendor s)
              (Software.description s) (Software.license_type s)
              (Software.total_licenses s) v (Software.renewal_date s).

Definition set_renewal_date (s : Software.t) (v : Z) : Software.t :=
  Software.mk (Software.id s) (Software.name s) (Software.vendor s)
              (Software.description s) (Software.license_type s)
              (Software.total_licenses s) (Software.cost_per_license s) v.

Section SoftwareEndpoints.

(** [datetime.strptime(s, '%Y-%m-%d').date()]: [None] is its
    [ValueError]. *)
Variable strptime_date : string -> option Z.

(** [POST /api/software] *)
Definition add_software (db : Store) (session_uid : option Z)
    (data : SoftwareBody.t) : software_reply * Store :=
  match current_user db session_uid with
  | None => (Plain LoginRedirect, db)
  | Some cu =>
      if negb (is_admin cu) then (Plain (Json (JError "Unauthorized") 403), db)
      else
        match SoftwareBody.name data, SoftwareBody.vendor data,
              SoftwareBody.license_type data, SoftwareBody.total_licenses data,
              SoftwareBody.cost_per_license data, SoftwareBody.renewal_date data with
        | Some name, Some vendor, Some license_type, Some total_licenses,
          Some cost_per_license, Some renewal_date =>
            match first_by_name_vendor db name vendor with
            | Some _ => (Plain (Json (JError "Software already exists") 400), db)
            | None =>
                match strptime_date renewal_date with
                | None => (Plain (Json (JError "Internal server error") 500), db)
                | Some date =>
                    let description :=
                      match SoftwareBody.description data with
                      | Some d => d
                      | None => ""%string
                      end in
                    let row :=
                      Software.mk (next_software_id db) name vendor description
                                  license_type total_licenses cost_per_license date in
                    (SoftwareJson "Software added successfully" row 201,
                     with_software db (software db ++ [row]))
                end
            end
        | _, _, _, _, _, _ =>
            (Plain (Json (JError "Missing required fields") 400), db)
        end
  end.

(** The [if] blocks of [update_software], in their order. *)
Definition apply_name (db : Store) (s : Software.t) (software_id : Z)
    (data : SoftwareBody.t) : step Software.t :=
  match SoftwareBody.name data with
  | Some v =>
      match first_by_name_vendor (replace_software db s) v (Software.vendor s) with
      | Some existing =>
          if negb (Software.id existing =? software_id)
          then inl (Json (JError "Software already exists") 400)
          else inr (set_name s v)
      | None => inr (set_name s v)
      end
  | None => inr s
  end.

Definition apply_vendor (db : Store) (s : Software.t) (software_id : Z)
    (data : SoftwareBody.t) : step Software.t :=
  match SoftwareBody.vendor data with
  | Some v =>
      match first_by_name_vendor (replace_software db s) (Software.name s) v with
      | Some existing =>
          if negb (Software.id existing =? software_id)
          then inl (Json (JError "Software already exists") 400)
          else inr (set_vendor s v)
      | None => inr (set_vendor s v)
      end
  | None => inr s
  end.

Definition apply_plain_fields (s : Software.t) (data : SoftwareBody.t) : Software.t :=
  let s := match SoftwareBody.description data with
           | Some v => set_description s v | None => s end in
  let s := match SoftwareBody.license_type data with
           | Some v => set_license_type s v | None => s end in
  let s := match SoftwareBody.total_licenses data with
           | Some v => set_total_licenses s v | None => s end in
  match SoftwareBody.cost_per_license data with
  | Some v => set_cost_per_license s v | None => s end.

Definition apply_renewal_date (s : Software.t) (data : SoftwareBody.t)
    : step Software.t :=
  match SoftwareBody.renewal_date data with
  | Some v =>
      match strptime_date v with
      | Some date => inr (set_renewal_date s date)
      | None => inl (Json (JError "Internal server error") 500)
      end
  | None => inr s
  end.

Definition update_software_fields (db : Store) (s : Software.t) (software_id : Z)
    (data : SoftwareBody.t) : step Software.t :=
  s <- apply_name db s software_id data ;;
  s <- apply_vendor db s software_id data ;;
  apply_renewal_date (apply_plain_fields s data) data.

(** [PUT /api/software/<software_id>] *)
Definition update_software (db : Store) (session_uid : option Z) (software_id : Z)
    (data : SoftwareBody.t) : software_reply * Store :=
  match current_user db session_uid with
  | None => (Plain LoginRedirect, db)
  | Some cu =>
      if negb (is_admin cu) then (Plain (Json (JError "Unauthorized") 403), db)
      else
        match get_software db software_id with
        | None => (Plain NotFound, db)
        | Some s =>
            match update_software_fields db s software_id data with
            | inl r => (Plain r, db)
            | inr s' =>
                (SoftwareJson "Software updated successfully" s' 200,
                 replace_software db s')
            end
        end
  end.

End SoftwareEndpoints.

(** SQL [LIKE]: [%] stands for any run of characters, [_] for any one
    character, every other character for itself. *)
Fixpoint like (pattern text : list ascii) : bool :=
  match pattern with
  | [] => match text with [] => true | _ :: _ => false end
  | c :: pattern' =>
      if Ascii.eqb c "%" then
        (fix skip (t : list ascii) : bool :=
           like pattern' t
           || match t with
              | [] => false
              | _ :: t' => skip t'
              end) text
      else
        match text with
        | [] => false
        | d :: text' =>
            (Ascii.eqb c "_" || Ascii.eqb c d) && like pattern' text'
        end
  end.

(** [column.ilike(pattern)], which compares the lower-cased column with
    the lower-cased pattern (ASCII text). *)
Definition ilike (column pattern : string) : bool :=
  like (list_ascii_of_string (Py.lower pattern))
       (list_ascii_of_string (Py.lower column)).

Inductive search_reply :=
| SearchError (r : response)
| SearchResults (results : list Software.t).

(** [GET /api/software/search?q=...]: the rows behind the [results]
    array, in the order of the table. *)
Definition search_software (db : Store) (session_uid : option Z) (q : string)
    : search_reply :=
  match current_user db session_uid with
  | None => SearchError LoginRedirect
  | Some _ =>
      let query := Py.strip q in
      if String.eqb query ""
      then SearchError (Json (JError "Search query is required") 400)
      else
        let pattern := ("%" ++ query ++ "%")%string in
        SearchResults
          (filter (fun s => ilike (Software.name s) pattern
                            || ilike (Software.vendor s) pattern
                            || ilike (Software.description s) pattern)
                  (software db))
  end.

(** The list does not start with white space. *)
Definition head_kept (l : list ascii) : Prop :=
  match l with
  | [] => True
  | c :: _ => Py.isspace c = false
  end.

(** [needle] occurs in [text], letter case aside. *)
Definition contains_ci (text needle : string) : Prop :=
  exists pre post : list ascii,
    list_ascii_of_string (Py.lower text)
    = pre ++ list_ascii_of_string (Py.lower needle) ++ post.

(** No pair of rows shares name and vendor. *)
Definition unique_name_vendor (db : Store) : Prop :=
  forall a b, In a (software db) -> In b (software db) ->
    Software.name a = Software.name b -> Software.vendor a = Software.vendor b ->
    a = b.

(** ** Further sample data *)

Module Fixture.

(** Thirty products that expired on consecutive days. *)
Definition expired_thirty : Store :=
  mkStore [] (map (fun i => Sample.sw (Z.of_nat i) 10 (1 # 1) (- Z.of_nat i)) (seq 1 30)) [].

Definition office : SoftwareBody.t :=
  SoftwareBody.mk (Some "Office"%string) (Some "Contoso"%string) None
                  (Some "Per User"%string) (Some 25) (Some (12 # 1))
                  (Some "2030-01-31"%string).

(** A date reader that knows one date. *)
Definition one_date (s : string) : option Z :=
  if String.eqb s "2030-01-31" then Some 741108 else None.

Definition ann : Py.body :=
  [("username", " ann "); ("email", "Ann@X.com"); ("password", "secret1")]%string.

(** A form whose email is bob's in another letter case. *)
Definition bobby : Py.body :=
  [("username", "bobby"); ("email", " Bob@X.com "); ("password", "secret1")]%string.

Definition dana : Py.body :=
  [("username", "dana"); ("email", "Dana@X.com");
   ("password", "secret"); ("role", "admin")]%string.

End Fixture.

(** ** The float fields in binary64

    The statistics above read a Python [float] as the rational it stands
    for.  This part embeds the float computations of
    [get_dashboard_stats] in IEEE binary64 itself, on the [spec_float]
    of the standard library: a double is a signed zero, a signed
    infinity, NaN or [(-1)^s * m * 2^e], and the operations round to
    nearest, ties to even. *)

Module Binary64.

Definition prec : Z := 53.
Definition emax : Z := 1024.

(** The double nearest to an integer; infinity past the largest double. *)
Definition nearest (z : Z) : spec_float := binary_normalize prec emax z 0 false.

(** An integer as an operand of [SFdiv], which rounds the quotient of any
    two mantissas correctly. *)
Definition exact (z : Z) : spec_float :=
  match z with
  | 0 => S754_zero false
  | Zpos p => S754_finite false p 0
  | Zneg p => S754_finite true p 0
  end.

Definition is_infinity (f : spec_float) : bool :=
  match f with S754_infinity _ => true | _ => false end.

Definition is_zero (f : spec_float) : bool :=
  match f with S754_zero _ => true | _ => false end.

Definition is_nan (f : spec_float) : bool :=
  match f with S754_nan => true | _ => false end.

(** [math.isfinite]. *)
Definition is_finite (f : spec_float) : bool :=
  match f with S754_zero _ | S754_finite _ _ _ => true | _ => false end.

(** A computation that may raise: [None] is the exception. *)
Notation "x <~ c ;; k" :=
  (match c with Some x => k | None => None end)
  (at level 61, c at next level, right associativity).

(** The conversion of an [int] operand to [float]: [OverflowError] when
    the nearest double is infinite. *)
Definition of_int (z : Z) : option spec_float :=
  let f := nearest z in if is_infinity f then None else Some f.

(** [a / b] on two [int]s: the correctly rounded quotient;
    [ZeroDivisionError] for [b = 0], [OverflowError] when the quotient is
    past the largest double. *)
Definition truediv (a b : Z) : option spec_float :=
  if b =? 0 then None
  else let f := SFdiv prec emax (exact a) (exact b) in
       if is_infinity f then None else Some f.

(** A Python number: an [int] or a [float]. *)
Inductive num :=
| Int (z : Z)
| Float (f : spec_float).

Definition to_float (n : num) : option spec_float :=
  match n with
  | Int z => of_int z
  | Float f => Some f
  end.

(** [a + b], [a * b] and [a / b]: [int] arithmetic on two [int]s, float
    arithmetic once an operand is a [float].  Float addition and
    multiplication overflow to infinity without raising. *)
Definition add (a b : num) : option num :=
  match a, b with
  | Int x, Int y => Some (Int (x + y))
  | _, _ => x <~ to_float a ;; y <~ to_float b ;; Some (Float (SFadd prec emax x y))
  end.

Definition mul (a b : num) : option num :=
  match a, b with
  | Int x, Int y => Some (Int (x * y))
  | _, _ => x <~ to_float a ;; y <~ to_float b ;; Some (Float (SFmul prec emax x y))
  end.

Definition div (a b : num) : option num :=
  match a, b with
  | Int x, Int y => f <~ truediv x y ;; Some (Float f)
  | _, _ =>
      x <~ to_float a ;; y <~ to_float b ;;
      if is_zero y then None else Some (Float (SFdiv prec emax x y))
  end.

(** [a < c] and [a >= c] for one of the integer constants of the
    handlers, all of which are doubles.  A comparison with NaN is
    false. *)
Definition lt_const (a : num) (c : Z) : bool :=
  match a with
  | Int z => z <? c
  | Float f => SFltb f (nearest c)
  end.

Definition ge_const (a : num) (c : Z) : bool :=
  match a with
  | Int z => c <=? z
  | Float f => SFleb (nearest c) f
  end.

(** The rational a number stands for; none for an infinity or NaN. *)
Definition value (n : num) : option Q :=
  match n with
  | Int z => Some (inject_Z z)
  | Float (S754_zero _) => Some (0 # 1)
  | Float (S754_finite s m e) =>
      Some (inject_Z (cond_Zopp s (Zpos m)) * Qpower (2 # 1) e)%Q
  | Float _ => None
  end.

(** [n] is the rational [q], exactly. *)
Definition equals (n : num) (q : Q) : Prop :=
  match value n with
  | Some v => (v == q)%Q
  | None => False
  end.

(** [sum(term(x) for x in l if cond(x))]: a left fold from the [int] 0
    that evaluates the condition, then the term, then the addition. *)
Definition sum_where {A : Type} (cond : A -> option bool) (term : A -> option num)
    (l : list A) : option num :=
  fold_left
    (fun acc x =>
       a <~ acc ;; c <~ cond x ;;
       if c : bool then v <~ term x ;; add a v else Some a)
    l (Some (Int 0)).

(** [sum(term(x) for x in l)]. *)
Definition sum {A : Type} (term : A -> option num) (l : list A) : option num :=
  sum_where (fun _ => Some true) term l.

(** [sum(1 for x in l if cond(x))]. *)
Definition count_where {A : Type} (cond : A -> option bool) (l : list A) : option nat :=
  fold_left
    (fun acc x => n <~ acc ;; c <~ cond x ;; Some (if c : bool then S n else n))
    l (Some 0%nat).

(** The double in the [cost_per_license] column of a row: the double
    nearest to the number the row holds, infinity when that number is
    past the largest double (the JSON number [1e999] is read as [inf]
    and stored as such). *)
Definition cost_per_license (s : Software.t) : spec_float :=
  SFdiv prec emax (exact (Qnum (Software.cost_per_license s)))
                  (exact (Zpos (Qden (Software.cost_per_license s)))).

(** [Software.usage_percentage]: the [int] 0 without seats, otherwise the
    rounded quotient times 100, rounded again. *)
Definition usage_percentage (db : Store) (s : Software.t) : option num :=
  if Software.total_licenses s =? 0 then Some (Int 0)
  else q <~ div (Int (used_licenses db s)) (Int (Software.total_licenses s)) ;;
       mul q (Int 100).

Record t := mk {
  total_software : nat;
  total_licenses : Z;
  active_licenses : Z;
  total_cost : num;
  utilization : num;
  expiring_soon : nat;
  expired : nat;
  avg_cost_per_license : num;
  potential_savings : num;
  license_types : list (string * nat);
  vendor_distribution : list (string * nat);
  usage_categories : Stats.categories;
  cost_categories : Stats.categories
}.

(** The record of the [except] branch. *)
Definition zeroed : t :=
  mk 0%nat 0 0 (Int 0) (Int 0) 0%nat 0%nat (Int 0) (Int 0) [] []
     (Stats.mkCat 0 0 0) (Stats.mkCat 0 0 0).

(** The body of the [try] of [get_dashboard_stats], once
    [Software.query.all()] has returned. *)
Definition try_block (db : Store) (now_a now_b : Z) : option t :=
  let software_list := software db in
  let total_software := List.length software_list in
  let total_licenses := Py.sumZ Software.total_licenses software_list in
  let active_licenses := Py.sumZ (used_licenses db) software_list in
  total_cost <~
    sum (fun s => mul (Int (Software.total_licenses s)) (Float (cost_per_license s)))
        software_list ;;
  utilization <~
    (if total_licenses >? 0
     then q <~ div (Int active_licenses) (Int total_licenses) ;; mul q (Int 100)
     else Some (Int 0)) ;;
  let thirty_days := now_a + 30 in
  let today := now_b in
  let expiring_soon :=
    Py.count (fun s => (Software.renewal_date s <=? thirty_days)
                       && (Software.renewal_date s >? today)) software_list in
  let expired :=
    Py.count (fun s => Software.renewal_date s <=? today) software_list in
  avg_cost_per_license <~
    (if total_licenses >? 0 then div total_cost (Int total_licenses) else Some (Int 0)) ;;
  potential_savings <~
    sum_where
      (fun s => u <~ usage_percentage db s ;; Some (lt_const u 30))
      (fun s => mul (Int (Software.total_licenses s - used_licenses db s))
                    (Float (cost_per_license s)))
      software_list ;;
  let license_types :=
    fold_left (fun d s => Py.dict_incr (Software.license_type s) d) software_list [] in
  let vendor_distribution :=
    fold_left (fun d s => Py.dict_incr (Software.vendor s) d) software_list [] in
  high_usage <~
    count_where (fun s => u <~ usage_percentage db s ;; Some (ge_const u 80))
                software_list ;;
  medium_usage <~
    count_where (fun s => u <~ usage_percentage db s ;;
                          Some (ge_const u 30 && lt_const u 80))
                software_list ;;
  low_usage <~
    count_where (fun s => u <~ usage_percentage db s ;; Some (lt_const u 30))
                software_list ;;
  let line_cost s :=
    mul (Float (cost_per_license s)) (Int (Software.total_licenses s)) in
  high_cost <~
    count_where (fun s => c <~ line_cost s ;; Some (ge_const c 100000)) software_list ;;
  medium_cost <~
    count_where (fun s => c <~ line_cost s ;;
                          Some (ge_const c 10000 && lt_const c 100000))
                software_list ;;
  low_cost <~
    count_where (fun s => c <~ line_cost s ;; Some (lt_const c 10000)) software_list ;;
  Some (mk total_software total_licenses active_licenses total_cost
           utilization expiring_soon expired avg_cost_per_license
           potential_savings license_types vendor_distribution
           (Stats.mkCat high_usage medium_usage low_usage)
           (Stats.mkCat high_cost medium_cost low_cost)).

(** [get_dashboard_stats()]: whatever is raised inside the [try], by the
    storage or by the arithmetic, gives the zeroed record. *)
Definition get_dashboard_stats (conn : option Store) (now_a now_b : Z) : t :=
  match conn with
  | None => zeroed
  | Some db =>
      match try_block db now_a now_b with
      | Some stats => stats
      | None => zeroed
      end
  end.

(** The test a count applies to a row: it succeeds. *)
Definition holds {A : Type} (cond : A -> option bool) (x : A) : bool :=
  match cond x with
  | Some true => true
  | _ => false
  end.

(** [x >= 0] on a double. *)
Definition nonneg (f : spec_float) : bool :=
  match f with
  | S754_zero _ | S754_infinity false | S754_finite false _ _ => true
  | _ => false
  end.

(** A double of sign [s] that is not NaN. *)
Definition signed (s : bool) (f : spec_float) : Prop :=
  match f with
  | S754_zero s' | S754_infinity s' | S754_finite s' _ _ => s' = s
  | S754_nan => False
  end.

End Binary64.

(** Stores for the float fields. *)
Module Ledger.

(** A product whose seat count is negative, with one active license. *)
Definition overdrawn : Store :=
  mkStore [] [Sample.sw 1 (-4) (10 # 1) 100] [Sample.lic 1 1 "active"].

(** A product without seats or licenses whose cost was given as
    [1e999]. *)
Definition unbounded : Store :=
  mkStore [] [Sample.sw 1 0 (inject_Z (10 ^ 999)) 100] [].

(** One of three seats in use. *)
Definition third : Store :=
  mkStore [] [Sample.sw 1 3 (10 # 1) 100] [Sample.lic 1 1 "active"].

End Ledger.

(** * Properties *)

(** ** Facts about the builtins *)

Section SumFacts.

Context {A : Type}.

Lemma fold_sumZ_ge (f : A -> Z) (l : list A) :
  Forall (fun x => 0 <= f x) l ->
  forall a, a <= fold_left (fun acc x => acc + f x) l a.
Proof.
  induction 1 as [| x l Hx _ IH]; intros a; simpl.
  - lia.
  - specialize (IH (a + f x)). lia.
Qed.

Lemma sumZ_nonneg (f : A -> Z) (l : list A) :
  Forall (fun x => 0 <= f x) l -> 0 <= Py.sumZ f l.
Proof.
  intros H. unfold Py.sumZ. now apply fold_sumZ_ge.
Qed.

Lemma fold_sumQ_nonneg (f : A -> Q) (l : list A) :
  Forall (fun x => (0 <= f x)%Q) l ->
  forall a, (0 <= a)%Q -> (0 <= fold_left (fun acc x => Qplus acc (f x)) l a)%Q.
Proof.
  induction 1 as [| x l Hx _ IH]; intros a Ha; simpl.
  - exact Ha.
  - apply IH.
    setoid_replace (0 : Q) with (0 + 0)%Q by ring.
    now apply Qplus_le_compat.
Qed.

Lemma sumQ_nonneg (f : A -> Q) (l : list A) :
  Forall (fun x => (0 <= f x)%Q) l -> (0 <= Py.sumQ f l)%Q.
Proof.
  intros H. unfold Py.sumQ. apply fold_sumQ_nonneg; [exact H | apply Qle_refl].
Qed.

(** Three predicates of which exactly one holds at each element split the
    list: the three counts add up to its length. *)
Lemma count_three_way (p q r : A -> bool) (l : list A) :
  (forall x, (Nat.b2n (p x) + Nat.b2n (q x) + Nat.b2n (r x) = 1)%nat) ->
  (Py.count p l + Py.count q l + Py.count r l = List.length l)%nat.
Proof.
  intros H. unfold Py.count.
  induction l as [| x l IH]; simpl; [reflexivity |].
  specialize (H x).
  destruct (p x), (q x), (r x); simpl in *; lia.
Qed.

End SumFacts.

(** Order facts on the float comparisons. *)
Lemma Qltb_lt (x y : Q) : Py.Qltb x y = true <-> (x < y)%Q.
Proof.
  unfold Py.Qltb. rewrite negb_true_iff.
  split; intros H.
  - apply Qnot_le_lt. intros Hle.
    apply Qle_bool_iff in Hle. congruence.
  - destruct (Qle_bool y x) eqn:E; [| reflexivity].
    apply Qle_bool_iff in E. exfalso. now apply (Qlt_not_le x y).
Qed.

Lemma Qle_bool_total (x y : Q) : Qle_bool x y = false -> Qle_bool y x = true.
Proof.
  intros H. apply Qle_bool_iff. apply Qlt_le_weak.
  apply Qnot_le_lt. intros Hle. apply Qle_bool_iff in Hle. congruence.
Qed.

Lemma Qle_bool_trans (x y z : Q) :
  Qle_bool x y = true -> Qle_bool y z = true -> Qle_bool x z = true.
Proof.
  rewrite !Qle_bool_iff. apply Qle_trans.
Qed.

(** The usage tiers of one percentage: exactly one of the three tests of
    [get_dashboard_stats] succeeds. *)
Lemma usage_tier_exclusive (u : Q) :
  (Nat.b2n (Qle_bool (80 # 1) u)
   + Nat.b2n (Qle_bool (30 # 1) u && Py.Qltb u (80 # 1))
   + Nat.b2n (Py.Qltb u (30 # 1)) = 1)%nat.
Proof.
  unfold Py.Qltb.
  destruct (Qle_bool (80 # 1) u) eqn:H80; simpl.
  - assert (H30 : Qle_bool (30 # 1) u = true).
    { apply (Qle_bool_trans _ (80 # 1)); [reflexivity | exact H80]. }
    rewrite H30. reflexivity.
  - destruct (Qle_bool (30 # 1) u); reflexivity.
Qed.

(** ** Dashboard statistics *)

(** The guard of [utilization] is [total_licenses > 0]: a sum that is not
    positive gives [0], a positive one gives the quotient. *)
Lemma utilization_guard (db : Store) (now_a now_b : Z) :
  let total := Py.sumZ Software.total_licenses (software db) in
  let used := Py.sumZ (used_licenses db) (software db) in
  Stats.utilization (get_dashboard_stats (Some db) now_a now_b)
  = if total >? 0 then ((inject_Z used / inject_Z total) * (100 # 1))%Q else 0 # 1.
Proof. reflexivity. Qed.

(** C5. The three usage buckets count the items at or above 80, in
    [30, 80) and below 30; each item falls in exactly one of them, and the
    three counts add up to [total_software].  The zeroed record of a
    failed computation satisfies the equation as well. *)
Theorem usage_categories_partition (db : Store) (now_a now_b : Z) :
  let stats := get_dashboard_stats (Some db) now_a now_b in
  let cats := Stats.usage_categories stats in
  let failed := get_dashboard_stats None now_a now_b in
  let u := usage_percentage db in
  (Stats.high cats + Stats.medium cats + Stats.low cats = Stats.total_software stats)%nat
  /\ Stats.total_software stats = List.length (software db)
  /\ Stats.high cats
     = List.length (filter (fun s => Qle_bool (80 # 1) (u s)) (software db))
  /\ Stats.medium cats
     = List.length (filter (fun s => Qle_bool (30 # 1) (u s) && Py.Qltb (u s) (80 # 1))
                           (software db))
  /\ Stats.low cats
     = List.length (filter (fun s => Py.Qltb (u s) (30 # 1)) (software db))
  /\ Forall (fun s =>
               ((80 <= u s)%Q /\ ~ (u s < 30)%Q)
               \/ ((30 <= u s)%Q /\ (u s < 80)%Q)
               \/ ((u s < 30)%Q /\ ~ (80 <= u s)%Q))
            (software db)
  /\ (Stats.high (Stats.usage_categories failed)
      + Stats.medium (Stats.usage_categories failed)
      + Stats.low (Stats.usage_categories failed)
      = Stats.total_software failed)%nat.
Proof.
  simpl. split.
  { apply count_three_way. intros s. apply usage_tier_exclusive. }
  repeat (split; [reflexivity |]).
  split; [| reflexivity].
  apply Forall_forall. intros s _.
  destruct (Qlt_le_dec (usage_percentage db s) (30 # 1)) as [Hlt | Hge].
  - right; right. split; [exact Hlt |].
    intros H80. apply (Qlt_not_le _ _ Hlt).
    apply Qle_trans with (80 # 1); [discriminate | exact H80].
  - destruct (Qlt_le_dec (usage_percentage db s) (80 # 1)) as [Hlt' | Hge'].
    + right; left. now split.
    + left. split; [exact Hge' |]. now apply Qle_not_lt.
Qed.

(** ** The [sorted] builtin: a stable sort *)

Section SortedFacts.

Context {A K : Type}.
Variable key : A -> K.
Variable leb : K -> K -> bool.
Variable reverse : bool.

Hypothesis leb_total : forall a b, leb a b = false -> leb b a = true.
Hypothesis leb_trans :
  forall a b c, leb a b = true -> leb b c = true -> leb a c = true.

Local Abbreviation R := (Py.in_order key leb reverse).

Lemma insert_perm (x : A) (l : list A) :
  Permutation (Py.insert key leb reverse x l) (x :: l).
Proof.
  induction l as [| y l IH]; simpl.
  - apply Permutation_refl.
  - destruct (Py.before key leb reverse x y).
    + apply Permutation_refl.
    + apply perm_trans with (y :: x :: l).
      * now apply perm_skip.
      * apply perm_swap.
Qed.

Lemma sorted_perm (l : list A) :
  Permutation (Py.sorted key leb reverse l) l.
Proof.
  induction l as [| x l IH]; simpl.
  - apply perm_nil.
  - apply perm_trans with (x :: Py.sorted key leb reverse l).
    + apply insert_perm.
    + now apply perm_skip.
Qed.

Lemma sorted_In (x : A) (l : list A) :
  In x (Py.sorted key leb reverse l) <-> In x l.
Proof.
  split; apply Permutation_in.
  - apply sorted_perm.
  - apply Permutation_sym, sorted_perm.
Qed.

Lemma before_total (x y : A) :
  Py.before key leb reverse x y = false -> R y x.
Proof.
  unfold R, Py.before. destruct reverse; apply leb_total.
Qed.

Lemma before_trans (x y z : A) : R x y -> R y z -> R x z.
Proof.
  unfold R, Py.before. destruct reverse; intros H1 H2.
  - exact (leb_trans _ _ _ H2 H1).
  - exact (leb_trans _ _ _ H1 H2).
Qed.

Lemma insert_sorted (x : A) (l : list A) :
  StronglySorted R l -> StronglySorted R (Py.insert key leb reverse x l).
Proof.
  induction 1 as [| y l Hs IH Hy]; simpl.
  - constructor; constructor.
  - destruct (Py.before key leb reverse x y) eqn:E.
    + constructor.
      * now constructor.
      * constructor; [exact E |].
        eapply Forall_impl; [| exact Hy].
        intros z Hz. exact (before_trans x y z E Hz).
    + constructor; [exact IH |].
      apply (Permutation_Forall (x := x :: l)).
      * apply Permutation_sym, insert_perm.
      * constructor; [now apply before_total | exact Hy].
Qed.

Lemma sorted_StronglySorted (l : list A) :
  StronglySorted R (Py.sorted key leb reverse l).
Proof.
  induction l as [| x l IH]; simpl.
  - constructor.
  - now apply insert_sorted.
Qed.



End SortedFacts.

(** ** List slices *)

Lemma In_firstn {A : Type} (n : nat) (l : list A) (x : A) :
  In x (firstn n l) -> In x l.
Proof.
  intros H. rewrite <- (firstn_skipn n l). apply in_or_app. now left.
Qed.

Lemma In_skipn {A : Type} (n : nat) (l : list A) (x : A) :
  In x (skipn n l) -> In x l.
Proof.
  intros H. rewrite <- (firstn_skipn n l). apply in_or_app. now right.
Qed.

Lemma slice_incl {A : Type} (l : list A) (start stop : Z) (x : A) :
  In x (Py.slice l start stop) -> In x l.
Proof.
  unfold Py.slice. intros H.
  apply In_firstn in H. now apply In_skipn in H.
Qed.

(** With bounds inside [0, len l] the slice is the plain one. *)
Lemma slice_nonneg {A : Type} (l : list A) (start stop : Z) :
  0 <= start <= stop ->
  Py.slice l start stop
  = firstn (Z.to_nat (stop - start)) (skipn (Z.to_nat start) l).
Proof.
  intros [H0 Hle]. unfold Py.slice, Py.slice_bound.
  set (n := Z.of_nat (List.length l)).
  assert (Hn : 0 <= n) by (unfold n; lia).
  replace (start <? 0) with false by (symmetry; apply Z.ltb_ge; lia).
  replace (stop <? 0) with false by (symmetry; apply Z.ltb_ge; lia).
  destruct (Z.le_gt_cases n start) as [Hout | Hin].
  - (* start at or beyond the end: both sides are empty *)
    rewrite (Z.min_r start n) by lia.
    rewrite (skipn_all2 l) by (unfold n in *; lia).
    rewrite (skipn_all2 l) by (unfold n in *; lia).
    now rewrite !firstn_nil.
  - rewrite (Z.min_l start n) by lia.
    destruct (Z.le_gt_cases stop n) as [Hs | Hs].
    + now rewrite (Z.min_l stop n) by lia.
    + rewrite (Z.min_r stop n) by lia.
      rewrite !firstn_all2; try reflexivity;
        rewrite length_skipn; unfold n in *; lia.
Qed.

Lemma slice_beyond {A : Type} (l : list A) (start stop : Z) :
  Z.of_nat (List.length l) <= start -> Py.slice l start stop = [].
Proof.
  intros H. unfold Py.slice, Py.slice_bound.
  set (n := Z.of_nat (List.length l)) in *.
  assert (Hn : 0 <= n) by (unfold n; lia).
  replace (start <? 0) with false by (symmetry; apply Z.ltb_ge; lia).
  rewrite (Z.min_r start n) by lia.
  rewrite (skipn_all2 l) by (unfold n in *; lia).
  apply firstn_nil.
Qed.

(** ** The orders the handlers sort by *)

Lemma Zleb_total (a b : Z) : (a <=? b) = false -> (b <=? a) = true.
Proof. intros H. apply Z.leb_gt in H. apply Z.leb_le. lia. Qed.

Lemma Zleb_trans (a b c : Z) :
  (a <=? b) = true -> (b <=? c) = true -> (a <=? c) = true.
Proof. rewrite !Z.leb_le. lia. Qed.

Lemma StronglySorted_impl {A : Type} (R R' : A -> A -> Prop) (l : list A) :
  (forall x y, R x y -> R' x y) -> StronglySorted R l -> StronglySorted R' l.
Proof.
  intros Himp. induction 1 as [| x l Hs IH Hx]; constructor.
  - exact IH.
  - eapply Forall_impl; [| exact Hx]. intros y. apply Himp.
Qed.

Section SortOrders.

Variable db : Store.

Lemma sorted_usage_desc (l : list Software.t) :
  StronglySorted (by_usage_desc db) (Py.sorted (usage_percentage db) Qle_bool true l).
Proof.
  eapply StronglySorted_impl;
    [| apply (sorted_StronglySorted _ _ _ Qle_bool_total Qle_bool_trans)].
  intros x y H. unfold by_usage_desc. now apply Qle_bool_iff.
Qed.

Lemma sorted_used_desc (l : list Software.t) :
  StronglySorted (by_used_desc db) (Py.sorted (used_licenses db) Z.leb true l).
Proof.
  eapply StronglySorted_impl;
    [| apply (sorted_StronglySorted _ _ _ Zleb_total Zleb_trans)].
  intros x y H. unfold by_used_desc. now apply Z.leb_le.
Qed.

Lemma sorted_renewal_asc (l : list Software.t) :
  StronglySorted by_renewal_asc (Py.sorted Software.renewal_date Z.leb false l).
Proof.
  eapply StronglySorted_impl;
    [| apply (sorted_StronglySorted _ _ _ Zleb_total Zleb_trans)].
  intros x y H. unfold by_renewal_asc. now apply Z.leb_le.
Qed.

Lemma sorted_renewal_desc (l : list Software.t) :
  StronglySorted by_renewal_desc (Py.sorted Software.renewal_date Z.leb true l).
Proof.
  eapply StronglySorted_impl;
    [| apply (sorted_StronglySorted _ _ _ Zleb_total Zleb_trans)].
  intros x y H. unfold by_renewal_desc. now apply Z.leb_le.
Qed.



End SortOrders.

(** ** The inventory view *)

Lemma slice_nil {A : Type} (start stop : Z) : Py.slice (@nil A) start stop = [].
Proof.
  unfold Py.slice. now rewrite skipn_nil, firstn_nil.
Qed.

(** The page of [paginate] is always the Python slice: where the handler
    answers [[]] because [start] is not below [total], the slice is empty
    too. *)
Lemma paginate_slice (filter_type : string) (page : Z) (l : list Software.t) :
  exists v,
    paginate filter_type page l = ListTemplate v
    /\ software_list v
       = Py.slice l ((page - 1) * per_page) ((page - 1) * per_page + per_page).
Proof.
  unfold paginate. eexists. split; [reflexivity |]. simpl.
  destruct ((page - 1) * per_page <? Z.of_nat (List.length l)) eqn:E.
  - reflexivity.
  - symmetry. apply slice_beyond. now apply Z.ltb_ge.
Qed.

(** In a single-category mode the handler renders the list template with
    the slice of the sorted category; an empty inventory is the empty
    slice. *)
Lemma inventory_single_mode (db : Store) (filter_type : string) (page today : Z) :
  In filter_type ["active"; "expiring"; "expired"]%string ->
  exists v,
    software_inventory db filter_type page today = ListTemplate v
    /\ software_list v
       = Py.slice (filtered_software db filter_type today)
                  ((page - 1) * per_page) ((page - 1) * per_page + per_page).
Proof.
  intros Hmode.
  destruct (software db) as [| s0 rest] eqn:E.
  - exists (mkListView [] filter_type 1 per_page 0 false false 1).
    unfold software_inventory. rewrite E. split; [reflexivity |].
    assert (Hnil : filtered_software db filter_type today = []).
    { unfold filtered_software, active_filtered, expiring_filtered, expired_filtered.
      rewrite E. simpl.
      destruct (String.eqb filter_type "active");
        [| destruct (String.eqb filter_type "expiring")]; reflexivity. }
    rewrite Hnil. simpl. symmetry. apply slice_nil.
  - unfold software_inventory, filtered_software. rewrite E.
    simpl in Hmode.
    destruct Hmode as [<- | [<- | [<- | []]]]; simpl; apply paginate_slice.
Qed.

Lemma expiring_filtered_window (db : Store) (today : Z) :
  Forall (fun s => today < Software.renewal_date s <= today + 30)
         (expiring_filtered db today).
Proof.
  apply Forall_forall. intros s H.
  unfold expiring_filtered in H.
  apply sorted_In in H. apply filter_In in H. destruct H as [_ H].
  apply andb_true_iff in H. destruct H as [H1 H2].
  apply Z.leb_le in H1. apply Z.gtb_lt in H2. lia.
Qed.

Lemma expired_filtered_past (db : Store) (today : Z) :
  Forall (fun s => Software.renewal_date s <= today) (expired_filtered db today).
Proof.
  apply Forall_forall. intros s H.
  unfold expired_filtered in H.
  apply sorted_In in H. apply filter_In in H. destruct H as [_ H].
  now apply Z.leb_le in H.
Qed.

(** C4. For every Software collection and date [today], the items on a
    page of mode [expiring] have [today < renewal_date <= today + 30],
    the items on a page of mode [expired] have [renewal_date <= today],
    and no item of the first is an item of the second. *)
Theorem expiring_expired_filters (db : Store) (today page_a page_b : Z) :
  exists va vb,
    software_inventory db "expiring" page_a today = ListTemplate va
    /\ software_inventory db "expired" page_b today = ListTemplate vb
    /\ Forall (fun s => today < Software.renewal_date s <= today + 30)
              (software_list va)
    /\ Forall (fun s => Software.renewal_date s <= today) (software_list vb)
    /\ Forall (fun s => ~ In s (software_list vb)) (software_list va).
Proof.
  destruct (inventory_single_mode db "expiring" page_a today) as (va & Ea & La).
  { simpl; auto. }
  destruct (inventory_single_mode db "expired" page_b today) as (vb & Eb & Lb).
  { simpl; auto. }
  exists va, vb.
  assert (Ha : Forall (fun s => today < Software.renewal_date s <= today + 30)
                      (software_list va)).
  { apply Forall_forall. intros s Hs. rewrite La in Hs. apply slice_incl in Hs.
    exact (proj1 (Forall_forall _ _) (expiring_filtered_window db today) s Hs). }
  assert (Hb : Forall (fun s => Software.renewal_date s <= today) (software_list vb)).
  { apply Forall_forall. intros s Hs. rewrite Lb in Hs. apply slice_incl in Hs.
    exact (proj1 (Forall_forall _ _) (expired_filtered_past db today) s Hs). }
  repeat (split; [assumption |]).
  apply Forall_forall. intros s Hsa Hsb.
  rewrite Forall_forall in Ha, Hb.
  specialize (Ha s Hsa). specialize (Hb s Hsb). lia.
Qed.

(** C8. In each single-category mode and for every page number, the page
    is the slice of the sorted category from [start = (page - 1) * 12] to
    [start + 12]; for a page number from 1 on that is the 12 items after
    the first [start]; and when [start] is at or beyond the end of the
    list the page is empty.  The handler is total: it renders a page for
    every input. *)
Theorem inventory_pagination (db : Store) (filter_type : string) (page today : Z) :
  In filter_type ["active"; "expiring"; "expired"]%string ->
  let filtered := filtered_software db filter_type today in
  let start := (page - 1) * 12 in
  exists v,
    software_inventory db filter_type page today = ListTemplate v
    /\ software_list v = Py.slice filtered start (start + 12)
    /\ (1 <= page ->
        software_list v = firstn 12 (skipn (Z.to_nat start) filtered))
    /\ (Z.of_nat (List.length filtered) <= start -> software_list v = []).
Proof.
  intros Hmode filtered start.
  destruct (inventory_single_mode db filter_type page today Hmode) as (v & Ev & Lv).
  exists v. change per_page with 12 in Lv. fold filtered start in Lv.
  split; [exact Ev |]. split; [exact Lv |]. split.
  - intros Hpage. rewrite Lv, slice_nonneg by (unfold start; lia).
    replace (start + 12 - start) with 12 by lia. reflexivity.
  - intros Hout. rewrite Lv. now apply slice_beyond.
Qed.

Lemma filtered_category_perm (db : Store) (today : Z) :
  Permutation (active_filtered db)
    (filter (fun s => Py.Qltb (70 # 1) (usage_percentage db s)) (software db))
  /\ Permutation (expiring_filtered db today)
       (filter (fun s => (Software.renewal_date s <=? today + 30)
                         && (Software.renewal_date s >? today)) (software db))
  /\ Permutation (expired_filtered db today)
       (filter (fun s => Software.renewal_date s <=? today) (software db)).
Proof.
  repeat split; apply sorted_perm.
Qed.

(** C7, as amended. For mode [all] and a Software collection that is not
    empty, the handler renders three lists, each computed from the whole
    collection on its own: the items with usage above 70 in descending
    order of usage, the items with [today < renewal_date <= today + 30]
    in ascending order of renewal date, and the items with
    [renewal_date <= today] in descending order of renewal date, each cut
    to its first 8.  The page number plays no part. *)
Theorem inventory_all_view (db : Store) (page today : Z) :
  software db <> [] ->
  exists v,
    software_inventory db "all" page today = AllTemplate v
    /\ active_software v = firstn 8 (active_filtered db)
    /\ expiring_software v = firstn 8 (expiring_filtered db today)
    /\ expired_software v = firstn 8 (expired_filtered db today)
    /\ Permutation (active_filtered db)
         (filter (fun s => Py.Qltb (70 # 1) (usage_percentage db s)) (software db))
    /\ StronglySorted (by_usage_desc db) (active_filtered db)
    /\ Permutation (expiring_filtered db today)
         (filter (fun s => (Software.renewal_date s <=? today + 30)
                           && (Software.renewal_date s >? today)) (software db))
    /\ StronglySorted by_renewal_asc (expiring_filtered db today)
    /\ Permutation (expired_filtered db today)
         (filter (fun s => Software.renewal_date s <=? today) (software db))
    /\ StronglySorted by_renewal_desc (expired_filtered db today)
    /\ software_inventory db "all" page today = software_inventory db "all" 1 today.
Proof.
  intros Hne.
  destruct (filtered_category_perm db today) as (Pa & Pe & Px).
  assert (Hview : forall p,
             software_inventory db "all" p today
             = AllTemplate
                 (mkAllView (firstn 8 (active_filtered db))
                            (firstn 8 (expiring_filtered db today))
                            (firstn 8 (expired_filtered db today))
                            "all" 1 per_page (List.length (software db))
                            false false 1)).
  { intros p. unfold software_inventory.
    destruct (software db) as [| s0 rest] eqn:E; [congruence | reflexivity]. }
  eexists. split; [apply Hview |]. simpl.
  repeat (split; [reflexivity |]).
  split; [exact Pa |]. split; [apply sorted_usage_desc |].
  split; [exact Pe |]. split; [apply sorted_renewal_asc |].
  split; [exact Px |]. split; [apply sorted_renewal_desc |].
  now rewrite !Hview.
Qed.

(** ** Rankings *)


(** ** The [users] table *)

Lemma get_user_some (db : Store) (uid : Z) (u : User.t) :
  get_user db uid = Some u -> In u (users db) /\ User.id u = uid.
Proof.
  unfold get_user. intros H. apply find_some in H.
  destruct H as [Hin Hid]. split; [exact Hin | now apply Z.eqb_eq].
Qed.

Lemma admin_count_pos (db : Store) (u : User.t) :
  In u (users db) -> is_admin u = true -> (1 <= admin_count db)%nat.
Proof.
  intros Hin Hadm. unfold admin_count, Py.count.
  assert (H : In u (filter (fun v => String.eqb (User.role v) "admin") (users db))).
  { apply filter_In. split; assumption. }
  destruct (filter _ (users db)); [contradiction | simpl; lia].
Qed.

(** Two different admins make the count at least 2. *)
Lemma admin_count_two (db : Store) (u v : User.t) :
  In u (users db) -> In v (users db) -> u <> v ->
  is_admin u = true -> is_admin v = true -> (2 <= admin_count db)%nat.
Proof.
  intros Hu Hv Hne Au Av. unfold admin_count, Py.count.
  assert (Hu' : In u (filter (fun w => String.eqb (User.role w) "admin") (users db)))
    by (apply filter_In; split; assumption).
  assert (Hv' : In v (filter (fun w => String.eqb (User.role w) "admin") (users db)))
    by (apply filter_In; split; assumption).
  destruct (filter _ (users db)) as [| a [| b l]]; simpl in *.
  - contradiction.
  - destruct Hu' as [<- | []], Hv' as [<- | []]. congruence.
  - lia.
Qed.

(** An admin who is the only one is the requester whenever the requester
    is an admin. *)
Lemma sole_admin_is_requester (db : Store) (uid user_id : Z) (cu target : User.t) :
  get_user db uid = Some cu -> is_admin cu = true ->
  get_user db user_id = Some target -> is_admin target = true ->
  admin_count db = 1%nat ->
  user_id = User.id cu.
Proof.
  intros Hcu Acu Ht At Hone.
  apply get_user_some in Hcu. destruct Hcu as [Incu Idcu].
  apply get_user_some in Ht. destruct Ht as [Int Idt].
  destruct (Z.eq_dec user_id (User.id cu)) as [E | NE]; [exact E |].
  assert (Hne : cu <> target) by (intros ->; congruence).
  assert (H2 := admin_count_two db cu target Incu Int Hne Acu At). lia.
Qed.

Lemma In_replace_same (db : Store) (u v : User.t) :
  In v (users db) -> User.id v = User.id u -> In u (users (replace_user db u)).
Proof.
  intros Hin Hid. simpl. apply in_map_iff. exists v.
  split; [| exact Hin]. rewrite Hid, Z.eqb_refl. reflexivity.
Qed.

Lemma In_replace_other (db : Store) (u v : User.t) :
  In v (users db) -> User.id v <> User.id u -> In v (users (replace_user db u)).
Proof.
  intros Hin Hid. simpl. apply in_map_iff. exists v.
  split; [| exact Hin].
  destruct (User.id v =? User.id u) eqn:E; [| reflexivity].
  apply Z.eqb_eq in E. contradiction.
Qed.

Lemma In_remove_other (db : Store) (uid : Z) (v : User.t) :
  In v (users db) -> User.id v <> uid -> In v (users (remove_user db uid)).
Proof.
  intros Hin Hid. simpl. apply filter_In. split; [exact Hin |].
  apply negb_true_iff. now apply Z.eqb_neq.
Qed.

Section EndpointFacts.

Variable hash : string -> string.

(** What one [if] block of [update_user] leaves of the row: the primary
    key always, and the role unless the block is the role block. *)
Lemma apply_username_keeps (db : Store) (user user' : User.t) (user_id : Z)
    (data : Py.body) :
  apply_username db user user_id data = inr user' ->
  User.id user' = User.id user /\ User.role user' = User.role user.
Proof.
  unfold apply_username.
  destruct (Py.get data "username") as [v |];
    [destruct (first_by_username (replace_user db user) v) as [existing |];
     [destruct (negb (User.id existing =? user_id)) |] |];
    intros H; try discriminate; injection H as <-; split; reflexivity.
Qed.

Lemma apply_email_keeps (db : Store) (user user' : User.t) (user_id : Z)
    (data : Py.body) :
  apply_email db user user_id data = inr user' ->
  User.id user' = User.id user /\ User.role user' = User.role user.
Proof.
  unfold apply_email.
  destruct (Py.get data "email") as [v |];
    [destruct (first_by_email (replace_user db user) v) as [existing |];
     [destruct (negb (User.id existing =? user_id)) |] |];
    intros H; try discriminate; injection H as <-; split; reflexivity.
Qed.

Lemma apply_password_keeps (user user' : User.t) (data : Py.body) :
  apply_password hash user data = inr user' ->
  User.id user' = User.id user /\ User.role user' = User.role user.
Proof.
  unfold apply_password.
  destruct (Py.get data "password") as [v |];
    intros H; injection H as <-; split; reflexivity.
Qed.

Lemma apply_role_keeps (db : Store) (cu user user' : User.t) (user_id : Z)
    (data : Py.body) :
  apply_role db cu user user_id data = inr user' ->
  User.id user' = User.id user
  /\ (user_id = User.id cu -> User.role user' = User.role user).
Proof.
  unfold apply_role.
  destruct (Py.get data "role") as [v |].
  - destruct (user_id =? User.id cu) eqn:Eown; [discriminate |].
    apply Z.eqb_neq in Eown.
    destruct (is_admin user && negb (String.eqb v "admin"));
      [destruct (admin_count (replace_user db user) <=? 1)%nat |];
      intros H; try discriminate; injection H as <-;
      (split; [reflexivity | contradiction]).
  - intros H; injection H as <-. split; reflexivity.
Qed.

(** The steps of [update_user_fields] that a successful run went
    through. *)
Lemma update_user_fields_inr (db : Store) (cu user user' : User.t) (user_id : Z)
    (data : Py.body) :
  update_user_fields hash db cu user user_id data = inr user' ->
  exists u1 u2 u3,
    apply_username db user user_id data = inr u1
    /\ apply_email db u1 user_id data = inr u2
    /\ apply_password hash u2 data = inr u3
    /\ apply_role db cu u3 user_id data = inr user'.
Proof.
  unfold update_user_fields.
  destruct (apply_username db user user_id data) as [r | u1] eqn:E1; [discriminate |].
  destruct (apply_email db u1 user_id data) as [r | u2] eqn:E2; [discriminate |].
  destruct (apply_password hash u2 data) as [r | u3] eqn:E3; [discriminate |].
  intros H. exists u1, u2, u3. repeat split; assumption.
Qed.

(** The attribute updates of [update_user] keep the primary key, and a
    request on the requester's own row that goes through has not touched
    the role. *)
Lemma update_user_fields_keeps (db : Store) (cu user user' : User.t)
    (user_id : Z) (data : Py.body) :
  update_user_fields hash db cu user user_id data = inr user' ->
  User.id user' = User.id user
  /\ (user_id = User.id cu -> User.role user' = User.role user).
Proof.
  intros H. apply update_user_fields_inr in H.
  destruct H as (u1 & u2 & u3 & H1 & H2 & H3 & H4).
  apply apply_username_keeps in H1. apply apply_email_keeps in H2.
  apply apply_password_keeps in H3. apply apply_role_keeps in H4.
  destruct H1 as [I1 R1], H2 as [I2 R2], H3 as [I3 R3], H4 as [I4 R4].
  split; [congruence |]. intros Hown. specialize (R4 Hown). congruence.
Qed.

(** Every early [return] of the [try] of [update_user] is a 400. *)
Lemma update_user_fields_inl (db : Store) (cu user : User.t) (user_id : Z)
    (data : Py.body) (r : response) :
  update_user_fields hash db cu user user_id data = inl r -> status_code r = 400.
Proof.
  unfold update_user_fields, apply_username, apply_email, apply_password, apply_role.
  repeat match goal with
         | |- context [Py.get data ?k] => destruct (Py.get data k)
         | |- context [first_by_username ?d ?v] => destruct (first_by_username d v)
         | |- context [first_by_email ?d ?v] => destruct (first_by_email d v)
         | |- context [negb (?a =? ?b)] => destruct (negb (a =? b))
         | |- context [if ?a =? ?b then _ else _] => destruct (a =? b)
         | |- context [if ?a && ?b then _ else _] => destruct (a && b)
         | |- context [(?a <=? 1)%nat] => destruct (a <=? 1)%nat
         end;
    intros H; try discriminate; injection H as <-; reflexivity.
Qed.

(** A role change on the requester's own row is answered with a 400. *)
Lemma update_user_fields_own_rejected (db : Store) (cu user : User.t)
    (user_id : Z) (data : Py.body) (v : string) :
  Py.get data "role" = Some v ->
  user_id = User.id cu ->
  exists r, update_user_fields hash db cu user user_id data = inl r
            /\ status_code r = 400.
Proof.
  intros Hrole Hown.
  destruct (update_user_fields hash db cu user user_id data) as [r | user'] eqn:E.
  - exists r. split; [reflexivity |]. exact (update_user_fields_inl _ _ _ _ _ _ E).
  - exfalso. apply update_user_fields_inr in E.
    destruct E as (u1 & u2 & u3 & _ & _ & _ & H4).
    unfold apply_role in H4. rewrite Hrole in H4.
    apply Z.eqb_eq in Hown. rewrite Hown in H4. discriminate.
Qed.

Lemma update_user_keeps_admin (db : Store) (requester : option Z) (user_id : Z)
    (data : Py.body) :
  (1 <= admin_count db)%nat ->
  (1 <= admin_count (snd (update_user hash db requester user_id data)))%nat.
Proof.
  intros Hinv. unfold update_user.
  destruct (current_user db requester) as [cu |] eqn:Ecu; [| exact Hinv].
  destruct (is_admin cu) eqn:Acu; simpl; [| exact Hinv].
  destruct (get_user db user_id) as [user |] eqn:Eu; [| exact Hinv].
  destruct (update_user_fields hash db cu user user_id data) as [r | user'] eqn:Ef;
    [exact Hinv |].
  unfold commit_user. destruct (unique_ok db user'); simpl; [| exact Hinv].
  destruct requester as [uid |]; [| discriminate]. simpl in Ecu.
  destruct (get_user_some _ _ _ Ecu) as [Incu Idcu].
  destruct (get_user_some _ _ _ Eu) as [Inu Idu].
  destruct (update_user_fields_keeps _ _ _ _ _ _ Ef) as [Hid Hrole].
  destruct (Z.eq_dec user_id (User.id cu)) as [Hown | Hother].
  - (* the requester's own row: the role is still the admin role *)
    assert (user = cu) by (rewrite Hown, Idcu in Eu; congruence). subst user.
    apply admin_count_pos with user'.
    + apply In_replace_same with cu; [exact Incu | congruence].
    + unfold is_admin in *. now rewrite (Hrole Hown).
  - (* another row: the requester stays as it is *)
    apply admin_count_pos with cu; [| exact Acu].
    apply In_replace_other; [exact Incu | congruence].
Qed.

Lemma delete_user_keeps_admin (db : Store) (requester : option Z) (user_id : Z) :
  (1 <= admin_count db)%nat ->
  (1 <= admin_count (snd (delete_user db requester user_id)))%nat.
Proof.
  intros Hinv. unfold delete_user.
  destruct (current_user db requester) as [cu |] eqn:Ecu; [| exact Hinv].
  destruct (is_admin cu) eqn:Acu; simpl; [| exact Hinv].
  destruct (user_id =? User.id cu) eqn:Eown; [exact Hinv |].
  destruct (get_user db user_id) as [user |] eqn:Eu; [| exact Hinv].
  destruct (is_admin user && (admin_count db <=? 1)%nat); [exact Hinv |]. simpl.
  destruct requester as [uid |]; [| discriminate]. simpl in Ecu.
  destruct (get_user_some _ _ _ Ecu) as [Incu Idcu].
  apply Z.eqb_neq in Eown.
  apply admin_count_pos with cu; [| exact Acu].
  apply In_remove_other; [exact Incu | congruence].
Qed.

End EndpointFacts.

(** ** The last admin *)

(** Removing the only admin, by deletion or by a role change, is turned
    away whoever asks, and the store stays as it was. *)
Lemma sole_admin_delete_rejected (db : Store) (requester : option Z) (user_id : Z) :
  sole_admin db user_id ->
  exists r, delete_user db requester user_id = (r, db)
            /\ status_code r = rejection_status db requester.
Proof.
  intros (target & Et & At & Hone).
  unfold delete_user, rejection_status.
  destruct (current_user db requester) as [cu |] eqn:Ecu;
    [| eexists; split; reflexivity].
  destruct (is_admin cu) eqn:Acu; simpl; [| eexists; split; reflexivity].
  destruct requester as [uid |]; [| discriminate]. simpl in Ecu.
  rewrite (sole_admin_is_requester db uid user_id cu target Ecu Acu Et At Hone).
  rewrite Z.eqb_refl. eexists; split; reflexivity.
Qed.

Lemma sole_admin_demote_rejected (hash : string -> string) (db : Store)
    (requester : option Z) (user_id : Z) (data : Py.body) (v : string) :
  sole_admin db user_id ->
  Py.get data "role" = Some v ->
  exists r, update_user hash db requester user_id data = (r, db)
            /\ status_code r = rejection_status db requester.
Proof.
  intros (target & Et & At & Hone) Hrole.
  unfold update_user, rejection_status.
  destruct (current_user db requester) as [cu |] eqn:Ecu;
    [| eexists; split; reflexivity].
  destruct (is_admin cu) eqn:Acu; simpl; [| eexists; split; reflexivity].
  destruct requester as [uid |]; [| discriminate]. simpl in Ecu.
  rewrite Et.
  pose proof (sole_admin_is_requester db uid user_id cu target Ecu Acu Et At Hone)
    as Hown.
  destruct (update_user_fields_own_rejected hash db cu target user_id data v Hrole Hown)
    as (r & Er & Hr).
  rewrite Er. exists r. split; [reflexivity | exact Hr].
Qed.

(** C2, as amended. A table with an admin still has one after every
    [PUT /api/users/<id>] and every [DELETE /api/users/<id>], whoever
    sends it.  A request that would demote or delete the only admin is
    rejected and leaves the table as it was; the status is 400 when an
    admin sends it, 403 when another user does, and the login redirect
    when there is no session. *)
Theorem last_admin_guard (hash : string -> string) (db : Store)
    (requester : option Z) (user_id : Z) (data : Py.body) :
  (1 <= admin_count db)%nat ->
  (1 <= admin_count (snd (update_user hash db requester user_id data)))%nat
  /\ (1 <= admin_count (snd (delete_user db requester user_id)))%nat
  /\ (sole_admin db user_id ->
      (exists r, delete_user db requester user_id = (r, db)
                 /\ status_code r = rejection_status db requester)
      /\ (forall v, Py.get data "role" = Some v -> v <> "admin"%string ->
          exists r, update_user hash db requester user_id data = (r, db)
                    /\ status_code r = rejection_status db requester)).
Proof.
  intros Hinv.
  split; [now apply update_user_keeps_admin |].
  split; [now apply delete_user_keeps_admin |].
  intros Hsole. split.
  - now apply sole_admin_delete_rejected.
  - intros v Hrole _. now apply sole_admin_demote_rejected with v.
Qed.

(** ** Deleting software *)

Lemma get_software_removed (l : list Software.t) (sid : Z) :
  find (fun s => Software.id s =? sid)
       (filter (fun s => negb (Software.id s =? sid)) l) = None.
Proof.
  induction l as [| s l IH]; simpl; [reflexivity |].
  destruct (Software.id s =? sid) eqn:E; simpl; [exact IH |].
  now rewrite E.
Qed.

(** C9. When an admin sends [DELETE /api/software/<id>] for a product
    with [n >= 1] active licenses, the answer is the 400 with the message
    "Cannot delete software with n active licenses" and the store is
    unchanged; the answer is the 200 only when there is no active license,
    and then the product is gone. *)
Theorem delete_software_guard (db : Store) (requester : option Z)
    (software_id : Z) (cu : User.t) (sw : Software.t) :
  current_user db requester = Some cu ->
  is_admin cu = true ->
  get_software db software_id = Some sw ->
  let n := active_license_count db software_id in
  let result := delete_software db requester software_id in
  ((1 <= n)%nat ->
   result = (Json (JError ("Cannot delete software with " ++ Py.str_of_nat n
                           ++ " active licenses")) 400, db))
  /\ (status_code (fst result) = 200 ->
      n = 0%nat /\ get_software (snd result) software_id = None).
Proof.
  intros Ecu Acu Esw n result.
  unfold result, delete_software. rewrite Ecu, Acu, Esw. simpl. fold n.
  destruct (0 <? n)%nat eqn:En.
  - split; [reflexivity |]. simpl. discriminate.
  - apply Nat.ltb_ge in En. split; [lia |].
    unfold remove_software.
    destruct (existsb _ (licenses db)); simpl; [discriminate |].
    intros _. split; [lia |]. apply get_software_removed.
Qed.

(** ** Creating users *)

Lemma next_user_id_fresh (db : Store) (u : User.t) :
  In u (users db) -> User.id u < next_user_id db.
Proof.
  unfold next_user_id. generalize (users db) as l.
  induction l as [| w l IH]; simpl; [contradiction |].
  intros [-> | Hin]; [lia |]. specialize (IH Hin). lia.
Qed.

(** The email check of [add_user] compares the email as it was sent, the
    row gets the email stripped and in lower case: a request whose email
    only matches a stored one after that normalisation passes the check,
    fails the unique constraint at the commit, and is answered with the
    500 of the [except] branch. *)
Lemma add_user_normalised_duplicate (hash : string -> string) (db : Store)
    (requester : option Z) (cu existing : User.t) (data : Py.body)
    (username email password role : string) :
  current_user db requester = Some cu ->
  is_admin cu = true ->
  Py.get data "username" = Some username ->
  Py.get data "email" = Some email ->
  Py.get data "password" = Some password ->
  Py.get data "role" = Some role ->
  first_by_username db username = None ->
  first_by_email db email = None ->
  In existing (users db) ->
  User.email existing = Py.lower (Py.strip email) ->
  add_user hash db requester data
  = (Json (JError "Internal server error") 500, db).
Proof.
  intros Ecu Acu Hu He Hp Hr Fu Fe Hin Hdup.
  unfold add_user. rewrite Ecu, Acu, Hu, He, Hp, Hr, Fu, Fe. simpl.
  unfold insert_user.
  assert (Hbad : unique_ok db
                   (User.mk (next_user_id db) (Py.strip username)
                            (Py.lower (Py.strip email)) (hash password) role)
                 = false).
  { unfold unique_ok.
    destruct (forallb _ (users db)) eqn:E; [| reflexivity].
    rewrite forallb_forall in E. specialize (E existing Hin). simpl in E.
    pose proof (next_user_id_fresh db existing Hin) as Hfresh.
    apply orb_true_iff in E. destruct E as [E | E].
    - apply Z.eqb_eq in E. lia.
    - apply andb_true_iff in E. destruct E as [_ E].
      rewrite Hdup, String.eqb_refl in E. discriminate. }
  simpl in Hbad |- *. rewrite Hbad. reflexivity.
Qed.

(** C10 at a concrete request: bob's email is stored as [bob@x.com]; an
    admin posts a new user with the email [Bob@X.com].  The answer is the
    500 "Internal server error", not a 400, and no user is created. *)
Theorem add_user_case_variant_email (hash : string -> string) :
  Py.lower (Py.strip "Bob@X.com") = "bob@x.com"%string
  /\ add_user hash Sample.staff (Some 1) Sample.carl
     = (Json (JError "Internal server error") 500, Sample.staff).
Proof.
  split; reflexivity.
Qed.

(** ** The statements at the sample stores *)

(** With an empty inventory, mode [all] renders the list template with an
    empty [software_list] and none of the three lists: the statement of C7
    for every collection fails. *)
Lemma inventory_all_view_empty :
  software_inventory Sample.empty "all" 1 0
  = ListTemplate (mkListView [] "all" 1 12 0 false false 1)
  /\ ~ (exists v, software_inventory Sample.empty "all" 1 0 = AllTemplate v).
Proof.
  split; [reflexivity |].
  intros [v H]. discriminate H.
Qed.

Lemma inventory_all_view_witness :
  exists v,
    software_inventory Sample.fleet "all" 1 0 = AllTemplate v
    /\ map Software.id (active_software v) = []
    /\ map Software.id (expiring_software v) = [2]
    /\ map Software.id (expired_software v) = [3].
Proof.
  destruct (inventory_all_view Sample.fleet 1 0) as (v & Ev & Ha & He & Hx & _).
  { discriminate. }
  exists v. split; [exact Ev |].
  rewrite Ha, He, Hx. repeat split; reflexivity.
Defined.

Lemma inventory_pagination_witness :
  exists v,
    software_inventory Sample.fleet "expired" 1 0 = ListTemplate v
    /\ map Software.id (software_list v) = [3].
Proof.
  destruct (inventory_pagination Sample.fleet "expired" 1 0) as (v & Ev & Hv & _).
  { simpl. auto. }
  exists v. split; [exact Ev |].
  rewrite Hv. reflexivity.
Defined.

(** Bob, who is not an admin, asks to delete the only admin: the answer
    is the 403, not a 400.  The statement of C2 with the 400 for every
    requester fails. *)
Lemma sole_admin_delete_by_user_is_403 :
  ~ (forall db requester user_id,
        sole_admin db user_id ->
        status_code (fst (delete_user db requester user_id)) = 400
        /\ snd (delete_user db requester user_id) = db).
Proof.
  intros H.
  assert (Hsole : sole_admin Sample.staff 1).
  { eexists. repeat split; reflexivity. }
  destruct (H Sample.staff (Some 2) 1 Hsole) as [Hstatus _].
  vm_compute in Hstatus. discriminate.
Qed.

Lemma last_admin_guard_witness :
  (1 <= admin_count Sample.staff)%nat
  /\ (1 <= admin_count (snd (delete_user Sample.staff (Some 1%Z) 2%Z)))%nat
  /\ (exists r, delete_user Sample.staff (Some 2) 1 = (r, Sample.staff)
                /\ status_code r = 403)
  /\ (exists r, delete_user Sample.staff (Some 1) 1 = (r, Sample.staff)
                /\ status_code r = 400).
Proof.
  assert (Hinv : (1 <= admin_count Sample.staff)%nat) by (vm_compute; lia).
  assert (Hsole : sole_admin Sample.staff 1).
  { eexists. repeat split; reflexivity. }
  split; [exact Hinv |].
  split.
  - exact (proj1 (proj2 (last_admin_guard (fun p => p) Sample.staff (Some 1%Z) 2%Z [] Hinv))).
  - split.
    + exact (proj1 (proj2 (proj2
               (last_admin_guard (fun p => p) Sample.staff (Some 2%Z) 1%Z [] Hinv)) Hsole)).
    + exact (proj1 (proj2 (proj2
               (last_admin_guard (fun p => p) Sample.staff (Some 1%Z) 1%Z [] Hinv)) Hsole)).
Defined.

(** The scenario of the specification: one active license. *)
Lemma delete_software_guard_witness :
  delete_software Sample.staff (Some 1) 1
  = (Json (JError "Cannot delete software with 1 active licenses") 400, Sample.staff).
Proof.
  apply (proj1 (delete_software_guard Sample.staff (Some 1) 1
                  (Sample.user 1 "admin" "admin@samurai.com" "admin")
                  (Sample.sw 1 10 (1 # 1) 1)
                  eq_refl eq_refl eq_refl)).
  vm_compute. lia.
Defined.

Lemma add_user_normalised_duplicate_witness :
  add_user (fun p => p) Sample.staff (Some 1) Sample.carl
  = (Json (JError "Internal server error") 500, Sample.staff).
Proof.
  apply (add_user_normalised_duplicate (fun p => p) Sample.staff (Some 1)
           (Sample.user 1 "admin" "admin@samurai.com" "admin")
           (Sample.user 2 "bob" "bob@x.com" "user")
           Sample.carl "carl" "Bob@X.com" "secret" "user");
    try reflexivity.
  simpl. auto.
Defined.

(** * Further properties *)

(** ** More on the dashboard statistics *)

Lemma sumZ_cons {A : Type} (f : A -> Z) (x : A) (l : list A) :
  Py.sumZ f (x :: l) = f x + Py.sumZ f l.
Proof.
  unfold Py.sumZ. simpl.
  assert (H : forall (l : list A) (a b : Z),
             fold_left (fun acc x => acc + f x) l (a + b)
             = a + fold_left (fun acc x => acc + f x) l b).
  { clear. intros l. induction l as [| y l IH]; intros a b; simpl.
    - reflexivity.
    - rewrite <- IH. f_equal. lia. }
  specialize (H l (f x) 0). rewrite Z.add_0_r in H. exact H.
Qed.

Lemma sumZ_le {A : Type} (f g : A -> Z) (l : list A) :
  Forall (fun x => f x <= g x) l -> Py.sumZ f l <= Py.sumZ g l.
Proof.
  induction 1 as [| x l Hx _ IH].
  - reflexivity.
  - rewrite !sumZ_cons. lia.
Qed.

Lemma count_cons {A : Type} (p : A -> bool) (x : A) (l : list A) :
  Py.count p (x :: l) = (Nat.b2n (p x) + Py.count p l)%nat.
Proof.
  unfold Py.count. simpl. destruct (p x); reflexivity.
Qed.

(** Two tests that never succeed together count at most the list. *)
Lemma count_disjoint {A : Type} (p q : A -> bool) (l : list A) :
  (forall x, p x = true -> q x = false) ->
  (Py.count p l + Py.count q l <= List.length l)%nat.
Proof.
  intros H. induction l as [| x l IH].
  - apply Nat.le_refl.
  - rewrite !count_cons. simpl. specialize (H x).
    destruct (p x); [rewrite H by reflexivity |]; destruct (q x); simpl; lia.
Qed.

(** However the two readings of the clock fall, no product is counted
    both as expiring soon and as expired: the two counts together do not
    exceed [total_software]. *)
Theorem expiring_expired_counts (db : Store) (now_a now_b : Z) :
  let stats := get_dashboard_stats (Some db) now_a now_b in
  (Stats.expiring_soon stats + Stats.expired stats <= Stats.total_software stats)%nat.
Proof.
  simpl. apply count_disjoint. intros s H.
  apply andb_true_iff in H. destruct H as [_ H].
  apply Z.gtb_lt in H. apply Z.leb_gt. exact H.
Qed.

(** *** The frequency dictionaries *)

Lemma dict_get_incr (k k' : string) (d : list (string * nat)) :
  dict_get (Py.dict_incr k d) k'
  = if String.eqb k' k then S (dict_get d k') else dict_get d k'.
Proof.
  induction d as [| [k0 v] d IH]; simpl.
  - destruct (String.eqb k' k); reflexivity.
  - destruct (String.eqb k k0) eqn:E; simpl.
    + apply String.eqb_eq in E. subst k0.
      destruct (String.eqb k' k); reflexivity.
    + rewrite IH.
      destruct (String.eqb k' k0) eqn:E0; [| reflexivity].
      apply String.eqb_eq in E0. subst k0.
      rewrite String.eqb_sym, E. reflexivity.
Qed.

Lemma dict_incr_keys (k k' : string) (d : list (string * nat)) :
  In k' (map fst (Py.dict_incr k d)) <-> k' = k \/ In k' (map fst d).
Proof.
  induction d as [| [k0 v] d IH]; simpl.
  - intuition.
  - destruct (String.eqb k k0) eqn:E; simpl.
    + apply String.eqb_eq in E. subst k0. intuition.
    + rewrite IH. intuition.
Qed.

Lemma dict_incr_NoDup (k : string) (d : list (string * nat)) :
  NoDup (map fst d) -> NoDup (map fst (Py.dict_incr k d)).
Proof.
  induction d as [| [k0 v] d IH]; simpl; intros H.
  - constructor; [intros [] | constructor].
  - inversion H as [| ? ? Hnot Hd]; subst.
    destruct (String.eqb k k0) eqn:E; simpl.
    + constructor; assumption.
    + constructor; [| now apply IH].
      rewrite dict_incr_keys. intros [-> | Hin]; [| contradiction].
      rewrite String.eqb_refl in E. discriminate.
Qed.

Lemma dict_incr_sum (k : string) (d : list (string * nat)) :
  list_sum (map snd (Py.dict_incr k d)) = S (list_sum (map snd d)).
Proof.
  induction d as [| [k0 v] d IH]; simpl.
  - reflexivity.
  - destruct (String.eqb k k0); simpl; [reflexivity |]. rewrite IH. lia.
Qed.

Section Frequencies.

Context {A : Type}.
Variable label : A -> string.

Local Abbreviation tally :=
  (fun (l : list A) (d : list (string * nat)) =>
     fold_left (fun d x => Py.dict_incr (label x) d) l d).

Lemma tally_get (l : list A) (d : list (string * nat)) (k : string) :
  dict_get (tally l d) k
  = (dict_get d k + Py.count (fun x => String.eqb (label x) k) l)%nat.
Proof.
  revert d. induction l as [| x l IH]; intros d; simpl.
  - unfold Py.count. simpl. lia.
  - rewrite IH, dict_get_incr, count_cons.
    rewrite (String.eqb_sym (label x) k).
    destruct (String.eqb k (label x)); simpl; lia.
Qed.

Lemma tally_NoDup (l : list A) (d : list (string * nat)) :
  NoDup (map fst d) -> NoDup (map fst (tally l d)).
Proof.
  revert d. induction l as [| x l IH]; intros d H; simpl.
  - exact H.
  - apply IH. now apply dict_incr_NoDup.
Qed.

Lemma tally_sum (l : list A) (d : list (string * nat)) :
  list_sum (map snd (tally l d)) = (list_sum (map snd d) + List.length l)%nat.
Proof.
  revert d. induction l as [| x l IH]; intros d; simpl.
  - lia.
  - rewrite IH, dict_incr_sum. lia.
Qed.

End Frequencies.

(** [license_types] and [vendor_distribution] are frequency tables: a
    label is looked up to the number of products that carry it (0 for a
    label that no product carries), no label is listed twice, and the
    counts of a table add up to [total_software]. *)
Theorem distributions_are_frequencies (db : Store) (now_a now_b : Z) :
  let stats := get_dashboard_stats (Some db) now_a now_b in
  (forall k,
      dict_get (Stats.license_types stats) k
      = Py.count (fun s => String.eqb (Software.license_type s) k) (software db))
  /\ (forall k,
         dict_get (Stats.vendor_distribution stats) k
         = Py.count (fun s => String.eqb (Software.vendor s) k) (software db))
  /\ NoDup (map fst (Stats.license_types stats))
  /\ NoDup (map fst (Stats.vendor_distribution stats))
  /\ list_sum (map snd (Stats.license_types stats)) = Stats.total_software stats
  /\ list_sum (map snd (Stats.vendor_distribution stats)) = Stats.total_software stats.
Proof.
  simpl.
  split; [intros k; now rewrite tally_get |].
  split; [intros k; now rewrite tally_get |].
  split; [apply tally_NoDup; constructor |].
  split; [apply tally_NoDup; constructor |].
  split; now rewrite tally_sum.
Qed.

(** *** Utilization and the license rows *)

Lemma used_licenses_nonneg (db : Store) (s : Software.t) : 0 <= used_licenses db s.
Proof. unfold used_licenses. lia. Qed.

(** When no product has more active licenses than seats, the utilization
    is a percentage: it lies between 0 and 100. *)
Theorem utilization_bounds (db : Store) (now_a now_b : Z) :
  Forall (fun s => used_licenses db s <= Software.total_licenses s) (software db) ->
  let stats := get_dashboard_stats (Some db) now_a now_b in
  (0 <= Stats.utilization stats)%Q /\ (Stats.utilization stats <= 100 # 1)%Q.
Proof.
  intros Hfit stats. unfold stats. rewrite utilization_guard.
  assert (Hle : Py.sumZ (used_licenses db) (software db)
                <= Py.sumZ Software.total_licenses (software db))
    by (now apply sumZ_le).
  assert (Hnn : 0 <= Py.sumZ (used_licenses db) (software db)).
  { apply sumZ_nonneg. apply Forall_forall. intros s _. apply used_licenses_nonneg. }
  destruct (Py.sumZ Software.total_licenses (software db)) as [| p | p] eqn:ET; simpl.
  - split; discriminate.
  - unfold Qle, Qmult, Qdiv, Qinv, inject_Z. simpl. split; lia.
  - split; discriminate.
Qed.

Lemma count_none {A : Type} (p : A -> bool) (l : list A) :
  (forall x, p x = false) -> Py.count p l = 0%nat.
Proof.
  intros H. induction l as [| x l IH]; [reflexivity |].
  rewrite count_cons, H, IH. reflexivity.
Qed.

(** The rows of [ll] that are active and belong to a product of [sl]. *)
Lemma used_sum_counts_rows (sl : list Software.t) (ll : list License.t) :
  NoDup (map Software.id sl) ->
  Py.sumZ
    (fun s => Z.of_nat
                (Py.count (fun l => (License.software_id l =? Software.id s)
                                    && String.eqb (License.status l) "active") ll))
    sl
  = Z.of_nat
      (Py.count (fun l => String.eqb (License.status l) "active"
                          && existsb (fun s => Software.id s =? License.software_id l) sl)
                ll).
Proof.
  induction sl as [| s sl IH]; intros Hnd.
  - unfold Py.sumZ. simpl. rewrite count_none; [reflexivity |].
    intros l. apply andb_false_r.
  - inversion Hnd as [| ? ? Hnot Hnd']; subst.
    rewrite sumZ_cons, (IH Hnd'). clear IH.
    rewrite <- Nat2Z.inj_add. f_equal.
    induction ll as [| l ll IHl]; [reflexivity |].
    rewrite !count_cons, <- IHl. clear IHl. simpl.
    assert (Hexcl : (Software.id s =? License.software_id l) = true ->
                    existsb (fun s' => Software.id s' =? License.software_id l) sl = false).
    { intros E. apply Z.eqb_eq in E.
      destruct (existsb _ sl) eqn:Ex; [| reflexivity].
      apply existsb_exists in Ex. destruct Ex as (s' & Hin & E').
      apply Z.eqb_eq in E'. exfalso. apply Hnot.
      apply in_map_iff. exists s'. split; [congruence | exact Hin]. }
    rewrite (Z.eqb_sym (License.software_id l) (Software.id s)).
    destruct (Software.id s =? License.software_id l) eqn:E.
    + rewrite (Hexcl eq_refl).
      destruct (String.eqb (License.status l) "active"); simpl; lia.
    + destruct (String.eqb (License.status l) "active"),
               (existsb (fun s' => Software.id s' =? License.software_id l) sl);
        simpl; lia.
Qed.

(** With the primary keys of the products distinct, [active_licenses] is
    the number of license rows that are active and point to a product of
    the table: each such row is counted once, rows of a product that is
    not there are not counted. *)
Theorem active_licenses_counts_rows (db : Store) (now_a now_b : Z) :
  NoDup (map Software.id (software db)) ->
  Stats.active_licenses (get_dashboard_stats (Some db) now_a now_b)
  = Z.of_nat
      (Py.count (fun l => String.eqb (License.status l) "active"
                          && existsb (fun s => Software.id s =? License.software_id l)
                                     (software db))
                (licenses db)).
Proof.
  intros Hnd. simpl.
  exact (used_sum_counts_rows (software db) (licenses db) Hnd).
Qed.

(** ** The rankings put the greatest first *)

Lemma sorted_prefix_dominates {A : Type} (R : A -> A -> Prop) (l : list A) (n : nat)
    (x y : A) :
  StronglySorted R l -> In x (firstn n l) -> In y (skipn n l) -> R x y.
Proof.
  intros Hs. revert n. induction Hs as [| a l Hs IH Ha]; intros n Hx Hy.
  - rewrite firstn_nil in Hx. contradiction.
  - destruct n as [| n]; simpl in *; [contradiction |].
    destruct Hx as [<- | Hx].
    + rewrite Forall_forall in Ha. apply Ha. now apply In_skipn in Hy.
    + now apply (IH n).
Qed.

Lemma ranking_dominates {K : Type} (key : Software.t -> K) (leb : K -> K -> bool)
    (R : Software.t -> Software.t -> Prop) (n : nat) (l : list Software.t) :
  StronglySorted R (Py.sorted key leb true l) ->
  let top := firstn n (Py.sorted key leb true l) in
  List.length top = Nat.min n (List.length l)
  /\ Forall (fun t => In t l) top
  /\ (forall t s, In t top -> In s l -> ~ In s top -> R t s).
Proof.
  intros Hs top. split; [| split].
  - unfold top. rewrite length_firstn.
    now rewrite (Permutation_length (sorted_perm key leb true l)).
  - apply Forall_forall. intros t Ht. apply In_firstn in Ht.
    now apply sorted_In in Ht.
  - intros t s Ht Hs' Hout.
    apply (sorted_prefix_dominates R _ n t s Hs Ht).
    apply (sorted_In key leb true) in Hs'.
    rewrite <- (firstn_skipn n (Py.sorted key leb true l)) in Hs'.
    apply in_app_or in Hs'. destruct Hs' as [Hin | Hin]; [contradiction | exact Hin].
Qed.


(** The same for the list of [dashboard()], with 5 products and the
    number of used seats. *)
Theorem dashboard_top_dominates (db : Store) :
  let top := dashboard_top_software db in
  List.length top = Nat.min 5 (List.length (software db))
  /\ Forall (fun t => In t (software db)) top
  /\ (forall t s, In t top -> In s (software db) -> ~ In s top ->
      used_licenses db s <= used_licenses db t).
Proof.
  apply (ranking_dominates (used_licenses db) Z.leb (by_used_desc db)).
  apply sorted_used_desc.
Qed.

(** ** Paging through a category *)

Lemma firstn_plus {A : Type} (a b : nat) (l : list A) :
  firstn (a + b) l = firstn a l ++ firstn b (skipn a l).
Proof.
  revert l. induction a as [| a IH]; intros l; simpl.
  - reflexivity.
  - destruct l as [| x l]; simpl.
    + now rewrite firstn_nil.
    + now rewrite IH.
Qed.

(** Consecutive windows of [k] elements, laid end to end, are a prefix. *)
Lemma windows_concat {A : Type} (k n : nat) (l : list A) :
  List.concat (map (fun p => firstn k (skipn ((p - 1) * k) l)) (seq 1 n))
  = firstn (n * k) l.
Proof.
  induction n as [| n IH].
  - reflexivity.
  - rewrite seq_S, map_app, concat_app, IH. simpl.
    rewrite app_nil_r, Nat.sub_0_r.
    replace (k + n * k)%nat with (n * k + k)%nat by lia.
    symmetry. apply firstn_plus.
Qed.

(** From page 1 on, the page of a single-category mode is the window of
    12 after the pages before it. *)
Lemma inventory_page_window (db : Store) (filter_type : string) (p : nat) (today : Z) :
  In filter_type ["active"; "expiring"; "expired"]%string ->
  (1 <= p)%nat ->
  page_items (software_inventory db filter_type (Z.of_nat p) today)
  = firstn 12 (skipn ((p - 1) * 12) (filtered_software db filter_type today)).
Proof.
  intros Hmode Hp.
  destruct (inventory_single_mode db filter_type (Z.of_nat p) today Hmode)
    as (v & Ev & Lv).
  rewrite Ev. simpl. rewrite Lv. change per_page with 12.
  rewrite slice_nonneg by lia.
  replace (Z.to_nat ((Z.of_nat p - 1) * 12 + 12 - (Z.of_nat p - 1) * 12)) with 12%nat
    by lia.
  replace (Z.to_nat ((Z.of_nat p - 1) * 12)) with ((p - 1) * 12)%nat by lia.
  reflexivity.
Qed.

(** Reading the pages 1 to [n] of a single-category mode one after the
    other gives the whole sorted category, each product once and in
    order, as soon as [n] pages of 12 can hold it. *)
Theorem inventory_pages_cover (db : Store) (filter_type : string) (n : nat) (today : Z) :
  In filter_type ["active"; "expiring"; "expired"]%string ->
  (List.length (filtered_software db filter_type today) <= n * 12)%nat ->
  List.concat (map (fun p => page_items
                          (software_inventory db filter_type (Z.of_nat p) today))
              (seq 1 n))
  = filtered_software db filter_type today.
Proof.
  intros Hmode Hfit.
  rewrite (map_ext_in _
             (fun p => firstn 12 (skipn ((p - 1) * 12)
                                        (filtered_software db filter_type today)))).
  - rewrite windows_concat. now apply firstn_all2.
  - intros p Hp. apply in_seq in Hp.
    apply inventory_page_window; [exact Hmode | lia].
Qed.

Lemma inventory_nonempty_paginate (db : Store) (filter_type : string)
    (page today : Z) :
  software db <> [] ->
  In filter_type ["active"; "expiring"; "expired"]%string ->
  software_inventory db filter_type page today
  = paginate filter_type page (filtered_software db filter_type today).
Proof.
  intros Hne Hmode. unfold software_inventory, filtered_software.
  destruct (software db) as [| s0 rest]; [congruence |].
  simpl in Hmode. destruct Hmode as [<- | [<- | [<- | []]]]; reflexivity.
Qed.

Lemma window_nonempty {A : Type} (l : list A) (start : Z) :
  0 <= start ->
  (Py.slice l start (start + 12) <> [] <-> start < Z.of_nat (List.length l)).
Proof.
  intros H0. rewrite slice_nonneg by lia.
  replace (Z.to_nat (start + 12 - start)) with 12%nat by lia.
  split.
  - intros Hne. destruct (Z.lt_ge_cases start (Z.of_nat (List.length l))) as [H | H];
      [exact H |].
    exfalso. apply Hne. rewrite skipn_all2 by lia. reflexivity.
  - intros Hlt Hnil. apply (f_equal (@List.length A)) in Hnil.
    rewrite length_firstn, length_skipn in Hnil. cbn [List.length] in Hnil. lia.
Qed.

(** The navigation data of a page agree with the pages themselves.  For a
    non-empty inventory, a single-category mode and a page number from 1
    on: [total] is the size of the category, the page has items exactly
    when its number is at most [pages], [has_next] says whether the next
    page has items, and [has_prev] whether there is a page before. *)
Theorem inventory_page_navigation (db : Store) (filter_type : string)
    (page today : Z) :
  software db <> [] ->
  In filter_type ["active"; "expiring"; "expired"]%string ->
  1 <= page ->
  exists v,
    software_inventory db filter_type page today = ListTemplate v
    /\ lv_total v = List.length (filtered_software db filter_type today)
    /\ (software_list v <> [] <-> page <= lv_pages v)
    /\ (lv_has_next v = true
        <-> page_items (software_inventory db filter_type (page + 1) today) <> [])
    /\ (lv_has_prev v = true <-> 1 <= page - 1).
Proof.
  intros Hne Hmode Hpage.
  rewrite !(inventory_nonempty_paginate db filter_type _ today Hne Hmode).
  set (l := filtered_software db filter_type today).
  unfold paginate. eexists. split; [reflexivity |]. simpl.
  unfold per_page.
  split; [reflexivity |].
  split; [| split].
  - destruct ((page - 1) * 12 <? Z.of_nat (List.length l)) eqn:E.
    + apply Z.ltb_lt in E. split; intros _.
      * apply Z.div_le_lower_bound; lia.
      * apply window_nonempty; lia.
    + apply Z.ltb_ge in E. split; [congruence |]. intros Hp. exfalso.
      assert (Hub : (Z.of_nat (List.length l) + 12 - 1) / 12 < page).
      { apply Z.div_lt_upper_bound; lia. }
      lia.
  - replace (page + 1 - 1) with page by lia.
    destruct (page * 12 <? Z.of_nat (List.length l)) eqn:E.
    + apply Z.ltb_lt in E. split.
      * intros _. apply window_nonempty; lia.
      * intros _. apply Z.ltb_lt. lia.
    + apply Z.ltb_ge in E. split; [| congruence].
      intros H. apply Z.ltb_lt in H. lia.
  - rewrite Z.gtb_lt. lia.
Qed.

(** ** The reports page and the chat summary *)

Lemma count_ext {A : Type} (p q : A -> bool) (l : list A) :
  (forall x, p x = q x) -> Py.count p l = Py.count q l.
Proof.
  intros H. unfold Py.count. f_equal. now apply filter_ext.
Qed.

Lemma count_split {A : Type} (r p q : A -> bool) (l : list A) :
  (forall x, Nat.b2n (r x) = (Nat.b2n (p x) + Nat.b2n (q x))%nat) ->
  Py.count r l = (Py.count p l + Py.count q l)%nat.
Proof.
  intros H. induction l as [| x l IH]; [reflexivity |].
  rewrite !count_cons, IH, H. lia.
Qed.

(** The [expiring_soon] list of the reports page has no lower bound on
    the renewal date: it holds the products that the dashboard counts as
    expiring soon and, with them, every product that has expired. *)
Theorem reports_expiring_includes_expired (db : Store) (report_type : string)
    (today : Z) :
  let report := reports db report_type today in
  let stats := get_dashboard_stats (Some db) today today in
  List.length (Report.expiring_soon report)
  = (Stats.expiring_soon stats + Stats.expired stats)%nat
  /\ Forall (fun s => In s (Report.expiring_soon report))
            (filter (fun s => Software.renewal_date s <=? today) (software db)).
Proof.
  simpl. split.
  - apply (count_split (fun s => Software.renewal_date s <=? today + 30)).
    intros s.
    destruct (Software.renewal_date s <=? today + 30) eqn:E30,
             (Software.renewal_date s >? today) eqn:Egt,
             (Software.renewal_date s <=? today) eqn:Ele; simpl; try reflexivity;
      rewrite ?Z.leb_le, ?Z.leb_gt, ?Z.gtb_lt in *; try lia;
      rewrite Z.gtb_ltb in Egt; apply Z.ltb_ge in Egt; lia.
  - apply Forall_forall. intros s Hs.
    apply filter_In in Hs. destruct Hs as [Hin Hle].
    apply filter_In. split; [exact Hin |].
    apply Z.leb_le in Hle. apply Z.leb_le. lia.
Qed.

(** The usage percentage of a product with at most as many active
    licenses as seats lies between 0 and 100. *)
Lemma usage_percentage_bounds (db : Store) (s : Software.t) :
  used_licenses db s <= Software.total_licenses s ->
  (0 <= usage_percentage db s)%Q /\ (usage_percentage db s <= 100 # 1)%Q.
Proof.
  intros Hfit. pose proof (used_licenses_nonneg db s) as Hnn.
  unfold usage_percentage.
  destruct (Software.total_licenses s) as [| p | p] eqn:ET; simpl.
  - split; discriminate.
  - unfold Qle, Qmult, Qdiv, Qinv, inject_Z. simpl. split; lia.
  - lia.
Qed.

Lemma fold_sumQ_le {A : Type} (f : A -> Q) (b : Q) (l : list A) :
  Forall (fun x => (f x <= b)%Q) l ->
  forall a,
    (fold_left (fun acc x => Qplus acc (f x)) l a
     <= a + inject_Z (Z.of_nat (List.length l)) * b)%Q.
Proof.
  induction 1 as [| x l Hx _ IH]; intros a.
  - simpl. setoid_replace (a + inject_Z 0 * b)%Q with a by (unfold inject_Z; ring).
    apply Qle_refl.
  - cbn [fold_left List.length].
    eapply Qle_trans; [apply IH |].
    rewrite Nat2Z.inj_succ, <- Z.add_1_r, inject_Z_plus.
    setoid_replace (a + (inject_Z (Z.of_nat (List.length l)) + inject_Z 1) * b)%Q
      with ((a + b) + inject_Z (Z.of_nat (List.length l)) * b)%Q
      by (unfold inject_Z at 2; ring).
    apply Qplus_le_compat; [| apply Qle_refl].
    apply Qplus_le_compat; [apply Qle_refl | exact Hx].
Qed.

(** [avg_usage] is 0 for an empty inventory, and otherwise, when no
    product has more active licenses than seats, a percentage between 0
    and 100. *)
Theorem reports_avg_usage_bounds (db : Store) (report_type : string) (today : Z) :
  Forall (fun s => used_licenses db s <= Software.total_licenses s) (software db) ->
  let avg := Report.avg_usage (reports db report_type today) in
  (software db = [] -> avg = 0 # 1)
  /\ (0 <= avg)%Q /\ (avg <= 100 # 1)%Q.
Proof.
  intros Hfit. simpl.
  split; [intros ->; reflexivity |].
  destruct (software db) as [| s0 rest]; [split; discriminate |].
  set (l := s0 :: rest) in *.
  assert (Hpos : (0 < inject_Z (Z.of_nat (List.length l)))%Q).
  { unfold Qlt, inject_Z, l. cbn [List.length Qnum Qden]. lia. }
  assert (Hall : Forall (fun s => (0 <= usage_percentage db s)%Q
                                  /\ (usage_percentage db s <= 100 # 1)%Q) l).
  { eapply Forall_impl; [| exact Hfit].
    intros s Hs. apply (usage_percentage_bounds db s Hs). }
  split.
  - apply Qle_shift_div_l; [exact Hpos |]. rewrite Qmult_0_l.
    apply sumQ_nonneg. eapply Forall_impl; [| exact Hall]. intros s Hs. apply Hs.
  - apply Qle_shift_div_r; [exact Hpos |].
    unfold Py.sumQ.
    eapply Qle_trans.
    + apply (fold_sumQ_le (usage_percentage db) (100 # 1)).
      eapply Forall_impl; [| exact Hall]. intros s Hs. apply Hs.
    + rewrite Qplus_0_l, Qmult_comm. apply Qle_refl.
Qed.

(** The summary that [ai_chat()] gives the model agrees with the
    dashboard statistics of the same date: the same totals, the same
    products expiring within 30 days and expired, the same high and low
    usage tiers, and one detail entry per product. *)
Theorem chat_context_agrees_with_stats (db : Store) (today : Z) :
  let context := ai_chat_context db today in
  let stats := get_dashboard_stats (Some db) today today in
  ChatContext.total_software context = Stats.total_software stats
  /\ ChatContext.total_licenses context = Stats.total_licenses stats
  /\ ChatContext.used_licenses context = Stats.active_licenses stats
  /\ ChatContext.expiring_soon context = Stats.expiring_soon stats
  /\ ChatContext.expired context = Stats.expired stats
  /\ ChatContext.high_usage context = Stats.high (Stats.usage_categories stats)
  /\ ChatContext.low_usage context = Stats.low (Stats.usage_categories stats)
  /\ List.length (ChatContext.software_details context) = Stats.total_software stats.
Proof.
  simpl. repeat (split; [reflexivity |]).
  split; [| split].
  - apply count_ext. intros s. unfold days_until_renewal.
    destruct (Software.renewal_date s - today <=? 30) eqn:E1,
             (Software.renewal_date s - today >? 0) eqn:E2,
             (Software.renewal_date s <=? today + 30) eqn:E3,
             (Software.renewal_date s >? today) eqn:E4; try reflexivity;
      rewrite ?Z.gtb_ltb in *;
      rewrite ?Z.leb_le, ?Z.leb_gt, ?Z.ltb_lt, ?Z.ltb_ge in *; lia.
  - apply count_ext. intros s. unfold days_until_renewal.
    destruct (Software.renewal_date s - today <=? 0) eqn:E1,
             (Software.renewal_date s <=? today) eqn:E2; try reflexivity;
      rewrite ?Z.leb_le, ?Z.leb_gt in *; lia.
  - repeat (split; [reflexivity |]). apply length_map.
Qed.

(** ** Registration *)

(** *** [strip] is idempotent *)

Lemma lstrip_head_kept (l : list ascii) : head_kept (Py.lstrip l).
Proof.
  induction l as [| c l IH]; simpl; [exact I |].
  destruct (Py.isspace c) eqn:E; [exact IH | exact E].
Qed.

Lemma lstrip_fixed (l : list ascii) : head_kept l -> Py.lstrip l = l.
Proof.
  destruct l as [| c l]; simpl; [reflexivity |]. now intros ->.
Qed.

Lemma lstrip_suffix (l : list ascii) : exists pre, l = pre ++ Py.lstrip l.
Proof.
  induction l as [| c l [pre IH]]; simpl.
  - now exists [].
  - destruct (Py.isspace c).
    + exists (c :: pre). simpl. now f_equal.
    + now exists [].
Qed.

Lemma head_kept_app (m r : list ascii) : head_kept (m ++ r) -> head_kept m.
Proof.
  destruct m as [| c m]; simpl; [intros _; exact I | auto].
Qed.

Lemma strip_list_idempotent (l : list ascii) :
  let m := rev (Py.lstrip (rev (Py.lstrip l))) in
  rev (Py.lstrip (rev (Py.lstrip m))) = m.
Proof.
  intros m.
  destruct (lstrip_suffix (rev (Py.lstrip l))) as [pre Hpre].
  assert (Hl : Py.lstrip l = m ++ rev pre).
  { unfold m. rewrite <- rev_app_distr, <- Hpre. now rewrite rev_involutive. }
  assert (Hm : head_kept m).
  { apply head_kept_app with (rev pre). rewrite <- Hl. apply lstrip_head_kept. }
  rewrite (lstrip_fixed m Hm).
  unfold m. rewrite rev_involutive.
  rewrite (lstrip_fixed (Py.lstrip (rev (Py.lstrip l)))); [reflexivity |].
  apply lstrip_head_kept.
Qed.

Lemma strip_idempotent (s : string) : Py.strip (Py.strip s) = Py.strip s.
Proof.
  unfold Py.strip. rewrite list_ascii_of_string_of_list_ascii.
  f_equal. apply strip_list_idempotent.
Qed.

(** *** The outcomes of [register] *)

Lemma unique_ok_fresh (db : Store) (row : User.t) :
  User.id row = next_user_id db ->
  first_by_username db (User.username row) = None ->
  first_by_email db (User.email row) = None ->
  unique_ok db row = true.
Proof.
  intros Hid Hu He. unfold unique_ok. apply forallb_forall. intros v Hin.
  apply orb_true_iff. right.
  pose proof (find_none _ _ Hu v Hin) as Hu'.
  pose proof (find_none _ _ He v Hin) as He'.
  simpl in Hu', He'. now rewrite Hu', He'.
Qed.

Section RegistrationFacts.

Variable hash : string -> string.

(** When the form passes the checks of [register] (all three fields
    non-empty after stripping, a password of 6 characters or more, the
    username and the lower-cased email not in the table), the user is
    created: the commit cannot fail on the unique columns.  The new row
    is appended with a fresh key, the stripped username, the lower-cased
    email and the role [user]. *)
Theorem register_creates_user (db : Store) (session_uid : option Z) (form : Py.body) :
  let username := Py.strip (form_get form "username") in
  let email := Py.strip (form_get form "email") in
  let password := Py.strip (form_get form "password") in
  current_user db session_uid = None ->
  username <> ""%string ->
  email <> ""%string ->
  (6 <= String.length password)%nat ->
  first_by_username db username = None ->
  first_by_email db (Py.lower email) = None ->
  register hash db session_uid (Some form)
  = (FlashRedirect "Registration successful! Please login." "success" "login",
     with_users db
       (users db ++ [User.mk (next_user_id db) username (Py.lower email)
                             (hash password) "user"])).
Proof.
  intros username email password Hanon Hu He Hp Fu Fe.
  unfold register. rewrite Hanon. fold username email password.
  apply String.eqb_neq in Hu, He. rewrite Hu, He.
  assert (Hpw : String.eqb password "" = false).
  { apply String.eqb_neq. intros E. rewrite E in Hp. simpl in Hp. lia. }
  rewrite Hpw.
  assert (Hlen : (String.length password <? 6)%nat = false) by (apply Nat.ltb_ge; lia).
  rewrite Hlen, Fu, Fe.
  assert (Su : Py.strip username = username) by apply strip_idempotent.
  assert (Se : Py.strip email = email) by apply strip_idempotent.
  unfold insert_user, User_init. simpl. rewrite Su, Se.
  rewrite unique_ok_fresh; [reflexivity | reflexivity | exact Fu | exact Fe].
Qed.

(** Registration never makes an admin: whatever is sent, the table after
    [register] is the table before it with at most one row appended, that
    row has the role [user], and the number of admins is the same. *)
Theorem register_never_adds_admin (db : Store) (session_uid : option Z)
    (form : option Py.body) :
  let db' := snd (register hash db session_uid form) in
  (exists new,
      users db' = users db ++ new
      /\ (List.length new <= 1)%nat
      /\ Forall (fun u => User.role u = "user"%string) new)
  /\ admin_count db' = admin_count db
  /\ software db' = software db
  /\ licenses db' = licenses db.
Proof.
  assert (Hsame : (exists new : list User.t,
                      users db = users db ++ new
                      /\ (List.length new <= 1)%nat
                      /\ Forall (fun u => User.role u = "user"%string) new)
                  /\ admin_count db = admin_count db
                  /\ software db = software db /\ licenses db = licenses db).
  { split; [| repeat split].
    exists []. rewrite app_nil_r. repeat split; [simpl; lia | constructor]. }
  unfold register.
  destruct (current_user db session_uid); [exact Hsame |].
  destruct form as [form |]; [| exact Hsame].
  repeat match goal with
         | |- context [if ?b then _ else _] => destruct b; [exact Hsame |]
         end.
  unfold insert_user.
  match goal with
  | |- context [unique_ok db ?r] => destruct (unique_ok db r); [| exact Hsame]
  end.
  simpl. split; [| split; [| split; reflexivity]].
  - eexists. split; [reflexivity |].
    split; [simpl; lia |]. repeat constructor.
  - unfold admin_count, Py.count. simpl.
    rewrite filter_app, length_app. simpl. lia.
Qed.

(** [register] compares the email in lower case: a form whose email
    matches a stored one after stripping and lower-casing creates no
    user. *)
Theorem register_rejects_case_variant_email (db : Store) (session_uid : option Z)
    (form : Py.body) (existing : User.t) :
  In existing (users db) ->
  User.email existing = Py.lower (Py.strip (form_get form "email")) ->
  snd (register hash db session_uid (Some form)) = db
  /\ fst (register hash db session_uid (Some form))
     <> FlashRedirect "Registration successful! Please login." "success" "login".
Proof.
  intros Hin Hdup. unfold register.
  destruct (current_user db session_uid); [split; [reflexivity | discriminate] |].
  repeat match goal with
         | |- context [String.eqb ?a ?b] =>
             destruct (String.eqb a b); [split; [reflexivity | discriminate] |]
         | |- context [(?a <? ?b)%nat] =>
             destruct (a <? b)%nat; [split; [reflexivity | discriminate] |]
         end.
  match goal with
  | |- context [first_by_username db ?u] =>
      destruct (first_by_username db u); [split; [reflexivity | discriminate] |]
  end.
  match goal with
  | |- context [first_by_email db ?e] =>
      destruct (first_by_email db e) eqn:Fe; [split; [reflexivity | discriminate] |]
  end.
  exfalso. pose proof (find_none _ _ Fe existing Hin) as H. simpl in H.
  rewrite Hdup, String.eqb_refl in H. discriminate.
Qed.

End RegistrationFacts.

(** ** More on the user endpoints *)

Lemma get_user_replace (db : Store) (u : User.t) (rid : Z) :
  get_user (replace_user db u) rid
  = match get_user db rid with
    | Some v => Some (if User.id v =? User.id u then u else v)
    | None => None
    end.
Proof.
  unfold get_user, replace_user. simpl.
  induction (users db) as [| v l IH]; simpl; [reflexivity |].
  destruct (User.id v =? User.id u) eqn:E.
  - replace (User.id u =? rid) with (User.id v =? rid)
      by (apply Z.eqb_eq in E; now rewrite E).
    destruct (User.id v =? rid); [now rewrite E | exact IH].
  - destruct (User.id v =? rid); [now rewrite E | exact IH].
Qed.

Lemma get_user_remove (db : Store) (uid rid : Z) :
  get_user (remove_user db uid) rid
  = if rid =? uid then None else get_user db rid.
Proof.
  unfold get_user, remove_user. simpl.
  induction (users db) as [| v l IH]; simpl.
  - destruct (rid =? uid); reflexivity.
  - destruct (User.id v =? uid) eqn:E; simpl.
    + rewrite IH. apply Z.eqb_eq in E.
      destruct (rid =? uid) eqn:R; [reflexivity |].
      apply Z.eqb_neq in R.
      destruct (User.id v =? rid) eqn:V; [| reflexivity].
      apply Z.eqb_eq in V. lia.
    + destruct (User.id v =? rid) eqn:V; [| exact IH].
      apply Z.eqb_eq in V. apply Z.eqb_neq in E.
      destruct (rid =? uid) eqn:R; [| reflexivity].
      apply Z.eqb_eq in R. lia.
Qed.

Lemma find_app_found {A : Type} (test : A -> bool) (l r : list A) (x : A) :
  find test l = Some x -> find test (l ++ r) = Some x.
Proof.
  induction l as [| v l IH]; simpl; [discriminate |].
  destruct (test v); [auto | exact IH].
Qed.

Section UserEndpointFacts.

Variable hash : string -> string.

(** No request touches the account it is sent from: after
    [PUT /api/users/<id>] the requester is still in the table under the
    same key and with the same role, and after [DELETE /api/users/<id>]
    the requester's row is as before. *)
Theorem requester_keeps_account (db : Store) (requester : option Z) (user_id : Z)
    (data : Py.body) (cu : User.t) :
  current_user db requester = Some cu ->
  (exists cu',
      current_user (snd (update_user hash db requester user_id data)) requester
      = Some cu'
      /\ User.id cu' = User.id cu
      /\ User.role cu' = User.role cu)
  /\ current_user (snd (delete_user db requester user_id)) requester = Some cu.
Proof.
  intros Ecu.
  assert (Hsame : exists cu', current_user db requester = Some cu'
                              /\ User.id cu' = User.id cu
                              /\ User.role cu' = User.role cu).
  { exists cu. repeat split. exact Ecu. }
  destruct requester as [rid |]; [| discriminate].
  simpl in Ecu. destruct (get_user_some _ _ _ Ecu) as [Incu Idcu].
  split.
  - unfold update_user. simpl. rewrite Ecu.
    destruct (is_admin cu); simpl; [| exact Hsame].
    destruct (get_user db user_id) as [user |] eqn:Eu; [| exact Hsame].
    destruct (update_user_fields hash db cu user user_id data) as [r | user'] eqn:Ef;
      [exact Hsame |].
    unfold commit_user. destruct (unique_ok db user'); [| exact Hsame].
    simpl. rewrite get_user_replace, Ecu.
    destruct (update_user_fields_keeps _ _ _ _ _ _ _ Ef) as [Hid Hrole].
    destruct (get_user_some _ _ _ Eu) as [_ Idu].
    destruct (User.id cu =? User.id user') eqn:E.
    + apply Z.eqb_eq in E. exists user'. split; [reflexivity |].
      split; [congruence |].
      assert (Hown : user_id = User.id cu) by congruence.
      assert (user = cu) by (rewrite Hown, Idcu in Eu; congruence). subst user.
      exact (Hrole Hown).
    + exists cu. repeat split.
  - unfold delete_user. simpl. rewrite Ecu.
    destruct (is_admin cu); simpl; [| exact Ecu].
    destruct (user_id =? User.id cu) eqn:Eown; [exact Ecu |].
    destruct (get_user db user_id) as [user |]; [| exact Ecu].
    destruct (is_admin user && (admin_count db <=? 1)%nat); [exact Ecu |].
    simpl. rewrite get_user_remove.
    apply Z.eqb_neq in Eown.
    destruct (rid =? user_id) eqn:R; [| exact Ecu].
    apply Z.eqb_eq in R. congruence.
Qed.

(** A user created by [POST /api/users] can be looked up: after the 201
    the row of the answer is the last row of the table, it is the one
    found under its key, its username and its email, and every row that
    was there before is still found under its key. *)
Theorem add_user_then_lookup (db db' : Store) (requester : option Z)
    (data : Py.body) (message username email role : string) (id : Z) :
  add_user hash db requester data = (Json (JUser message id username email role) 201, db') ->
  exists row,
    users db' = users db ++ [row]
    /\ (User.id row, User.username row, User.email row, User.role row)
       = (id, username, email, role)
    /\ get_user db' id = Some row
    /\ first_by_username db' username = Some row
    /\ first_by_email db' email = Some row
    /\ (forall uid u, get_user db uid = Some u -> get_user db' uid = Some u).
Proof.
  unfold add_user.
  destruct (current_user db requester) as [cu |]; [| discriminate].
  destruct (negb (is_admin cu)); [discriminate |].
  destruct (Py.get data "username") as [u |]; [| discriminate].
  destruct (Py.get data "email") as [e |]; [| discriminate].
  destruct (Py.get data "password") as [p |]; [| discriminate].
  destruct (Py.get data "role") as [r |]; [| discriminate].
  destruct (first_by_username db u); [discriminate |].
  destruct (first_by_email db e); [discriminate |].
  unfold insert_user.
  match goal with
  | |- context [unique_ok db ?row] =>
      set (new := row); destruct (unique_ok db new) eqn:Huniq; [| discriminate]
  end.
  intros H. injection H as <- <- <- <- <- <-.
  exists new. split; [reflexivity |]. split; [reflexivity |].
  assert (Hfresh : forall v, In v (users db) -> (User.id v =? User.id new) = false).
  { intros v Hv. apply Z.eqb_neq. pose proof (next_user_id_fresh db v Hv).
    unfold new. simpl. lia. }
  assert (Hother : forall v, In v (users db) ->
                     String.eqb (User.username v) (User.username new) = false
                     /\ String.eqb (User.email v) (User.email new) = false).
  { intros v Hv. unfold unique_ok in Huniq. rewrite forallb_forall in Huniq.
    specialize (Huniq v Hv). rewrite (Hfresh v Hv) in Huniq. simpl in Huniq.
    apply andb_true_iff in Huniq. destruct Huniq as [H1 H2].
    now rewrite negb_true_iff in H1, H2. }
  assert (Hfind : forall (test : User.t -> bool),
             (forall v, In v (users db) -> test v = false) -> test new = true ->
             find test (users db ++ [new]) = Some new).
  { clear. intros test Htest Hnew. induction (users db) as [| v l IH]; simpl.
    - now rewrite Hnew.
    - rewrite (Htest v) by (now left). apply IH.
      intros w Hw. apply Htest. now right. }
  split; [| split; [| split]].
  - apply Hfind; [exact Hfresh | apply Z.eqb_refl].
  - apply Hfind; [intros v Hv; apply (Hother v Hv) | apply String.eqb_refl].
  - apply Hfind; [intros v Hv; apply (Hother v Hv) | apply String.eqb_refl].
  - intros uid w Hw. unfold get_user in *. simpl. now apply find_app_found.
Qed.

(** After the 200 of [DELETE /api/users/<id>] the key is vacant, every
    other key finds what it found before, and the other two tables are
    untouched. *)
Theorem delete_user_then_lookup (db db' : Store) (requester : option Z)
    (user_id : Z) (message : string) :
  delete_user db requester user_id = (Json (JMessage message) 200, db') ->
  get_user db' user_id = None
  /\ (forall uid, uid <> user_id -> get_user db' uid = get_user db uid)
  /\ software db' = software db
  /\ licenses db' = licenses db.
Proof.
  unfold delete_user.
  destruct (current_user db requester) as [cu |]; [| discriminate].
  destruct (negb (is_admin cu)); [discriminate |].
  destruct (user_id =? User.id cu); [discriminate |].
  destruct (get_user db user_id) as [user |]; [| discriminate].
  destruct (is_admin user && (admin_count db <=? 1)%nat); [discriminate |].
  intros H. injection H as _ <-.
  split; [| split; [| split; reflexivity]].
  - rewrite get_user_remove, Z.eqb_refl. reflexivity.
  - intros uid Hne. rewrite get_user_remove.
    apply Z.eqb_neq in Hne. now rewrite Hne.
Qed.

End UserEndpointFacts.

(** ** The software endpoints *)

Lemma first_by_name_vendor_some (db : Store) (n v : string) (x : Software.t) :
  first_by_name_vendor db n v = Some x ->
  In x (software db) /\ Software.name x = n /\ Software.vendor x = v.
Proof.
  unfold first_by_name_vendor. intros H. apply find_some in H.
  destruct H as [Hin H]. apply andb_true_iff in H. destruct H as [H1 H2].
  apply String.eqb_eq in H1, H2. auto.
Qed.

Lemma first_by_name_vendor_none (db : Store) (n v : string) (x : Software.t) :
  first_by_name_vendor db n v = None ->
  In x (software db) ->
  ~ (Software.name x = n /\ Software.vendor x = v).
Proof.
  unfold first_by_name_vendor. intros H Hin [H1 H2].
  pose proof (find_none _ _ H x Hin) as Hx. simpl in Hx.
  rewrite H1, H2, !String.eqb_refl in Hx. discriminate.
Qed.

Lemma find_app_new {A : Type} (test : A -> bool) (l : list A) (x : A) :
  find test l = None -> test x = true -> find test (l ++ [x]) = Some x.
Proof.
  induction l as [| v l IH]; simpl; intros H Hx.
  - now rewrite Hx.
  - destruct (test v); [discriminate | auto].
Qed.

Lemma next_software_id_fresh (db : Store) (s : Software.t) :
  In s (software db) -> Software.id s < next_software_id db.
Proof.
  unfold next_software_id. generalize (software db) as l.
  induction l as [| w l IH]; simpl; [contradiction |].
  intros [-> | Hin]; [lia |]. specialize (IH Hin). lia.
Qed.

Lemma get_software_some (db : Store) (sid : Z) (s : Software.t) :
  get_software db sid = Some s -> In s (software db) /\ Software.id s = sid.
Proof.
  unfold get_software. intros H. apply find_some in H.
  destruct H as [Hin Hid]. split; [exact Hin | now apply Z.eqb_eq].
Qed.

Lemma In_replace_software (db : Store) (s x : Software.t) :
  In x (software (replace_software db s)) ->
  x = s \/ (In x (software db) /\ Software.id x <> Software.id s).
Proof.
  simpl. intros H. apply in_map_iff in H. destruct H as (r & Hr & Hin).
  destruct (Software.id r =? Software.id s) eqn:E.
  - left. now symmetry.
  - right. subst x. split; [exact Hin | now apply Z.eqb_neq].
Qed.

Lemma In_replace_software_other (db : Store) (s r : Software.t) :
  In r (software db) -> Software.id r <> Software.id s ->
  In r (software (replace_software db s)).
Proof.
  intros Hin Hid. simpl. apply in_map_iff. exists r. split; [| exact Hin].
  destruct (Software.id r =? Software.id s) eqn:E; [| reflexivity].
  apply Z.eqb_eq in E. contradiction.
Qed.

Section SoftwareEndpointFacts.

Variable strptime_date : string -> option Z.

(** No other row of the table has the name and vendor of [s]. *)
Local Abbreviation alone db s :=
  (forall r, In r (software db) -> Software.id r <> Software.id s ->
             ~ (Software.name r = Software.name s
                /\ Software.vendor r = Software.vendor s)).

Lemma row_alone (db : Store) (s : Software.t) :
  unique_name_vendor db -> In s (software db) -> alone db s.
Proof.
  intros Huniq Hin r Hr Hid [Hn Hv].
  apply Hid. now rewrite (Huniq r s Hr Hin Hn Hv).
Qed.

Lemma apply_name_alone (db : Store) (s s1 : Software.t) (data : SoftwareBody.t) :
  alone db s ->
  apply_name db s (Software.id s) data = inr s1 ->
  Software.id s1 = Software.id s /\ alone db s1.
Proof.
  intros Halone. unfold apply_name.
  destruct (SoftwareBody.name data) as [v |];
    [| intros H; injection H as <-; split; [reflexivity | exact Halone]].
  destruct (first_by_name_vendor (replace_software db s) v (Software.vendor s))
    as [existing |] eqn:F.
  - destruct (Software.id existing =? Software.id s) eqn:E; simpl; [| discriminate].
    intros H. injection H as <-. split; [reflexivity |].
    apply first_by_name_vendor_some in F. destruct F as (Hin & Hn & Hv).
    apply In_replace_software in Hin. apply Z.eqb_eq in E.
    destruct Hin as [-> | [_ Hne]]; [| contradiction].
    simpl. intros r Hr Hid [Hrn Hrv]. apply (Halone r Hr Hid). split; congruence.
  - intros H. injection H as <-. split; [reflexivity |].
    simpl. intros r Hr Hid Hpair.
    apply (first_by_name_vendor_none _ _ _ r F); [| exact Hpair].
    now apply In_replace_software_other.
Qed.

Lemma apply_vendor_alone (db : Store) (s s1 : Software.t) (data : SoftwareBody.t) :
  alone db s ->
  apply_vendor db s (Software.id s) data = inr s1 ->
  Software.id s1 = Software.id s /\ alone db s1.
Proof.
  intros Halone. unfold apply_vendor.
  destruct (SoftwareBody.vendor data) as [v |];
    [| intros H; injection H as <-; split; [reflexivity | exact Halone]].
  destruct (first_by_name_vendor (replace_software db s) (Software.name s) v)
    as [existing |] eqn:F.
  - destruct (Software.id existing =? Software.id s) eqn:E; simpl; [| discriminate].
    intros H. injection H as <-. split; [reflexivity |].
    apply first_by_name_vendor_some in F. destruct F as (Hin & Hn & Hv).
    apply In_replace_software in Hin. apply Z.eqb_eq in E.
    destruct Hin as [-> | [_ Hne]]; [| contradiction].
    simpl. intros r Hr Hid [Hrn Hrv]. apply (Halone r Hr Hid). split; congruence.
  - intros H. injection H as <-. split; [reflexivity |].
    simpl. intros r Hr Hid Hpair.
    apply (first_by_name_vendor_none _ _ _ r F); [| exact Hpair].
    now apply In_replace_software_other.
Qed.

Lemma apply_plain_fields_key (s : Software.t) (data : SoftwareBody.t) :
  let s' := apply_plain_fields s data in
  Software.id s' = Software.id s
  /\ Software.name s' = Software.name s
  /\ Software.vendor s' = Software.vendor s.
Proof.
  unfold apply_plain_fields.
  destruct (SoftwareBody.description data), (SoftwareBody.license_type data),
           (SoftwareBody.total_licenses data), (SoftwareBody.cost_per_license data);
    simpl; auto.
Qed.

Lemma apply_renewal_date_key (s s' : Software.t) (data : SoftwareBody.t) :
  apply_renewal_date strptime_date s data = inr s' ->
  Software.id s' = Software.id s
  /\ Software.name s' = Software.name s
  /\ Software.vendor s' = Software.vendor s.
Proof.
  unfold apply_renewal_date.
  destruct (SoftwareBody.renewal_date data) as [v |];
    [destruct (strptime_date v) |];
    intros H; try discriminate; injection H as <-; simpl; auto.
Qed.

Lemma update_software_fields_alone (db : Store) (s s' : Software.t)
    (data : SoftwareBody.t) :
  alone db s ->
  update_software_fields strptime_date db s (Software.id s) data = inr s' ->
  Software.id s' = Software.id s /\ alone db s'.
Proof.
  intros Halone. unfold update_software_fields.
  destruct (apply_name db s (Software.id s) data) as [r | s1] eqn:E1; [discriminate |].
  destruct (apply_name_alone db s s1 data Halone E1) as [I1 A1].
  rewrite <- I1.
  destruct (apply_vendor db s1 (Software.id s1) data) as [r | s2] eqn:E2;
    [discriminate |].
  destruct (apply_vendor_alone db s1 s2 data A1 E2) as [I2 A2].
  intros H. apply apply_renewal_date_key in H. destruct H as (I3 & N3 & V3).
  destruct (apply_plain_fields_key s2 data) as (I4 & N4 & V4).
  split; [congruence |].
  intros r Hr Hid. rewrite N3, V3, N4, V4. apply (A2 r Hr). congruence.
Qed.

(** The handlers keep the pairs of name and vendor distinct, though no
    constraint of the table does: if no two rows share name and vendor
    before [POST /api/software], [PUT /api/software/<id>] or
    [DELETE /api/software/<id>], none do after it. *)
Theorem software_pairs_stay_unique (db : Store) (requester : option Z)
    (software_id : Z) (data : SoftwareBody.t) :
  unique_name_vendor db ->
  unique_name_vendor (snd (add_software strptime_date db requester data))
  /\ unique_name_vendor
       (snd (update_software strptime_date db requester software_id data))
  /\ unique_name_vendor (snd (delete_software db requester software_id)).
Proof.
  intros Huniq. split; [| split].
  - unfold add_software.
    destruct (current_user db requester) as [cu |]; [| exact Huniq].
    destruct (negb (is_admin cu)); [exact Huniq |].
    destruct (SoftwareBody.name data) as [n |]; [| exact Huniq].
    destruct (SoftwareBody.vendor data) as [v |]; [| exact Huniq].
    destruct (SoftwareBody.license_type data); [| exact Huniq].
    destruct (SoftwareBody.total_licenses data); [| exact Huniq].
    destruct (SoftwareBody.cost_per_license data); [| exact Huniq].
    destruct (SoftwareBody.renewal_date data) as [d |]; [| exact Huniq].
    destruct (first_by_name_vendor db n v) eqn:F; [exact Huniq |].
    destruct (strptime_date d); [| exact Huniq].
    simpl. intros a b Ha Hb Hn Hv. simpl in Ha, Hb.
    apply in_app_or in Ha. apply in_app_or in Hb.
    destruct Ha as [Ha | [<- | []]], Hb as [Hb | [<- | []]].
    + now apply Huniq.
    + exfalso. apply (first_by_name_vendor_none _ _ _ a F Ha). now split.
    + exfalso. apply (first_by_name_vendor_none _ _ _ b F Hb). now split.
    + reflexivity.
  - unfold update_software.
    destruct (current_user db requester) as [cu |]; [| exact Huniq].
    destruct (negb (is_admin cu)); [exact Huniq |].
    destruct (get_software db software_id) as [s |] eqn:G; [| exact Huniq].
    destruct (get_software_some _ _ _ G) as [Hin Hid]. rewrite <- Hid.
    destruct (update_software_fields strptime_date db s (Software.id s) data)
      as [r | s'] eqn:E; [exact Huniq |].
    destruct (update_software_fields_alone db s s' data (row_alone db s Huniq Hin) E)
      as [Hid' Halone].
    cbn [snd]. intros a b Ha Hb Hn Hv.
    apply In_replace_software in Ha. apply In_replace_software in Hb.
    destruct Ha as [-> | [Ha Hna]], Hb as [-> | [Hb Hnb]].
    + reflexivity.
    + exfalso. apply (Halone b Hb Hnb). split; congruence.
    + exfalso. apply (Halone a Ha Hna). now split.
    + now apply Huniq.
  - unfold delete_software.
    destruct (current_user db requester) as [cu |]; [| exact Huniq].
    destruct (negb (is_admin cu)); [exact Huniq |].
    destruct (get_software db software_id); [| exact Huniq].
    destruct (0 <? active_license_count db software_id)%nat; [exact Huniq |].
    unfold remove_software.
    destruct (existsb _ (licenses db)); [exact Huniq |].
    simpl. intros a b Ha Hb. simpl in Ha, Hb.
    apply filter_In in Ha. apply filter_In in Hb.
    apply Huniq; tauto.
Qed.

(** A product that [POST /api/software] created is found under its key,
    and posting the same body once more is answered with the 400
    "Software already exists" and changes nothing. *)
Theorem add_software_twice (db db' : Store) (requester : option Z)
    (data : SoftwareBody.t) (message : string) (row : Software.t) (status : Z) :
  add_software strptime_date db requester data
  = (SoftwareJson message row status, db') ->
  status = 201
  /\ get_software db' (Software.id row) = Some row
  /\ add_software strptime_date db' requester data
     = (Plain (Json (JError "Software already exists") 400), db').
Proof.
  unfold add_software at 1.
  destruct (current_user db requester) as [cu |] eqn:Ecu; [| discriminate].
  destruct (negb (is_admin cu)) eqn:Acu; [discriminate |].
  destruct (SoftwareBody.name data) as [n |] eqn:Dn; [| discriminate].
  destruct (SoftwareBody.vendor data) as [v |] eqn:Dv; [| discriminate].
  destruct (SoftwareBody.license_type data) as [lt |] eqn:Dl; [| discriminate].
  destruct (SoftwareBody.total_licenses data) as [tl |] eqn:Dt; [| discriminate].
  destruct (SoftwareBody.cost_per_license data) as [c |] eqn:Dc; [| discriminate].
  destruct (SoftwareBody.renewal_date data) as [d |] eqn:Dr; [| discriminate].
  destruct (first_by_name_vendor db n v) eqn:F; [discriminate |].
  destruct (strptime_date d) eqn:Dd; [| discriminate].
  intros H. injection H as <- <- <- <-.
  split; [reflexivity |]. split.
  - unfold get_software. simpl. apply find_app_new; [| apply Z.eqb_refl].
    destruct (find _ (software db)) as [s |] eqn:G; [| reflexivity].
    apply find_some in G. destruct G as [Hin Hid]. apply Z.eqb_eq in Hid.
    pose proof (next_software_id_fresh db s Hin). lia.
  - unfold add_software.
    change (current_user (with_software db _) requester)
      with (current_user db requester).
    rewrite Ecu, Acu, Dn, Dv, Dl, Dt, Dc, Dr.
    unfold first_by_name_vendor. simpl.
    rewrite (find_app_new _ _ _ F); [reflexivity |].
    simpl. now rewrite !String.eqb_refl.
Qed.

End SoftwareEndpointFacts.

(** Only an admin's request changes the tables through the JSON
    endpoints: sent without a session or by a user who is not an admin,
    each of the six writing endpoints leaves the store as it was and
    answers with the login redirect or the 403. *)
Theorem only_admins_write (hash : string -> string)
    (strptime_date : string -> option Z) (db : Store) (requester : option Z)
    (user_id software_id : Z) (user_data : Py.body) (software_data : SoftwareBody.t) :
  (forall cu, current_user db requester = Some cu -> is_admin cu = false) ->
  let status := rejection_status db requester in
  (status = 302 \/ status = 403)
  /\ (exists r, add_user hash db requester user_data = (r, db)
                /\ status_code r = status)
  /\ (exists r, update_user hash db requester user_id user_data = (r, db)
                /\ status_code r = status)
  /\ (exists r, delete_user db requester user_id = (r, db)
                /\ status_code r = status)
  /\ (exists r, add_software strptime_date db requester software_data = (r, db)
                /\ reply_status r = status)
  /\ (exists r, update_software strptime_date db requester software_id software_data
                = (r, db)
                /\ reply_status r = status)
  /\ (exists r, delete_software db requester software_id = (r, db)
                /\ status_code r = status).
Proof.
  intros Hno.
  unfold rejection_status, add_user, update_user, delete_user, add_software,
    update_software, delete_software.
  destruct (current_user db requester) as [cu |].
  - rewrite (Hno cu eq_refl). simpl.
    split; [now right |]. repeat split; eexists; split; reflexivity.
  - split; [now left |]. repeat split; eexists; split; reflexivity.
Qed.

(** ** Searching *)

Lemma list_ascii_of_string_app (a b : string) :
  list_ascii_of_string (a ++ b) = list_ascii_of_string a ++ list_ascii_of_string b.
Proof.
  induction a as [| c a IH]; simpl; [reflexivity | now rewrite IH].
Qed.

Lemma lower_list (s : string) :
  list_ascii_of_string (Py.lower s) = map Py.lower_ascii (list_ascii_of_string s).
Proof.
  unfold Py.lower. apply list_ascii_of_string_of_list_ascii.
Qed.

(** Lower-casing neither makes nor removes a wild card. *)
Lemma lower_ascii_wild (c : ascii) :
  Ascii.eqb (Py.lower_ascii c) "%" = Ascii.eqb c "%"
  /\ Ascii.eqb (Py.lower_ascii c) "_" = Ascii.eqb c "_".
Proof.
  destruct c as [[] [] [] [] [] [] [] []]; split; reflexivity.
Qed.

Lemma like_percent (p t : list ascii) :
  like ("%"%char :: p) t = true
  <-> exists pre suf, t = pre ++ suf /\ like p suf = true.
Proof.
  induction t as [| c t IH].
  - simpl. rewrite orb_false_r. split.
    + intros H. exists [], []. auto.
    + intros (pre & suf & E & H).
      symmetry in E. apply app_eq_nil in E. destruct E as [_ ->]. exact H.
  - change (like ("%"%char :: p) (c :: t))
      with (like p (c :: t) || like ("%"%char :: p) t).
    rewrite orb_true_iff, IH. split.
    + intros [H | (pre & suf & E & H)].
      * exists [], (c :: t). auto.
      * exists (c :: pre), suf. subst t. auto.
    + intros (pre & suf & E & H).
      destruct pre as [| d pre]; simpl in E.
      * left. now subst suf.
      * right. injection E as _ E. exists pre, suf. auto.
Qed.

Lemma like_plain_prefix (q p t : list ascii) :
  Forall (fun c => Ascii.eqb c "%" = false /\ Ascii.eqb c "_" = false) q ->
  (like (q ++ p) t = true <-> exists t', t = q ++ t' /\ like p t' = true).
Proof.
  intros Hq. revert t. induction Hq as [| c q [Hc1 Hc2] _ IH]; intros t.
  - simpl. split; [intros H; now exists t | intros (t' & -> & H); exact H].
  - cbn [app like]. rewrite Hc1, Hc2. cbn [orb].
    destruct t as [| d t].
    + split; [discriminate | intros (t' & E & _); discriminate].
    + rewrite andb_true_iff, IH, Ascii.eqb_eq. split.
      * intros [-> (t' & -> & H)]. now exists t'.
      * intros (t' & E & H). injection E as -> ->. split; [reflexivity |].
        now exists t'.
Qed.

(** With no wild card in [q], the pattern [%q%] is matched by the texts
    that have [q] somewhere in them. *)
Lemma like_contains (q t : list ascii) :
  Forall (fun c => Ascii.eqb c "%" = false /\ Ascii.eqb c "_" = false) q ->
  (like ("%"%char :: q ++ ["%"%char]) t = true
   <-> exists pre post, t = pre ++ q ++ post).
Proof.
  intros Hq. rewrite like_percent. split.
  - intros (pre & suf & -> & H).
    apply (like_plain_prefix q _ suf Hq) in H. destruct H as (post & -> & _).
    now exists pre, post.
  - intros (pre & post & ->). exists pre, (q ++ post). split; [reflexivity |].
    apply (like_plain_prefix q _ _ Hq). exists post. split; [reflexivity |].
    apply like_percent. exists post, []. split; [now rewrite app_nil_r | reflexivity].
Qed.

Lemma ilike_contains (column query : string) :
  Forall (fun c => c <> "%"%char /\ c <> "_"%char) (list_ascii_of_string query) ->
  (ilike column ("%" ++ query ++ "%") = true <-> contains_ci column query).
Proof.
  intros Hplain. unfold ilike, contains_ci.
  rewrite (lower_list ("%" ++ query ++ "%")), !list_ascii_of_string_app, !map_app.
  change (map Py.lower_ascii (list_ascii_of_string "%")) with ["%"%char].
  rewrite <- (lower_list query). cbn [app].
  apply like_contains.
  rewrite lower_list. apply Forall_map.
  eapply Forall_impl; [| exact Hplain].
  intros c [H1 H2]. destruct (lower_ascii_wild c) as [-> ->].
  split; apply Ascii.eqb_neq; assumption.
Qed.

(** For a signed-in user and a query that is not blank and has no [%]
    and no [_] in it, the search returns, in the order of the table, the
    products whose name, vendor or description contains the stripped
    query, letter case aside. *)
Theorem search_is_substring_match (db : Store) (requester : option Z) (q : string)
    (cu : User.t) :
  current_user db requester = Some cu ->
  Py.strip q <> ""%string ->
  Forall (fun c => c <> "%"%char /\ c <> "_"%char) (list_ascii_of_string (Py.strip q)) ->
  exists (keep : Software.t -> bool),
    search_software db requester q = SearchResults (filter keep (software db))
    /\ forall s,
         keep s = true
         <-> contains_ci (Software.name s) (Py.strip q)
             \/ contains_ci (Software.vendor s) (Py.strip q)
             \/ contains_ci (Software.description s) (Py.strip q).
Proof.
  intros Ecu Hne Hplain. unfold search_software. rewrite Ecu.
  apply String.eqb_neq in Hne. rewrite Hne.
  eexists. split; [reflexivity |].
  intros s. cbv beta. rewrite !orb_true_iff, !(ilike_contains _ _ Hplain). tauto.
Qed.

(** The query is put into the pattern as it is: a query made of [%]
    signs matches every product. *)
Theorem search_percent_matches_all (db : Store) (requester : option Z) (q : string)
    (cu : User.t) :
  current_user db requester = Some cu ->
  Py.strip q <> ""%string ->
  Forall (fun c => c = "%"%char) (list_ascii_of_string (Py.strip q)) ->
  search_software db requester q = SearchResults (software db).
Proof.
  intros Ecu Hne Hall. unfold search_software. rewrite Ecu.
  apply String.eqb_neq in Hne. rewrite Hne. f_equal.
  assert (Hmatch : forall column, ilike column ("%" ++ Py.strip q ++ "%") = true).
  { intros column. unfold ilike.
    rewrite (lower_list ("%" ++ Py.strip q ++ "%")), !list_ascii_of_string_app, !map_app.
    change (map Py.lower_ascii (list_ascii_of_string "%")) with ["%"%char].
    cbn [app].
    generalize (list_ascii_of_string (Py.lower column)) as t.
    induction Hall as [| c l -> _ IH]; intros t; cbn [map app].
    - apply like_percent. exists t, []. split; [now rewrite app_nil_r | reflexivity].
    - apply like_percent. exists [], t. split; [reflexivity |].
      change (Py.lower_ascii "%") with "%"%char. apply IH. }
  rewrite <- (filter_ext (fun _ => true)).
  - induction (software db) as [| s l IH]; simpl; [reflexivity | now rewrite IH].
  - intros s. now rewrite Hmatch.
Qed.

Lemma lstrip_blank (l : list ascii) :
  Forall (fun c => Py.isspace c = true) l -> Py.lstrip l = [].
Proof.
  induction 1 as [| c l Hc _ IH]; simpl; [reflexivity | now rewrite Hc].
Qed.

(** A query of white space only, the empty query included, is answered
    with the 400 "Search query is required". *)
Theorem search_blank_query (db : Store) (requester : option Z) (q : string)
    (cu : User.t) :
  current_user db requester = Some cu ->
  Forall (fun c => Py.isspace c = true) (list_ascii_of_string q) ->
  search_software db requester q
  = SearchError (Json (JError "Search query is required") 400).
Proof.
  intros Ecu Hblank. unfold search_software. rewrite Ecu.
  unfold Py.strip. rewrite (lstrip_blank _ Hblank). reflexivity.
Qed.

(** ** The further statements at the sample stores *)

Lemma utilization_bounds_witness :
  (0 <= Stats.utilization (get_dashboard_stats (Some Sample.fleet) 0 0))%Q
  /\ (Stats.utilization (get_dashboard_stats (Some Sample.fleet) 0 0) <= 100 # 1)%Q.
Proof.
  apply (utilization_bounds Sample.fleet 0 0).
  repeat constructor; vm_compute; discriminate.
Defined.

Lemma active_licenses_counts_rows_witness :
  Stats.active_licenses (get_dashboard_stats (Some Sample.fleet) 0 0) = 11.
Proof.
  rewrite (active_licenses_counts_rows Sample.fleet 0 0).
  - reflexivity.
  - repeat constructor; simpl; intuition discriminate.
Defined.

Lemma inventory_pages_cover_witness :
  List.concat
    (map (fun p => page_items
                     (software_inventory Fixture.expired_thirty "expired" (Z.of_nat p) 0))
         (seq 1 3))
  = filtered_software Fixture.expired_thirty "expired" 0.
Proof.
  apply (inventory_pages_cover Fixture.expired_thirty "expired" 3 0).
  - simpl. auto.
  - vm_compute. repeat constructor.
Defined.

Lemma inventory_page_navigation_witness :
  exists v,
    software_inventory Fixture.expired_thirty "expired" 2 0 = ListTemplate v
    /\ lv_total v = 30%nat
    /\ lv_pages v = 3
    /\ lv_has_next v = true
    /\ software_list v <> [].
Proof.
  destruct (inventory_page_navigation Fixture.expired_thirty "expired" 2 0)
    as (v & Ev & Ht & Hp & Hn & _).
  - discriminate.
  - simpl. auto.
  - lia.
  - exists v. split; [exact Ev |].
    assert (Hv : ListTemplate v
                 = software_inventory Fixture.expired_thirty "expired" 2 0)
      by (symmetry; exact Ev).
    vm_compute in Hv. injection Hv as ->.
    repeat split; discriminate.
Defined.

Lemma reports_avg_usage_bounds_witness :
  (0 <= Report.avg_usage (reports Sample.fleet "general" 0))%Q
  /\ (Report.avg_usage (reports Sample.fleet "general" 0) <= 100 # 1)%Q.
Proof.
  apply (reports_avg_usage_bounds Sample.fleet "general" 0).
  repeat constructor; vm_compute; discriminate.
Defined.

Lemma register_creates_user_witness :
  users (snd (register (fun p => p) Sample.staff None (Some Fixture.ann)))
  = users Sample.staff ++ [User.mk 3 "ann" "ann@x.com" "secret1" "user"].
Proof.
  rewrite (register_creates_user (fun p => p) Sample.staff None Fixture.ann).
  - reflexivity.
  - reflexivity.
  - vm_compute. discriminate.
  - vm_compute. discriminate.
  - vm_compute. repeat constructor.
  - reflexivity.
  - reflexivity.
Defined.

Lemma register_rejects_case_variant_email_witness :
  snd (register (fun p => p) Sample.staff None (Some Fixture.bobby)) = Sample.staff.
Proof.
  apply (register_rejects_case_variant_email (fun p => p) Sample.staff None
           Fixture.bobby (Sample.user 2 "bob" "bob@x.com" "user")).
  - simpl. auto.
  - reflexivity.
Defined.

Lemma requester_keeps_account_witness :
  current_user
    (snd (update_user (fun p => p) Sample.staff (Some 1) 1
            [("username", "root")]%string))
    (Some 1)
  = Some (Sample.user 1 "root" "admin@samurai.com" "admin")
  /\ current_user (snd (delete_user Sample.staff (Some 1) 2)) (Some 1)
     = Some (Sample.user 1 "admin" "admin@samurai.com" "admin").
Proof.
  destruct (requester_keeps_account (fun p => p) Sample.staff (Some 1) 1
              [("username", "root")]%string
              (Sample.user 1 "admin" "admin@samurai.com" "admin") eq_refl)
    as [(cu' & Hcu & _) _].
  split.
  - rewrite Hcu. vm_compute in Hcu. injection Hcu as <-. reflexivity.
  - exact (proj2 (requester_keeps_account (fun p => p) Sample.staff (Some 1) 2 []
                    (Sample.user 1 "admin" "admin@samurai.com" "admin") eq_refl)).
Defined.

Lemma add_user_then_lookup_witness :
  first_by_email (snd (add_user (fun p => p) Sample.staff (Some 1) Fixture.dana))
                 "dana@x.com"
  = Some (User.mk 3 "dana" "dana@x.com" "secret" "admin").
Proof.
  destruct (add_user_then_lookup (fun p => p) Sample.staff
              (snd (add_user (fun p => p) Sample.staff (Some 1) Fixture.dana))
              (Some 1) Fixture.dana "User created successfully"
              "dana" "dana@x.com" "admin" 3 eq_refl)
    as (row & Hrows & _ & _ & _ & He & _).
  rewrite He. f_equal.
  vm_compute in Hrows. injection Hrows as <-. reflexivity.
Defined.

Lemma delete_user_then_lookup_witness :
  get_user (snd (delete_user Sample.staff (Some 1) 2)) 2 = None.
Proof.
  exact (proj1 (delete_user_then_lookup Sample.staff _ (Some 1) 2 _ eq_refl)).
Defined.

Lemma only_admins_write_witness :
  exists r, delete_software Sample.staff (Some 2) 1 = (r, Sample.staff)
            /\ status_code r = 403.
Proof.
  assert (Hno : forall cu, current_user Sample.staff (Some 2) = Some cu ->
                           is_admin cu = false).
  { intros cu H. injection H as <-. reflexivity. }
  destruct (only_admins_write (fun p => p) Fixture.one_date Sample.staff (Some 2)
              1 1 [] Fixture.office Hno)
    as (_ & _ & _ & _ & _ & _ & H).
  exact H.
Defined.

Lemma software_pairs_stay_unique_witness :
  unique_name_vendor
    (snd (add_software Fixture.one_date Sample.staff (Some 1) Fixture.office)).
Proof.
  apply (software_pairs_stay_unique Fixture.one_date Sample.staff (Some 1) 1
           Fixture.office).
  intros a b Ha Hb _ _. simpl in Ha, Hb.
  destruct Ha as [<- | []], Hb as [<- | []]. reflexivity.
Defined.

Lemma add_software_twice_witness :
  exists db',
    snd (add_software Fixture.one_date Sample.staff (Some 1) Fixture.office) = db'
    /\ add_software Fixture.one_date db' (Some 1) Fixture.office
       = (Plain (Json (JError "Software already exists") 400), db').
Proof.
  eexists. split; [reflexivity |].
  exact (proj2 (proj2 (add_software_twice Fixture.one_date Sample.staff _ (Some 1)
                         Fixture.office _ _ _ eq_refl))).
Defined.

Lemma search_is_substring_match_witness :
  exists keep,
    search_software Sample.staff (Some 2) " sUi "
    = SearchResults (filter keep (software Sample.staff))
    /\ keep (Sample.sw 1 10 (1 # 1) 1) = true.
Proof.
  destruct (search_is_substring_match Sample.staff (Some 2) " sUi "
              (Sample.user 2 "bob" "bob@x.com" "user") eq_refl)
    as (keep & Hs & Hk).
  - vm_compute. discriminate.
  - vm_compute. repeat constructor; discriminate.
  - exists keep. split; [exact Hs |].
    apply Hk. left. exists [], (list_ascii_of_string "te"). reflexivity.
Defined.

Lemma search_percent_matches_all_witness :
  search_software Sample.staff (Some 2) "%%" = SearchResults (software Sample.staff).
Proof.
  apply (search_percent_matches_all Sample.staff (Some 2) "%%"
           (Sample.user 2 "bob" "bob@x.com" "user") eq_refl).
  - vm_compute. discriminate.
  - vm_compute. repeat constructor.
Defined.

Lemma search_blank_query_witness :
  search_software Sample.staff (Some 2) "   "
  = SearchError (Json (JError "Search query is required") 400).
Proof.
  apply (search_blank_query Sample.staff (Some 2) "   "
           (Sample.user 2 "bob" "bob@x.com" "user") eq_refl).
  repeat constructor.
Defined.

(** * The float fields in binary64 *)

(** ** Rounding *)

Lemma fexp_eq (x : Z) : fexp Binary64.prec Binary64.emax x = Z.max (x - 53) (-1074).
Proof. reflexivity. Qed.

Lemma Zdigits2_nonneg (m : Z) : 0 <= Zdigits2 m.
Proof. destruct m; simpl; lia. Qed.

Lemma shr_1_digits (mrs : shr_record) :
  0 <= shr_m mrs ->
  0 <= shr_m (shr_1 mrs)
  /\ Zdigits2 (shr_m (shr_1 mrs)) = Z.max 0 (Zdigits2 (shr_m mrs) - 1).
Proof.
  destruct mrs as [m r s]. cbn [shr_m]. intros H.
  destruct m as [| [p | p |] | p]; cbn [shr_1 shr_m Zdigits2 digits2_pos];
    rewrite ?Pos2Z.inj_succ; lia.
Qed.

Lemma iter_shr_1_digits (p : positive) (mrs : shr_record) :
  0 <= shr_m mrs ->
  0 <= shr_m (iter_pos shr_1 p mrs)
  /\ Zdigits2 (shr_m (iter_pos shr_1 p mrs)) = Z.max 0 (Zdigits2 (shr_m mrs) - Zpos p).
Proof.
  revert mrs. induction p as [p IH | p IH |]; intros mrs H; simpl.
  - destruct (shr_1_digits mrs H) as [H1 E1].
    destruct (IH _ H1) as [H2 E2]. destruct (IH _ H2) as [H3 E3].
    split; [exact H3 |]. rewrite E3, E2, E1. lia.
  - destruct (IH _ H) as [H2 E2]. destruct (IH _ H2) as [H3 E3].
    split; [exact H3 |]. rewrite E3, E2. lia.
  - apply shr_1_digits. exact H.
Qed.

Lemma shr_record_of_loc_m (m : Z) (l : location) : shr_m (shr_record_of_loc m l) = m.
Proof. destruct l as [| []]; reflexivity. Qed.

Lemma shr_fexp_digits (m e : Z) (l : location) :
  0 <= m ->
  let n := Z.max 0 (fexp Binary64.prec Binary64.emax (Zdigits2 m + e) - e) in
  0 <= shr_m (fst (shr_fexp Binary64.prec Binary64.emax m e l))
  /\ Zdigits2 (shr_m (fst (shr_fexp Binary64.prec Binary64.emax m e l))) = Z.max 0 (Zdigits2 m - n)
  /\ snd (shr_fexp Binary64.prec Binary64.emax m e l) = e + n.
Proof.
  intros H n. unfold shr_fexp, shr. subst n.
  assert (Hd := Zdigits2_nonneg m).
  destruct (fexp Binary64.prec Binary64.emax (Zdigits2 m + e) - e) as [| p | p] eqn:E; simpl fst; simpl snd.
  - rewrite shr_record_of_loc_m. lia.
  - destruct (iter_shr_1_digits p (shr_record_of_loc m l)) as [H1 E1].
    { rewrite shr_record_of_loc_m. exact H. }
    rewrite shr_record_of_loc_m in E1. lia.
  - rewrite shr_record_of_loc_m. lia.
Qed.

Lemma round_nearest_even_cases (m : Z) (l : location) :
  round_nearest_even m l = m \/ round_nearest_even m l = m + 1.
Proof.
  unfold round_nearest_even. destruct l as [| []]; try destruct (IntDef.Z.even m); auto.
Qed.

(** Rounding keeps the sign and never gives NaN. *)
Lemma binary_round_aux_signed (s : bool) (mx ex : Z) (l : location) :
  0 <= mx -> Binary64.signed s (binary_round_aux Binary64.prec Binary64.emax s mx ex l).
Proof.
  intros H. unfold binary_round_aux.
  destruct (shr_fexp_digits mx ex l H) as (H1 & _ & _).
  destruct (shr_fexp Binary64.prec Binary64.emax mx ex l) as [mrs' e']. simpl in H1.
  set (m2 := round_nearest_even (shr_m mrs') (loc_of_shr_record mrs')).
  assert (H2 : 0 <= m2).
  { subst m2. destruct (round_nearest_even_cases (shr_m mrs') (loc_of_shr_record mrs')) as [E | E];
      rewrite E; lia. }
  destruct (shr_fexp_digits m2 e' loc_Exact H2) as (H3 & _ & _).
  destruct (shr_fexp Binary64.prec Binary64.emax m2 e' loc_Exact) as [mrs'' e'']. simpl in H3.
  destruct (shr_m mrs'') as [| p | p]; [reflexivity | | lia].
  destruct (e'' <=? Binary64.emax - Binary64.prec); reflexivity.
Qed.

(** A positive mantissa of [d] binary digits lies in [2^(d-1), 2^d). *)
Lemma digits2_pos_bounds (p : positive) :
  2 ^ (Zpos (digits2_pos p) - 1) <= Zpos p < 2 ^ Zpos (digits2_pos p).
Proof.
  induction p as [p IH | p IH |]; simpl digits2_pos.
  - rewrite Pos2Z.inj_succ.
    replace (Z.succ (Zpos (digits2_pos p)) - 1) with (Z.succ (Zpos (digits2_pos p) - 1)) by lia.
    rewrite !Z.pow_succ_r by lia. lia.
  - rewrite Pos2Z.inj_succ.
    replace (Z.succ (Zpos (digits2_pos p)) - 1) with (Z.succ (Zpos (digits2_pos p) - 1)) by lia.
    rewrite !Z.pow_succ_r by lia. lia.
  - simpl. lia.
Qed.

Lemma Zdigits2_lower (m k : Z) : 0 <= k -> 2 ^ k <= m -> k + 1 <= Zdigits2 m.
Proof.
  intros Hk H.
  assert (0 < 2 ^ k) by (apply Z.pow_pos_nonneg; lia).
  destruct m as [| p | p]; try lia.
  simpl. destruct (digits2_pos_bounds p) as [_ Hu].
  destruct (Z_lt_le_dec k (Zpos (digits2_pos p))) as [Hlt | Hge]; [lia |].
  assert (2 ^ Zpos (digits2_pos p) <= 2 ^ k) by (apply Z.pow_le_mono_r; lia).
  lia.
Qed.

Lemma Zdigits2_mono (a b : Z) : 0 <= a <= b -> Zdigits2 a <= Zdigits2 b.
Proof.
  intros [Ha Hab].
  destruct a as [| p | p]; try lia.
  - apply Zdigits2_nonneg.
  - assert (H := Zdigits2_lower b (Zpos (digits2_pos p) - 1)).
    destruct (digits2_pos_bounds p) as [Hl _].
    simpl. assert (0 <= Zpos (digits2_pos p) - 1) by lia.
    specialize (H H0 ltac:(lia)). lia.
Qed.

(** Rounding a mantissa whose value is at least 1 keeps its order of
    magnitude: the result is infinite or a double of the same sign whose
    exponent is within 53 of the magnitude. *)
Lemma binary_round_aux_magnitude (s : bool) (mx ex : Z) (l : location) :
  0 < mx -> 1 <= Zdigits2 mx + ex ->
  match binary_round_aux Binary64.prec Binary64.emax s mx ex l with
  | S754_finite s' m e =>
      s' = s /\ Zdigits2 mx + ex <= Zdigits2 (Zpos m) + e /\ Zdigits2 mx + ex - 53 <= e
  | S754_infinity s' => s' = s
  | _ => False
  end.
Proof.
  intros Hpos Hmag. unfold binary_round_aux.
  assert (Hd : 1 <= Zdigits2 mx) by (apply (Zdigits2_lower mx 0); simpl; lia).
  destruct (shr_fexp_digits mx ex l ltac:(lia)) as (H1 & D1 & E1).
  rewrite fexp_eq in D1, E1.
  destruct (shr_fexp Binary64.prec Binary64.emax mx ex l) as [mrs' e']. simpl in H1, D1, E1.
  set (m2 := round_nearest_even (shr_m mrs') (loc_of_shr_record mrs')).
  assert (H2 : shr_m mrs' <= m2).
  { subst m2. destruct (round_nearest_even_cases (shr_m mrs') (loc_of_shr_record mrs')) as [E | E];
      rewrite E; lia. }
  assert (D2 := Zdigits2_mono (shr_m mrs') m2 ltac:(lia)).
  destruct (shr_fexp_digits m2 e' loc_Exact ltac:(lia)) as (H3 & D3 & E3).
  rewrite fexp_eq in D3, E3.
  destruct (shr_fexp Binary64.prec Binary64.emax m2 e' loc_Exact) as [mrs'' e'']. simpl in H3, D3, E3.
  destruct (shr_m mrs'') as [| p | p]; try lia.
  - simpl in D3. lia.
  - destruct (e'' <=? Binary64.emax - Binary64.prec); [| reflexivity].
    split; [reflexivity |]. lia.
Qed.

Lemma nonneg_leb (f : spec_float) : SFleb (S754_zero false) f = Binary64.nonneg f.
Proof. destruct f as [s | s | | s m e]; try destruct s; reflexivity. Qed.

Lemma signed_nonneg (f : spec_float) : Binary64.signed false f -> Binary64.nonneg f = true.
Proof. destruct f as [s | s | | s m e]; simpl; intros H; try subst s; auto; contradiction. Qed.

Lemma binary_round_signed (s : bool) (m : positive) (e : Z) :
  Binary64.signed s (binary_round Binary64.prec Binary64.emax s m e).
Proof.
  unfold binary_round.
  destruct (shl_align m e (fexp Binary64.prec Binary64.emax (Zpos (digits2_pos m) + e))) as [mz ez].
  apply binary_round_aux_signed. lia.
Qed.

Lemma nearest_nonneg (z : Z) : 0 <= z -> Binary64.nonneg (Binary64.nearest z) = true.
Proof.
  intros H. unfold Binary64.nearest, binary_normalize.
  destruct z as [| p | p]; [reflexivity | | lia].
  apply signed_nonneg, binary_round_signed.
Qed.

Lemma nearest_not_nan (z : Z) : Binary64.is_nan (Binary64.nearest z) = false.
Proof.
  unfold Binary64.nearest, binary_normalize.
  destruct z as [| p | p]; [reflexivity | |].
  - assert (H := binary_round_signed false p 0).
    destruct (binary_round Binary64.prec Binary64.emax false p 0); simpl in *; auto; contradiction.
  - assert (H := binary_round_signed true p 0).
    destruct (binary_round Binary64.prec Binary64.emax true p 0); simpl in *; auto; contradiction.
Qed.

Lemma of_int_finite (z : Z) (f : spec_float) :
  Binary64.of_int z = Some f -> Binary64.is_finite f = true.
Proof.
  unfold Binary64.of_int. intros H. assert (N := nearest_not_nan z).
  destruct (Binary64.nearest z); simpl in *; try discriminate;
    injection H as <-; reflexivity.
Qed.

Lemma of_int_nonneg (z : Z) (f : spec_float) :
  0 <= z -> Binary64.of_int z = Some f -> Binary64.nonneg f = true.
Proof.
  unfold Binary64.of_int. intros Hz H. assert (N := nearest_nonneg z Hz).
  cbv zeta in H.
  destruct (Binary64.is_infinity (Binary64.nearest z)); [discriminate |].
  injection H as <-. exact N.
Qed.

Lemma SFmul_nonneg (x y : spec_float) :
  Binary64.nonneg x = true -> Binary64.nonneg y = true ->
  Binary64.is_finite x = true -> Binary64.is_finite y = true ->
  Binary64.nonneg (SFmul Binary64.prec Binary64.emax x y) = true.
Proof.
  destruct x as [sx | sx | | sx mx ex], y as [sy | sy | | sy my ey];
    simpl; try discriminate; auto.
  destruct sx, sy; try discriminate. intros _ _ _ _.
  apply signed_nonneg. apply (binary_round_aux_signed false). lia.
Qed.

Lemma SFmul_not_nan (x y : spec_float) :
  Binary64.is_finite x = true -> Binary64.is_finite y = true ->
  Binary64.is_nan (SFmul Binary64.prec Binary64.emax x y) = false.
Proof.
  destruct x as [sx | sx | | sx mx ex], y as [sy | sy | | sy my ey];
    simpl; try discriminate; auto.
  intros _ _.
  assert (H := binary_round_aux_signed (xorb sx sy) (Zpos (mx * my)) (ex + ey) loc_Exact ltac:(lia)).
  destruct (binary_round_aux Binary64.prec Binary64.emax (xorb sx sy) (Zpos (mx * my)) (ex + ey) loc_Exact);
    simpl in *; auto; contradiction.
Qed.

Lemma SFadd_nonneg (x y : spec_float) :
  Binary64.nonneg x = true -> Binary64.nonneg y = true -> Binary64.nonneg (SFadd Binary64.prec Binary64.emax x y) = true.
Proof.
  destruct x as [sx | sx | | sx mx ex], y as [sy | sy | | sy my ey];
    simpl; try discriminate; auto.
  - destruct sx, sy; reflexivity.
  - destruct sx, sy; simpl; auto.
  - destruct sx, sy; try discriminate. intros _ _.
    unfold cond_Zopp, binary_normalize.
    destruct (shl_align mx ex (IntDef.Z.min ex ey)) as [a ea].
    destruct (shl_align my ey (IntDef.Z.min ex ey)) as [b eb]. simpl fst.
    change (Zpos a + Zpos b) with (Zpos (a + b)).
    apply signed_nonneg, binary_round_signed.
Qed.

(** The quotient of [a] by a positive [b <= a] is at least 1. *)
Lemma truediv_ge_one (a b : Z) (f : spec_float) :
  0 < b <= a -> Binary64.truediv a b = Some f ->
  exists m e, f = S754_finite false m e /\ 1 <= Zdigits2 (Zpos m) + e.
Proof.
  intros [Hb Hab]. unfold Binary64.truediv.
  destruct (b =? 0) eqn:Eb; [lia |].
  destruct a as [| pa | pa]; try lia. destruct b as [| pb | pb]; try lia.
  cbn [Binary64.exact SFdiv xorb].
  unfold SFdiv_core_binary.
  set (e' := IntDef.Z.min (fexp Binary64.prec Binary64.emax (Zdigits2 (Zpos pa) + 0 - (Zdigits2 (Zpos pb) + 0))) (0 - 0)).
  assert (He : e' <= 0) by (subst e'; apply Z.le_min_r).
  set (m' := match 0 - 0 - e' with 0 => Zpos pa | Zpos _ => IntDef.Z.shiftl (Zpos pa) (0 - 0 - e') | Zneg _ => 0 end).
  assert (Hm : m' = Zpos pa * 2 ^ (- e')).
  { subst m'. replace (0 - 0 - e') with (- e') by lia.
    destruct (- e') as [| p | p] eqn:E; [simpl; lia | | lia].
    rewrite <- E. apply Z.shiftl_mul_pow2. lia. }
  assert (Hq : 2 ^ (- e') <= m' / Zpos pb).
  { apply Z.div_le_lower_bound; [lia |]. rewrite Hm.
    assert (0 < 2 ^ (- e')) by (apply Z.pow_pos_nonneg; lia). nia. }
  assert (Hdiv := Z.div_eucl_eq m' (Zpos pb) ltac:(lia)).
  unfold Z.div in Hq.
  change IntDef.Z.div_eucl with Z.div_eucl.
  destruct (Z.div_eucl m' (Zpos pb)) as [q r]. simpl in Hq.
  assert (Hpos : 0 < 2 ^ (- e')) by (apply Z.pow_pos_nonneg; lia).
  assert (Hdig := Zdigits2_lower q (- e') ltac:(lia) Hq).
  assert (R := binary_round_aux_magnitude false q e' (new_location (Zpos pb) r) ltac:(lia) ltac:(lia)).
  destruct (binary_round_aux Binary64.prec Binary64.emax false q e' (new_location (Zpos pb) r)) as [s | s | | s m e];
    cbn [Binary64.is_infinity]; try contradiction; try discriminate.
  intros H. injection H as <-. destruct R as (-> & R1 & R2).
  exists m, e. split; [reflexivity | lia].
Qed.

Lemma nearest_100 : Binary64.nearest 100 = S754_finite false 7036874417766400 (-46).
Proof. reflexivity. Qed.

Lemma nearest_30 : Binary64.nearest 30 = S754_finite false 8444249301319680 (-48).
Proof. reflexivity. Qed.

(** A double that is at least 1, times 100, is not below 30. *)
Lemma times_100_not_low (m : positive) (e : Z) :
  1 <= Zdigits2 (Zpos m) + e ->
  SFltb (SFmul Binary64.prec Binary64.emax (S754_finite false m e) (Binary64.nearest 100)) (Binary64.nearest 30) = false.
Proof.
  intros H. rewrite nearest_100, nearest_30. cbn [SFmul xorb].
  assert (Hd : Zdigits2 (Zpos m) + 52 <= Zdigits2 (Zpos (m * 7036874417766400))).
  { destruct (digits2_pos_bounds m) as [Hl _].
    assert (Hp : 0 < 2 ^ (Zpos (digits2_pos m) - 1)) by (apply Z.pow_pos_nonneg; lia).
    assert (H2 : 2 ^ (Zpos (digits2_pos m) - 1 + 52) <= Zpos (m * 7036874417766400)).
    { rewrite Z.pow_add_r by lia. rewrite Pos2Z.inj_mul.
      change (2 ^ 52) with 4503599627370496. nia. }
    apply Zdigits2_lower in H2; [| lia]. simpl Zdigits2 at 1. lia. }
  assert (R := binary_round_aux_magnitude false (Zpos (m * 7036874417766400)) (e + -46) loc_Exact
                 ltac:(lia) ltac:(lia)).
  destruct (binary_round_aux Binary64.prec Binary64.emax false (Zpos (m * 7036874417766400)) (e + -46) loc_Exact)
    as [s | s | | s m' e']; try contradiction.
  - subst s. reflexivity.
  - destruct R as (-> & _ & R). unfold SFltb, SFcompare.
    destruct (Z.compare_spec e' (-48)); try lia; reflexivity.
Qed.

(** Comparisons against two constants. *)
Lemma SFcompare_antisym (x y : spec_float) :
  SFcompare y x = option_map CompOpp (SFcompare x y).
Proof.
  destruct x as [sx | sx | | sx mx ex], y as [sy | sy | | sy my ey]; simpl; try reflexivity;
    try (destruct sx; reflexivity); try (destruct sy; reflexivity);
    try (destruct sx, sy; reflexivity).
  change (PosDef.Pos.compare_cont Eq) with Pos.compare.
  destruct sx, sy; try reflexivity; f_equal;
    destruct (Z.compare_spec ey ex), (Z.compare_spec ex ey); try lia; try reflexivity;
    destruct (Pos.compare_spec my mx), (Pos.compare_spec mx my); try lia; reflexivity.
Qed.

Lemma SFltb_not_leb (x y : spec_float) :
  Binary64.is_nan x = false -> Binary64.is_nan y = false -> SFltb x y = negb (SFleb y x).
Proof.
  intros Hx Hy. unfold SFltb, SFleb. rewrite (SFcompare_antisym x y).
  destruct (SFcompare x y) as [c |] eqn:E; [destruct c; reflexivity |].
  destruct x, y; try discriminate.
Qed.

(** The two thresholds of the cost tiers. *)
Lemma cost_thresholds_exclusive (x : spec_float) :
  Binary64.is_nan x = false ->
  (Nat.b2n (SFleb (Binary64.nearest 100000) x)
   + Nat.b2n (SFleb (Binary64.nearest 10000) x && SFltb x (Binary64.nearest 100000))
   + Nat.b2n (SFltb x (Binary64.nearest 10000)) = 1)%nat.
Proof.
  intros Hx.
  rewrite !SFltb_not_leb by (exact Hx || reflexivity).
  assert (H : SFleb (Binary64.nearest 100000) x = true -> SFleb (Binary64.nearest 10000) x = true).
  { change (Binary64.nearest 100000) with (S754_finite false 6871947673600000 (-36)).
    change (Binary64.nearest 10000) with (S754_finite false 5497558138880000 (-39)).
    destruct x as [s | s | | s m e].
    - discriminate.
    - destruct s; [discriminate | reflexivity].
    - discriminate.
    - destruct s; [discriminate |]. unfold SFleb, SFcompare.
      destruct (Z.compare_spec (-36) e), (Z.compare_spec (-39) e);
        try lia; try discriminate; auto. }
  destruct (SFleb (Binary64.nearest 100000) x).
  - rewrite H by reflexivity. reflexivity.
  - destruct (SFleb (Binary64.nearest 10000) x); reflexivity.
Qed.

(** ** The statistics in binary64 *)

Lemma count_where_raised {A : Type} (cond : A -> option bool) (l : list A) :
  fold_left
    (fun acc x => match acc with
                  | Some n => match cond x with
                              | Some c => Some (if c : bool then S n else n)
                              | None => None
                              end
                  | None => None
                  end)
    l None = None.
Proof. induction l as [| x l IH]; simpl; auto. Qed.

(** A count that returns has evaluated its test on every row, and counts
    the rows on which it succeeds. *)
Lemma count_where_spec {A : Type} (cond : A -> option bool) (l : list A) (n : nat) :
  Binary64.count_where cond l = Some n ->
  Forall (fun x => cond x <> None) l /\ n = Py.count (Binary64.holds cond) l.
Proof.
  unfold Binary64.count_where.
  assert (H : forall (l : list A) (n0 n : nat),
             fold_left
               (fun acc x => match acc with
                             | Some n => match cond x with
                                         | Some c => Some (if c : bool then S n else n)
                                         | None => None
                                         end
                             | None => None
                             end)
               l (Some n0) = Some n ->
             Forall (fun x => cond x <> None) l
             /\ n = (n0 + Py.count (Binary64.holds cond) l)%nat).
  { clear. intros l. induction l as [| x l IH]; intros n0 n H; simpl in H.
    - injection H as <-. split; [constructor | unfold Py.count; simpl; lia].
    - destruct (cond x) as [c |] eqn:E.
      + apply IH in H. destruct H as [HF ->].
        split; [constructor; [congruence | exact HF] |].
        rewrite count_cons. unfold Binary64.holds at 2. rewrite E.
        destruct c; simpl; lia.
      + rewrite count_where_raised in H. discriminate. }
  intros Hn. apply H in Hn. exact Hn.
Qed.

Lemma count_three_way_in {A : Type} (p q r : A -> bool) (l : list A) :
  Forall (fun x => (Nat.b2n (p x) + Nat.b2n (q x) + Nat.b2n (r x) = 1)%nat) l ->
  (Py.count p l + Py.count q l + Py.count r l = List.length l)%nat.
Proof.
  induction 1 as [| x l Hx _ IH].
  - reflexivity.
  - rewrite !count_cons. simpl List.length. lia.
Qed.

Lemma sum_where_raised {A : Type} (cond : A -> option bool) (term : A -> option Binary64.num)
    (l : list A) :
  fold_left
    (fun acc x => match acc with
                  | Some a => match cond x with
                              | Some c =>
                                  if c : bool
                                  then match term x with
                                       | Some v => Binary64.add a v
                                       | None => None
                                       end
                                  else Some a
                              | None => None
                              end
                  | None => None
                  end)
    l None = None.
Proof. induction l as [| x l IH]; simpl; auto. Qed.

(** The sum of two numbers that are not below 0 is not below 0. *)
Lemma add_nonneg (a b r : Binary64.num) :
  Binary64.ge_const a 0 = true -> Binary64.ge_const b 0 = true ->
  Binary64.add a b = Some r -> Binary64.ge_const r 0 = true.
Proof.
  assert (N : Binary64.nearest 0 = S754_zero false) by reflexivity.
  destruct a as [x | x], b as [y | y];
    cbn [Binary64.ge_const Binary64.add Binary64.to_float];
    rewrite ?N, ?nonneg_leb; intros Ha Hb H.
  - injection H as <-. cbn [Binary64.ge_const]. apply Z.leb_le in Ha, Hb. apply Z.leb_le. lia.
  - destruct (Binary64.of_int x) as [fx |] eqn:E; [| discriminate].
    injection H as <-. cbn [Binary64.ge_const]. rewrite N, nonneg_leb.
    apply SFadd_nonneg; [| exact Hb].
    apply (of_int_nonneg x); [apply Z.leb_le; exact Ha | exact E].
  - destruct (Binary64.of_int y) as [fy |] eqn:E; [| discriminate].
    injection H as <-. cbn [Binary64.ge_const]. rewrite N, nonneg_leb.
    apply SFadd_nonneg; [exact Ha |].
    apply (of_int_nonneg y); [apply Z.leb_le; exact Hb | exact E].
  - injection H as <-. cbn [Binary64.ge_const]. rewrite N, nonneg_leb.
    apply SFadd_nonneg; assumption.
Qed.

(** A conditional sum whose selected terms are not below 0 is not below
    0. *)
Lemma sum_where_nonneg {A : Type} (cond : A -> option bool)
    (term : A -> option Binary64.num) (l : list A) (r : Binary64.num) :
  (forall x v, In x l -> cond x = Some true -> term x = Some v ->
               Binary64.ge_const v 0 = true) ->
  Binary64.sum_where cond term l = Some r ->
  Binary64.ge_const r 0 = true.
Proof.
  unfold Binary64.sum_where.
  assert (H : forall (l : list A) (a r : Binary64.num),
             (forall x v, In x l -> cond x = Some true -> term x = Some v ->
                          Binary64.ge_const v 0 = true) ->
             Binary64.ge_const a 0 = true ->
             fold_left
               (fun acc x => match acc with
                             | Some a => match cond x with
                                         | Some c =>
                                             if c : bool
                                             then match term x with
                                                  | Some v => Binary64.add a v
                                                  | None => None
                                                  end
                                             else Some a
                                         | None => None
                                         end
                             | None => None
                             end)
               l (Some a) = Some r ->
             Binary64.ge_const r 0 = true).
  { clear. intros l. induction l as [| x l IH]; intros a r Hterm Ha H; simpl in H.
    - injection H as <-. exact Ha.
    - destruct (cond x) as [[|] |] eqn:Ec.
      + destruct (term x) as [v |] eqn:Et.
        * destruct (Binary64.add a v) as [a' |] eqn:Ea.
          -- apply (IH a' r); [intros y w Hy; apply Hterm; right; exact Hy | | exact H].
             apply (add_nonneg a v a'); [exact Ha | | exact Ea].
             apply (Hterm x v); [left; reflexivity | exact Ec | exact Et].
          -- rewrite sum_where_raised in H. discriminate.
        * rewrite sum_where_raised in H. discriminate.
      + apply (IH a r); [intros y w Hy; apply Hterm; right; exact Hy | exact Ha | exact H].
      + rewrite sum_where_raised in H. discriminate. }
  intros Hterm Hr. apply (H l (Binary64.Int 0) r Hterm); [reflexivity | exact Hr].
Qed.

(** What the fields of a computed record are. *)
Lemma try_block_fields (db : Store) (now_a now_b : Z) (stats : Binary64.t) :
  Binary64.try_block db now_a now_b = Some stats ->
  let total := Py.sumZ Software.total_licenses (software db) in
  let used := Py.sumZ (used_licenses db) (software db) in
  let line_cost s :=
    Binary64.mul (Binary64.Float (Binary64.cost_per_license s))
                 (Binary64.Int (Software.total_licenses s)) in
  (if total >? 0
   then match Binary64.div (Binary64.Int used) (Binary64.Int total) with
        | Some q => Binary64.mul q (Binary64.Int 100)
        | None => None
        end
   else Some (Binary64.Int 0)) = Some (Binary64.utilization stats)
  /\ Binary64.sum_where
       (fun s => match Binary64.usage_percentage db s with
                 | Some u => Some (Binary64.lt_const u 30)
                 | None => None
                 end)
       (fun s => Binary64.mul (Binary64.Int (Software.total_licenses s - used_licenses db s))
                              (Binary64.Float (Binary64.cost_per_license s)))
       (software db) = Some (Binary64.potential_savings stats)
  /\ Binary64.total_software stats = List.length (software db)
  /\ Binary64.count_where
       (fun s => match line_cost s with
                 | Some c => Some (Binary64.ge_const c 100000)
                 | None => None
                 end) (software db)
     = Some (Stats.high (Binary64.cost_categories stats))
  /\ Binary64.count_where
       (fun s => match line_cost s with
                 | Some c => Some (Binary64.ge_const c 10000 && Binary64.lt_const c 100000)
                 | None => None
                 end) (software db)
     = Some (Stats.medium (Binary64.cost_categories stats))
  /\ Binary64.count_where
       (fun s => match line_cost s with
                 | Some c => Some (Binary64.lt_const c 10000)
                 | None => None
                 end) (software db)
     = Some (Stats.low (Binary64.cost_categories stats)).
Proof.
  unfold Binary64.try_block. intros H.
  repeat match type of H with
         | match ?c with Some _ => _ | None => _ end = Some _ =>
             let E := fresh "E" in destruct c eqn:E; [| discriminate H]
         end.
  injection H as <-. simpl. repeat split; assumption.
Qed.

(** With at least as many active licenses as seats the usage percentage
    is not below 30: the quotient is a double that is at least 1. *)
Lemma usage_not_low (db : Store) (s : Software.t) (u : Binary64.num) :
  0 < Software.total_licenses s <= used_licenses db s ->
  Binary64.usage_percentage db s = Some u ->
  Binary64.lt_const u 30 = false.
Proof.
  intros Hle. unfold Binary64.usage_percentage.
  destruct (Software.total_licenses s =? 0) eqn:E; [apply Z.eqb_eq in E; lia |].
  cbn [Binary64.div].
  destruct (Binary64.truediv (used_licenses db s) (Software.total_licenses s)) as [f |] eqn:Ef;
    [| discriminate].
  destruct (truediv_ge_one _ _ f Hle Ef) as (m & e & -> & Hmag).
  cbn [Binary64.mul Binary64.to_float].
  change (Binary64.of_int 100) with (Some (Binary64.nearest 100)).
  intros H. injection H as <-.
  cbn [Binary64.lt_const]. apply times_100_not_low. exact Hmag.
Qed.

(** C1, as amended. For every Software collection, [utilization] is the
    [int] 0 when the seats sum to 0 or less.  When the sum is positive,
    it is the double [used / total * 100] of Python: the quotient of the
    two sums rounded to the nearest double, times 100, rounded again;
    when the [try] raises, it is the 0 of the zeroed record. *)
Theorem utilization_binary64 (db : Store) (now_a now_b : Z) :
  let total := Py.sumZ Software.total_licenses (software db) in
  let used := Py.sumZ (used_licenses db) (software db) in
  let stats := Binary64.get_dashboard_stats (Some db) now_a now_b in
  (total <= 0 -> Binary64.utilization stats = Binary64.Int 0)
  /\ (0 < total ->
      match Binary64.try_block db now_a now_b with
      | Some _ =>
          exists q, Binary64.truediv used total = Some q
                    /\ Binary64.utilization stats
                       = Binary64.Float
                           (SFmul Binary64.prec Binary64.emax q (Binary64.nearest 100))
      | None => Binary64.utilization stats = Binary64.Int 0
      end).
Proof.
  intros total used stats. unfold stats, Binary64.get_dashboard_stats.
  split.
  - intros Hle.
    destruct (Binary64.try_block db now_a now_b) as [st |] eqn:E; [| reflexivity].
    apply try_block_fields in E. destruct E as (Hu & _).
    fold total in Hu.
    destruct (total >? 0) eqn:Eg; [apply Z.gtb_lt in Eg; lia |].
    injection Hu as <-. reflexivity.
  - intros Hpos.
    destruct (Binary64.try_block db now_a now_b) as [st |] eqn:E; [| reflexivity].
    apply try_block_fields in E. destruct E as (Hu & _).
    fold total used in Hu.
    destruct (total >? 0) eqn:Eg; [| rewrite Z.gtb_ltb in Eg; apply Z.ltb_ge in Eg; lia].
    cbn [Binary64.div] in Hu.
    destruct (Binary64.truediv used total) as [q |]; [| discriminate].
    exists q. split; [reflexivity |].
    cbn [Binary64.mul Binary64.to_float] in Hu.
    change (Binary64.of_int 100) with (Some (Binary64.nearest 100)) in Hu.
    injection Hu as <-. reflexivity.
Qed.

(** A negative seat count, with one active license: the seats sum to -4,
    which is not 0, and [utilization] is 0, not 1 / -4 * 100 = -25. *)
Lemma utilization_negative_seat_sum :
  let total := Py.sumZ Software.total_licenses (software Ledger.overdrawn) in
  let used := Py.sumZ (used_licenses Ledger.overdrawn) (software Ledger.overdrawn) in
  let stats := Binary64.get_dashboard_stats (Some Ledger.overdrawn) 0 0 in
  total <> 0
  /\ Binary64.utilization stats = Binary64.Int 0
  /\ ~ Binary64.equals (Binary64.utilization stats)
                       ((inject_Z used / inject_Z total) * (100 # 1))%Q.
Proof.
  vm_compute. repeat split; try discriminate.
Qed.

(** One of three seats in use: [utilization] is the double
    33.33333333333333, which is not the rational 100/3. *)
Lemma utilization_rounded :
  let stats := Binary64.get_dashboard_stats (Some Ledger.third) 0 0 in
  Binary64.utilization stats
  = Binary64.Float (S754_finite false 4691249611844266 (-47))
  /\ ~ Binary64.equals (Binary64.utilization stats)
                       ((inject_Z 1 / inject_Z 3) * (100 # 1))%Q.
Proof.
  vm_compute. split; [reflexivity | discriminate].
Qed.

(** C3, as amended. For every Software collection with non-negative seat
    counts and finite, non-negative per-seat costs in which no item with
    zero seats has an active license, [potential_savings >= 0]. *)
Theorem potential_savings_finite_nonneg (db : Store) (now_a now_b : Z) :
  Forall (fun s => 0 <= Software.total_licenses s
                   /\ Binary64.ge_const (Binary64.Float (Binary64.cost_per_license s)) 0 = true
                   /\ Binary64.is_finite (Binary64.cost_per_license s) = true
                   /\ (Software.total_licenses s = 0 -> used_licenses db s = 0))
         (software db) ->
  Binary64.ge_const
    (Binary64.potential_savings (Binary64.get_dashboard_stats (Some db) now_a now_b)) 0
  = true.
Proof.
  intros Hwf. unfold Binary64.get_dashboard_stats.
  destruct (Binary64.try_block db now_a now_b) as [st |] eqn:E; [| reflexivity].
  apply try_block_fields in E. destruct E as (_ & Hps & _).
  apply sum_where_nonneg in Hps; [exact Hps |].
  intros s v Hin Hc Ht.
  rewrite Forall_forall in Hwf.
  destruct (Hwf s Hin) as (Hnn & Hcost & Hfin & Hzero).
  destruct (Binary64.usage_percentage db s) as [u |] eqn:Eu; [| discriminate].
  injection Hc as Hlow.
  assert (Hdelta : 0 <= Software.total_licenses s - used_licenses db s).
  { destruct (Z.eq_dec (Software.total_licenses s) 0) as [E0 | N0].
    - rewrite (Hzero E0), E0. lia.
    - destruct (Z_le_gt_dec (Software.total_licenses s) (used_licenses db s)) as [Hle | Hgt];
        [| lia].
      rewrite (usage_not_low db s u) in Hlow; [discriminate | lia | exact Eu]. }
  cbn [Binary64.mul Binary64.to_float] in Ht.
  destruct (Binary64.of_int (Software.total_licenses s - used_licenses db s)) as [d |] eqn:Ed;
    [| discriminate].
  injection Ht as <-.
  cbn [Binary64.ge_const] in Hcost |- *.
  change (Binary64.nearest 0) with (S754_zero false) in Hcost |- *.
  rewrite nonneg_leb in Hcost |- *.
  apply SFmul_nonneg.
  - exact (of_int_nonneg _ _ Hdelta Ed).
  - exact Hcost.
  - exact (of_int_finite _ _ Ed).
  - exact Hfin.
Qed.

(** A product without seats that has an active license: its seat delta
    is -1, it is in the low tier, and [potential_savings] is -10.0.  The
    statement of C3 fails. *)
Lemma potential_savings_negative :
  let stats := Binary64.get_dashboard_stats (Some Sample.seatless) 0 0 in
  Binary64.potential_savings stats = Binary64.Float (Binary64.nearest (-10))
  /\ Binary64.ge_const (Binary64.potential_savings stats) 0 = false.
Proof.
  vm_compute. split; reflexivity.
Qed.

(** A cost of [1e999] is stored as infinity; with no seats and no
    license the seat delta is 0, and [potential_savings] is
    [0 * inf = nan], which is not [>= 0]. *)
Lemma potential_savings_nan :
  let stats := Binary64.get_dashboard_stats (Some Ledger.unbounded) 0 0 in
  Forall (fun s => Binary64.cost_per_license s = S754_infinity false)
         (software Ledger.unbounded)
  /\ Binary64.potential_savings stats = Binary64.Float S754_nan
  /\ Binary64.ge_const (Binary64.potential_savings stats) 0 = false.
Proof.
  cbv zeta. split; [| split; vm_compute; reflexivity].
  apply Forall_cons; [vm_compute; reflexivity | apply Forall_nil].
Qed.

Lemma potential_savings_finite_nonneg_witness :
  Binary64.ge_const
    (Binary64.potential_savings (Binary64.get_dashboard_stats (Some Sample.fleet) 0 0)) 0
  = true.
Proof.
  apply (potential_savings_finite_nonneg Sample.fleet 0 0).
  repeat (apply Forall_cons; [repeat split; try (vm_compute; reflexivity);
                              try (simpl; lia); try discriminate |]).
  apply Forall_nil.
Defined.

(** The cost tiers split a collection whose per-seat costs are finite:
    every product is in exactly one of high (line cost at least 100000),
    medium (from 10000 up to, not including, 100000) and low (below
    10000), so the three counts add up to [total_software].  The line
    cost is a double; with finite factors it is not NaN. *)
Theorem cost_categories_partition (db : Store) (now_a now_b : Z) :
  Forall (fun s => Binary64.is_finite (Binary64.cost_per_license s) = true) (software db) ->
  let stats := Binary64.get_dashboard_stats (Some db) now_a now_b in
  let cats := Binary64.cost_categories stats in
  (Stats.high cats + Stats.medium cats + Stats.low cats
   = Binary64.total_software stats)%nat.
Proof.
  intros Hfin stats cats. unfold cats, stats, Binary64.get_dashboard_stats.
  destruct (Binary64.try_block db now_a now_b) as [st |] eqn:E; [| reflexivity].
  apply try_block_fields in E. destruct E as (_ & _ & Hn & Hh & Hm & Hl).
  apply count_where_spec in Hh, Hm, Hl.
  destruct Hh as [Hev ->]. destruct Hm as [_ ->]. destruct Hl as [_ ->].
  rewrite Hn. apply count_three_way_in.
  rewrite Forall_forall in Hfin, Hev |- *.
  intros s Hin. specialize (Hfin s Hin). specialize (Hev s Hin).
  unfold Binary64.holds. cbn [Binary64.mul Binary64.to_float] in Hev |- *.
  destruct (Binary64.of_int (Software.total_licenses s)) as [y |] eqn:Ey;
    [| exfalso; apply Hev; reflexivity].
  cbn [Binary64.ge_const Binary64.lt_const].
  assert (Hnan := SFmul_not_nan (Binary64.cost_per_license s) y Hfin (of_int_finite _ _ Ey)).
  assert (H := cost_thresholds_exclusive _ Hnan).
  destruct (SFleb (Binary64.nearest 100000)
                  (SFmul Binary64.prec Binary64.emax (Binary64.cost_per_license s) y)),
           (SFleb (Binary64.nearest 10000)
                  (SFmul Binary64.prec Binary64.emax (Binary64.cost_per_license s) y)),
           (SFltb (SFmul Binary64.prec Binary64.emax (Binary64.cost_per_license s) y)
                  (Binary64.nearest 100000)),
           (SFltb (SFmul Binary64.prec Binary64.emax (Binary64.cost_per_license s) y)
                  (Binary64.nearest 10000));
    exact H.
Qed.

Lemma cost_categories_partition_witness :
  let stats := Binary64.get_dashboard_stats (Some Sample.fleet) 0 0 in
  let cats := Binary64.cost_categories stats in
  (Stats.high cats + Stats.medium cats + Stats.low cats
   = Binary64.total_software stats)%nat.
Proof.
  apply (cost_categories_partition Sample.fleet 0 0).
  repeat (apply Forall_cons; [vm_compute; reflexivity |]).
  apply Forall_nil.
Defined.

(** A product whose cost is stored as infinity and that has no seats has
    the line cost [inf * 0 = nan], which fails the three tests: it is in
    no cost tier. *)
Lemma cost_tiers_miss_nan :
  let stats := Binary64.get_dashboard_stats (Some Ledger.unbounded) 0 0 in
  Binary64.cost_categories stats = Stats.mkCat 0 0 0
  /\ Binary64.total_software stats = 1%nat.
Proof.
  vm_compute. split; reflexivity.
Qed.
